(** * Insta Repo: the generation pipeline and the document compilers

    A shallow embedding of [insta_repo.py]: the session document, the
    retrying generation client, the five content handlers, the add and
    remove operations of the entry lists and the three compilers,
    followed by the properties proved about them.

    Text is modelled by [string], a sequence of bytes read as UTF-8.  The
    Python string methods that depend on character classes ([strip],
    [upper]) and [len] are modelled for ASCII text: a byte above 127 counts
    as one character that is neither white space nor a letter, so the
    literals of the source that are not ASCII pass through unchanged. *)

From Stdlib Require Import Ascii DecimalString QArith Qcanon.
From stdpp Require Import base strings list gmap.

Local Open Scope stdpp_scope.

(** ** Python string primitives *)

Module Py.

(** The line feed and the double quote, which have no literal form. *)
Definition nl : string := String "010"%char EmptyString.
Definition dq : ascii := "034"%char.

(** [str.isspace] on one ASCII character: TAB, LF, VT, FF, CR, the four
    separators FS, GS, RS, US, and the blank. *)
Definition isspace (c : ascii) : bool :=
  match c with
  | "009" | "010" | "011" | "012" | "013"
  | "028" | "029" | "030" | "031" | " " => true
  | _ => false
  end%char.

(** [s.lstrip()], [s.rstrip()] and [s.strip()] with no argument. *)
Fixpoint lstrip (s : string) : string :=
  match s with
  | String c r => if isspace c then lstrip r else s
  | EmptyString => EmptyString
  end.

Fixpoint rstrip (s : string) : string :=
  match s with
  | String c r =>
      match rstrip r with
      | EmptyString => if isspace c then EmptyString else String c EmptyString
      | r' => String c r'
      end
  | EmptyString => EmptyString
  end.

Definition strip (s : string) : string := rstrip (lstrip s).

(** Truthiness of a string: the empty string is the only falsy one. *)
Definition truthy (s : string) : bool :=
  match s with EmptyString => false | String _ _ => true end.

(** [s.upper()] on ASCII letters. *)
Definition upper_char (c : ascii) : ascii :=
  let n := nat_of_ascii c in
  if (97 <=? n)%nat && (n <=? 122)%nat then ascii_of_nat (n - 32) else c.

Fixpoint upper (s : string) : string :=
  match s with
  | String c r => String (upper_char c) (upper r)
  | EmptyString => EmptyString
  end.

(** [s.split(sep)] for a one-character separator: never the empty list,
    and empty pieces are kept. *)
Fixpoint split (sep : ascii) (s : string) : list string :=
  match s with
  | EmptyString => [EmptyString]
  | String c r =>
      if decide (c = sep) then EmptyString :: split sep r
      else match split sep r with
           | piece :: pieces => String c piece :: pieces
           | [] => [String c EmptyString]
           end
  end.

(** [sep.join(pieces)]. *)
Fixpoint join (sep : string) (pieces : list string) : string :=
  match pieces with
  | [] => EmptyString
  | [piece] => piece
  | piece :: rest => piece +:+ sep +:+ join sep rest
  end.

(** [s.startswith(p)]. *)
Fixpoint startswith (p s : string) : bool :=
  match p, s with
  | EmptyString, _ => true
  | String a p', String b s' => if decide (a = b) then startswith p' s' else false
  | String _ _, EmptyString => false
  end.

(** [p in s]: [p] occurs in [s] as a substring. *)
Fixpoint contains (p s : string) : bool :=
  startswith p s ||
  match s with
  | String _ r => contains p r
  | EmptyString => false
  end.

(** [s * n]. *)
Fixpoint times (s : string) (n : nat) : string :=
  match n with
  | O => EmptyString
  | S k => s +:+ times s k
  end.

(** [len(s)]. *)
Definition len (s : string) : nat := String.length s.

(** [str(n)] for a natural number. *)
Definition str_of_nat (n : nat) : string :=
  NilZero.string_of_uint (Nat.to_uint n).

(** The concatenation of the pieces of an f-string. *)
Definition cat (pieces : list string) : string := join EmptyString pieces.

(** Markup literals of the source are full of double quotes; they are
    written here with a backquote in place of each double quote (the
    source has no backquote), and [q] puts the double quotes back. *)
Fixpoint q (s : string) : string :=
  match s with
  | String c r => String (if decide (c = "`"%char) then dq else c) (q r)
  | EmptyString => EmptyString
  end.

End Py.

Import Py.

(** ** The document model ([st.session_state.data]) *)

(** Entry identifiers are Python numbers: the integer [1] of the initial
    entries or the float returned by [time.time()].  Python compares them by
    numeric value, and every finite float is a rational, so an identifier is
    modelled by its value in [Qc]. *)
Definition Id := Qc.

Record Personal := mkPersonal {
  name : string;
  email : string;
  phone : string;
  linkedin : string
}.

Record EducationEntry := mkEducation {
  edu_id : Id;
  institution : string;
  degree : string;
  edu_dates : string
}.

Record ExperienceEntry := mkExperience {
  exp_id : Id;
  title : string;
  company : string;
  exp_dates : string;
  bullets : string
}.

Record PortfolioEntry := mkPortfolio {
  proj_id : Id;
  proj_name : string;
  link : string;
  description : string
}.

Record CoverLetterInputs := mkInputs {
  cl_company : string;
  cl_title : string
}.

Record Document := mkDocument {
  personal : Personal;
  summary : string;
  education : list EducationEntry;
  experience : list ExperienceEntry;
  skills : list string;
  portfolio : list PortfolioEntry;
  cover_letter_inputs : CoverLetterInputs;
  cover_letter_draft : string
}.

(** Field assignments [data['k'] = v]. *)
Definition set_summary (v : string) (d : Document) : Document :=
  mkDocument (personal d) v (education d) (experience d) (skills d)
             (portfolio d) (cover_letter_inputs d) (cover_letter_draft d).
Definition set_education (v : list EducationEntry) (d : Document) : Document :=
  mkDocument (personal d) (summary d) v (experience d) (skills d)
             (portfolio d) (cover_letter_inputs d) (cover_letter_draft d).
Definition set_experience (v : list ExperienceEntry) (d : Document) : Document :=
  mkDocument (personal d) (summary d) (education d) v (skills d)
             (portfolio d) (cover_letter_inputs d) (cover_letter_draft d).
Definition set_skills (v : list string) (d : Document) : Document :=
  mkDocument (personal d) (summary d) (education d) (experience d) v
             (portfolio d) (cover_letter_inputs d) (cover_letter_draft d).
Definition set_portfolio (v : list PortfolioEntry) (d : Document) : Document :=
  mkDocument (personal d) (summary d) (education d) (experience d) (skills d)
             v (cover_letter_inputs d) (cover_letter_draft d).
Definition set_cover_letter_draft (v : string) (d : Document) : Document :=
  mkDocument (personal d) (summary d) (education d) (experience d) (skills d)
             (portfolio d) (cover_letter_inputs d) v.

(** [{**exp, 'bullets': v}] and [{**proj, 'description': v}]. *)
Definition with_bullets (v : string) (e : ExperienceEntry) : ExperienceEntry :=
  mkExperience (exp_id e) (title e) (company e) (exp_dates e) v.
Definition with_description (v : string) (p : PortfolioEntry) : PortfolioEntry :=
  mkPortfolio (proj_id p) (proj_name p) (link p) v.

(** The document installed when the session starts. *)
Definition initial_data : Document := {|
  personal := {| name := "Student Name";
                 email := "email@example.com";
                 phone := "123-456-7890";
                 linkedin := "https//linkedin/profile" |};
  summary := "A highly motivated student seeking a challenging internship in AI and Cloud computing, leveraging strong foundational skills in Python and machine learning to drive impactful project execution.";
  education :=
    [ {| edu_id := Q2Qc 1;
         institution := "University/College Name";
         degree := "B.Tech/B.Sc in Computer Science";
         edu_dates := "2021 - 2025" |} ];
  experience :=
    [ {| exp_id := Q2Qc 1;
         title := "AI and Cloud Intern";
         company := "Edunet/IBM SkillsBuild";
         exp_dates := "June 2024 - Present";
         bullets := cat ["Successfully completed AI and Cloud internship project."; nl;
                         "Gained hands-on experience with cloud services and generative AI tools."; nl;
                         "Applied Python and data analysis techniques to optimize project outcomes."] |} ];
  skills := ["Python"; "Cloud Computing (IBM/AWS/Azure)"; "Generative AI";
             "Data Analysis"; "Web Development (React/JS)"];
  portfolio :=
    [ {| proj_id := Q2Qc 1;
         proj_name := "AI Resume Builder Project";
         link := "https://github.com/my-project";
         description := "Developed an AI tool to generate and optimize resumes and portfolios using Gemini API for content refinement." |} ];
  cover_letter_inputs := {| cl_company := ""; cl_title := "" |};
  cover_letter_draft := ""
|}.

Definition SECTION_ORDER : list string :=
  ["summary"; "skills"; "portfolio"; "experience"; "education"].

(** ** Session state, environment and observable effects *)

(** [st.session_state.ai_loading]: [None], a use-case tag, or an entry id. *)
Inductive Loading :=
| LoadingTag (use_case : string)
| LoadingId (id : Id).

(** [st.session_state]. *)
Record Session := mkSession {
  data : Document;
  ai_loading : option Loading;
  generated_html : string;
  theme : string
}.

Definition initial_session : Session :=
  {| data := initial_data; ai_loading := None; generated_html := ""; theme := "light" |}.

(** What the program does to the outside, in the order it does it. *)
Inductive Event :=
| EvRequest (model system_instruction prompt : string)  (* one attempt: the [try] body is entered *)
| EvWarning (msg : string)                              (* st.warning *)
| EvError (msg : string)                                (* st.error *)
| EvSleep (seconds : nat)                               (* time.sleep *)
| EvMarkdown (markup : string).                         (* st.markdown *)

Record World := mkWorld {
  session : Session;
  trace : list Event
}.

Definition the_data (w : World) : Document := data (session w).

Definition put_data (d : Document) (w : World) : World :=
  mkWorld (mkSession d (ai_loading (session w)) (generated_html (session w)) (theme (session w)))
          (trace w).
Definition put_loading (l : option Loading) (w : World) : World :=
  mkWorld (mkSession (data (session w)) l (generated_html (session w)) (theme (session w)))
          (trace w).
Definition put_generated_html (h : string) (w : World) : World :=
  mkWorld (mkSession (data (session w)) (ai_loading (session w)) h (theme (session w)))
          (trace w).
Definition emit (e : Event) (w : World) : World :=
  mkWorld (session w) (trace w ++ [e]).

Definition is_request (e : Event) : bool :=
  match e with EvRequest _ _ _ => true | _ => false end.

(** The number of calls issued to the generation service so far. *)
Definition network_calls (w : World) : nat :=
  length (filter (λ e, is_request e = true) (trace w)).

(** What one execution of the [try] body of the client can do. *)
Inductive Outcome :=
| Response (text : option string)   (* the call returns; [response.text] may be [None] *)
| RaiseAPIError (str_e : string)    (* an [APIError] whose [str(e)] is [str_e] *)
| RaiseException (str_e : string).  (* any other [Exception] *)

(** Everything the handlers depend on and the source does not define: whether
    the module-level [client] was created, what the remote service does at
    attempt number [attempt] of a call, and the order in which Python
    enumerates the union of the sets built from two lists. *)
Record Env := mkEnv {
  client : bool;
  service : nat → string → string → Outcome;
  union_order : list string → list string → list string
}.

(** The one thing known of [list(set(a) | set(b))]: it lists each member of
    the union once. *)
Definition python_sets (env : Env) : Prop :=
  ∀ a b, union_order env a b ≡ₚ elements (list_to_set a ∪ list_to_set b : gset string).

(** ** The generation client *)

Definition MODEL : string := "gemini-2.5-flash".
Definition MAX_RETRIES : nat := 5.

(** The body of [for attempt in range(MAX_RETRIES)], over the attempts that
    remain.  [None] is the function falling off the end of the loop. *)
Fixpoint attempt_loop (env : Env) (prompt system_instruction : string)
    (attempts : list nat) (w : World) : option string * World :=
  match attempts with
  | [] => (None, w)
  | attempt :: rest =>
      let w := emit (EvRequest MODEL system_instruction prompt) w in
      match service env attempt prompt system_instruction with
      | Response (Some text) => (Some (strip text), w)
      | Response None =>
          let e := "'NoneType' object has no attribute 'strip'" in
          let w := emit (EvError ("An unexpected error occurred: " +:+ e)) w in
          let w := put_loading None w in
          (Some "Error: An unexpected error occurred during AI generation.", w)
      | RaiseAPIError e =>
          if contains "429" e && (attempt <? MAX_RETRIES - 1)%nat then
            let w := emit (EvWarning (cat ["Rate limit hit. Retrying in ";
                                           str_of_nat (2 ^ attempt); " seconds..."])) w in
            let w := emit (EvSleep (2 ^ attempt + 1)) w in
            attempt_loop env prompt system_instruction rest w
          else
            let w := emit (EvError ("Gemini API Call Failed: " +:+ e)) w in
            let w := put_loading None w in
            (Some "Error: Could not connect to AI service or API key is invalid.", w)
      | RaiseException e =>
          let w := emit (EvError ("An unexpected error occurred: " +:+ e)) w in
          let w := put_loading None w in
          (Some "Error: An unexpected error occurred during AI generation.", w)
      end
  end.

(** [generate_content_with_ai].  The loop never falls off its end (lemma
    [attempt_loop_returns] below), so the last branch is never taken. *)
Definition generate_content_with_ai (env : Env) (prompt system_instruction : string)
    (w : World) : string * World :=
  if negb (client env) then
    ("Error: Gemini client not initialized. Check API Key configuration.", w)
  else
    match attempt_loop env prompt system_instruction (seq 0 MAX_RETRIES) w with
    | (Some result, w) => (result, w)
    | (None, w) => ("", w)
    end.

(** The test every handler applies to a result: [result.startswith('Error')]. *)
Definition is_error (result : string) : bool := startswith "Error" result.

(** ** The content handlers *)

Definition summary_instruction : string :=
  "You are a world-class resume writer. Generate a concise, 3-4 sentence professional summary based on the provided experience and education. Use strong action verbs and highlight key skills (AI, Cloud, Python, Web Dev). Do not include any introductory phrases, just the summary text.".

Definition summary_prompt (d : Document) : string :=
  let education_text :=
    join "; " (map (λ e, cat [degree e; " from "; institution e]) (education d)) in
  let experience_text :=
    join "; " (map (λ e, cat [title e; " at "; company e; ". Key points: "; bullets e])
                   (experience d)) in
  cat ["Generate a summary for the following: "; nl; nl; "Education: "; education_text;
       nl; nl; "Experience: "; experience_text].

Definition handle_generate_summary (env : Env) (w : World) : World :=
  let w := put_loading (Some (LoadingTag "summary")) w in
  let '(result, w) :=
    generate_content_with_ai env (summary_prompt (the_data w)) summary_instruction w in
  let w := put_data (set_summary result (the_data w)) w in
  put_loading None w.

Definition skills_instruction : string :=
  "You are an AI career coach. Based on the user's current skills and their AI/Cloud internship focus, suggest 5-8 additional, relevant, high-demand skills that they should include. Provide the new skills as a comma-separated list ONLY, with no introductory text or numbering. Examples: Kubernetes, DevOps, PostgreSQL, Agile Methodology.".

Definition skills_prompt (d : Document) : string :=
  cat ["Current Skills: "; join ", " (skills d); nl; "Focus: AI and Cloud Intern"].

(** [[s.strip() for s in result.split(',') if s.strip()]]. *)
Definition parse_skills (result : string) : list string :=
  map strip (filter (λ s, truthy (strip s) = true) (split ","%char result)).

Definition handle_suggest_skills (env : Env) (w : World) : World :=
  let w := put_loading (Some (LoadingTag "skills")) w in
  let '(result, w) :=
    generate_content_with_ai env (skills_prompt (the_data w)) skills_instruction w in
  let w :=
    if negb (is_error result) then
      let new_skills := parse_skills result in
      let merged_skills := union_order env (skills (the_data w)) new_skills in
      put_data (set_skills merged_skills (the_data w)) w
    else w in
  put_loading None w.

(** How a call of a handler ends: by returning, or with an uncaught
    exception. *)
Inductive Completion :=
| Returns (w : World)
| Raises (exn : string) (w : World).

Definition bullets_instruction : string :=
  "You are an expert resume optimizer. Rewrite the following raw achievement points into 3-5 professional, high-impact bullet points. Each point must start with a strong action verb and include quantifiable results where possible. Return only the bullet points, each separated by a newline.".

Definition description_instruction : string :=
  "You are a professional portfolio project describer. Write a concise, one-sentence description for a technical portfolio project. Focus on the tools used, the problem solved, and the impact. Return only the single sentence description.".

(** [next((e for e in entries if e['id'] == id), None)], keeping the two
    fields of the entry that the handler reads: [item[title_field]] and
    [item[bullet_field]]. *)
Definition find_item {A : Type} (get_id : A → Id) (fields : A → string * string)
    (id : Id) (entries : list A) : option (string * string) :=
  fields <$> head (filter (λ e, get_id e = id) entries).

(** The first part of [handle_refine_bullets]: the entry the handler works
    on.  The outer [None] is the case of a [section] that is neither
    ['experience'] nor ['portfolio'], where [item] is never bound. *)
Definition refine_item (section : string) (id : Id) (d : Document)
    : option (option (string * string)) :=
  if decide (section = "experience") then
    Some (find_item exp_id (λ e, (title e, bullets e)) id (experience d))
  else if decide (section = "portfolio") then
    Some (find_item proj_id (λ p, (proj_name p, description p)) id (portfolio d))
  else None.

(** The pair [(system_instruction, user_prompt)] built for the entry. *)
Definition refine_request (section : string) (item_title raw : string) : string * string :=
  if decide (section = "experience") then
    (bullets_instruction,
     cat ["Title: "; item_title; nl; "Raw Points:"; nl; raw])
  else
    (description_instruction,
     cat ["Project Name: "; item_title; nl; "Existing Description (if any): "; raw]).

(** The list comprehension that writes a result back. *)
Definition refine_merge (section : string) (id : Id) (result : string) (d : Document)
    : Document :=
  if decide (section = "experience") then
    set_experience
      (map (λ exp, if decide (exp_id exp = id) then with_bullets result exp else exp)
           (experience d)) d
  else
    set_portfolio
      (map (λ proj, if decide (proj_id proj = id) then with_description result proj else proj)
           (portfolio d)) d.

(** The early return of [handle_refine_bullets]. *)
Definition nothing_to_refine (w : World) : Completion :=
  let w := emit (EvWarning "No raw input to refine.") w in
  Returns (put_loading None w).

Definition handle_refine_bullets (env : Env) (id : Id) (section : string)
    (w : World) : Completion :=
  let w := put_loading (Some (LoadingId id)) w in
  match refine_item section id (the_data w) with
  | None => Raises "UnboundLocalError" w
  | Some None => nothing_to_refine w
  | Some (Some (item_title, raw)) =>
      if negb (truthy raw) then nothing_to_refine w
      else
        let '(system_instruction, user_prompt) := refine_request section item_title raw in
        let '(result, w) := generate_content_with_ai env user_prompt system_instruction w in
        let w :=
          if negb (is_error result) then
            put_data (refine_merge section id result (the_data w)) w
          else w in
        Returns (put_loading None w)
  end.

Definition cover_letter_instruction : string :=
  "You are a highly skilled professional cover letter writer. Draft a formal, three-paragraph cover letter using the provided resume data, tailored for the specific job title and company. The tone must be professional and enthusiastic, highlighting how the candidate's experience (especially AI/Cloud) directly benefits the target company. Use proper salutations.".

Definition cover_letter_prompt (d : Document) : string :=
  let inputs := cover_letter_inputs d in
  let experience_text :=
    join (nl +:+ "- ")
         (map (λ e, cat [title e; " at "; company e; " ("; exp_dates e; "): "; bullets e])
              (experience d)) in
  cat ["Draft a cover letter for the following job application:"; nl;
       nl;
       "Target Company: "; cl_company inputs; nl;
       "Target Job Title: "; cl_title inputs; nl;
       "Candidate Name: "; name (personal d); nl;
       "Candidate Email: "; email (personal d); nl;
       "Candidate LinkedIn: "; linkedin (personal d); nl;
       "Candidate Professional Summary: "; summary d; nl;
       "Candidate Relevant Experience (Key Points): "; nl;
       "- "; experience_text; nl].

Definition validation_message : string :=
  "Error: Please enter both Target Company and Job Title.".
Definition drafting_placeholder : string :=
  "Generating professional cover letter draft...".

Definition handle_generate_cover_letter (env : Env) (w : World) : World :=
  let w := put_loading (Some (LoadingTag "cover-letter")) w in
  let inputs := cover_letter_inputs (the_data w) in
  if negb (truthy (cl_company inputs)) || negb (truthy (cl_title inputs)) then
    let w := put_data (set_cover_letter_draft validation_message (the_data w)) w in
    put_loading None w
  else
    let user_prompt := cover_letter_prompt (the_data w) in
    let w := put_data (set_cover_letter_draft drafting_placeholder (the_data w)) w in
    let '(result, w) := generate_content_with_ai env user_prompt cover_letter_instruction w in
    let w :=
      if negb (is_error result) then
        put_data (set_cover_letter_draft result (the_data w)) w
      else w in
    put_loading None w.

(** ** Adding and removing entries ([render_array_section]) *)

(** The three list sections [render_array_section] is called for. *)
Inductive SectionKey := KeyEducation | KeyExperience | KeyPortfolio.

#[global] Instance SectionKey_eq_dec : EqDecision SectionKey.
Proof. solve_decision. Defined.

(** The "Add New" button: [new_item = {'id': time.time()}], every other
    field [''], appended to the section.  [now] is what [time.time()]
    returned. *)
Definition add_entry (key : SectionKey) (now : Id) (d : Document) : Document :=
  match key with
  | KeyEducation => set_education (education d ++ [mkEducation now "" "" ""]) d
  | KeyExperience => set_experience (experience d ++ [mkExperience now "" "" "" ""]) d
  | KeyPortfolio => set_portfolio (portfolio d ++ [mkPortfolio now "" "" ""]) d
  end.

(** [l.pop(i)] for a natural [i]: [None] stands for [IndexError]. *)
Definition pop {A : Type} (i : nat) (l : list A) : option (list A) :=
  if decide (i < length l) then Some (delete i l) else None.

(** The "Remove" button of the entry shown at index [i]. *)
Definition remove_entry (key : SectionKey) (i : nat) (d : Document) : option Document :=
  match key with
  | KeyEducation => (λ l, set_education l d) <$> pop i (education d)
  | KeyExperience => (λ l, set_experience l d) <$> pop i (experience d)
  | KeyPortfolio => (λ l, set_portfolio l d) <$> pop i (portfolio d)
  end.

Inductive Op :=
| Add (key : SectionKey) (now : Id)
| Remove (key : SectionKey) (i : nat).

Definition apply_op (op : Op) (d : Document) : option Document :=
  match op with
  | Add key now => Some (add_entry key now d)
  | Remove key i => remove_entry key i d
  end.

(** A sequence of button presses, oldest first. *)
Fixpoint run (ops : list Op) (d : Document) : option Document :=
  match ops with
  | [] => Some d
  | op :: rest =>
      match apply_op op d with
      | Some d' => run rest d'
      | None => None
      end
  end.

(** The ids of the entries of a section, in display order. *)
Definition ids (key : SectionKey) (d : Document) : list Id :=
  match key with
  | KeyEducation => map edu_id (education d)
  | KeyExperience => map exp_id (experience d)
  | KeyPortfolio => map proj_id (portfolio d)
  end.



(** What one press does to the ids of a section: an add appends the clock
    reading, a remove deletes one position, and no id is rewritten. *)
Definition ids_after (key : SectionKey) (op : Op) (before : list Id) : list Id :=
  match op with
  | Add key' now => if decide (key' = key) then before ++ [now] else before
  | Remove key' i => if decide (key' = key) then delete i before else before
  end.

(** ** The compilers *)

(** *** Plain text *)

Definition LF : ascii := "010"%char.

(** The lines appended for one key of [SECTION_ORDER]. *)
Definition section_lines (d : Document) (key : string) : list string :=
  if decide (key = "summary") then
    ["PROFESSIONAL SUMMARY"; times "-" 20; summary d; nl]
  else if decide (key = "skills") then
    ["SKILLS"; times "-" 6; "Technical Skills: " +:+ join ", " (skills d); nl]
  else if decide (key = "portfolio") then
    ["PROJECTS"; times "-" 8]
    ++ concat (map (λ proj, [cat [proj_name proj; " ("; link proj; ")"];
                             "  - " +:+ description proj])
                   (portfolio d))
    ++ [nl]
  else if decide (key = "experience") then
    ["EXPERIENCE"; times "-" 10]
    ++ concat (map (λ exp, [cat [title exp; ", "; company exp];
                            "  Dates: " +:+ exp_dates exp]
                           ++ map (λ bullet, "  - " +:+ strip bullet)
                                  (filter (λ bullet, truthy (strip bullet) = true)
                                          (split LF (bullets exp))))
                   (experience d))
    ++ [nl]
  else if decide (key = "education") then
    ["EDUCATION"; times "-" 9]
    ++ concat (map (λ edu, [cat [degree edu; ", "; institution edu];
                            "  Dates: " +:+ edu_dates edu])
                   (education d))
    ++ [nl]
  else [].

Definition header_lines (d : Document) : list string :=
  let personal := personal d in
  [upper (name personal);
   times "=" (len (name personal));
   "Email: " +:+ email personal;
   "Phone: " +:+ phone personal;
   "LinkedIn: " +:+ linkedin personal;
   times nl 2].

Definition compile_resume_text (d : Document) : string :=
  let lines := header_lines d ++ concat (map (section_lines d) SECTION_ORDER) in
  strip (join nl lines).

(** *** The portfolio site *)

Definition skill_badge (skill : string) : string :=
  cat [q "<span class=`px-4 py-2 bg-gray-700 text-blue-300 rounded-full text-sm font-medium shadow-md`>"; skill; "</span>"].

Definition project_card (proj : PortfolioEntry) : string :=
  cat [nl;
       q "                    <div class=`p-6 bg-[#161b22] border border-gray-700 rounded-xl`>"; nl;
       q "                        <h3 class=`text-xl font-semibold text-blue-400 mb-2`>"; proj_name proj; "</h3>"; nl;
       q "                        <p class=`text-gray-400 text-sm mb-4`>"; description proj; "</p>"; nl;
       q "                        <a href=`"; link proj; q "` target=`_blank` class=`inline-block text-sm font-medium text-blue-500 hover:text-blue-400 transition duration-200 flex items-center`>"; nl;
       "                            View Project"; nl;
       q "                            <span class=`ml-1`>→</span>"; nl;
       "                        </a>"; nl;
       "                    </div>"; nl;
       "                "].

Definition education_card (edu : EducationEntry) : string :=
  cat [nl;
       q "                    <div class=`p-4 bg-[#161b22] border border-gray-700 rounded-lg`>"; nl;
       q "                        <div class=`flex justify-between items-center mb-1`>"; nl;
       q "                            <h3 class=`text-lg font-semibold text-gray-200`>"; degree edu; "</h3>"; nl;
       q "                            <span class=`text-sm text-gray-500`>"; edu_dates edu; "</span>"; nl;
       "                        </div>"; nl;
       q "                        <p class=`text-md text-gray-400`>"; institution edu; "</p>"; nl;
       "                    </div>"; nl;
       "                "].

(** The page built by [generate_portfolio_html]. *)
Definition portfolio_html (d : Document) : string :=
  cat ["<!DOCTYPE html>"; nl;
       q "<html lang=`en`>"; nl;
       "<head>"; nl;
       q "    <meta charset=`UTF-8`>"; nl;
       q "    <meta name=`viewport` content=`width=device-width, initial-scale=1.0`>"; nl;
       "    <title>"; (if truthy (name (personal d)) then name (personal d) else "Student"); " Projects Portfolio</title>"; nl;
       q "    <script src=`https://cdn.tailwindcss.com`></script>"; nl;
       q "    <link href=`https://fonts.googleapis.com/css2?family=Inter:wght@100..900&display=swap` rel=`stylesheet`>"; nl;
       "    <style>"; nl;
       "        body {"; nl;
       "            font-family: 'Inter', sans-serif;"; nl;
       "            background-color: #0d1117; /* Dark background */"; nl;
       "        }"; nl;
       "        .section-title {"; nl;
       "            position: relative;"; nl;
       "            padding-bottom: 0.5rem;"; nl;
       "            margin-bottom: 1.5rem;"; nl;
       "        }"; nl;
       "        .section-title::after {"; nl;
       "            content: '';"; nl;
       "            position: absolute;"; nl;
       "            left: 0;"; nl;
       "            bottom: 0;"; nl;
       "            height: 3px;"; nl;
       "            width: 50px;"; nl;
       "            background-color: #2563eb; /* Blue accent */"; nl;
       "            border-radius: 9999px;"; nl;
       "        }"; nl;
       "    </style>"; nl;
       "</head>"; nl;
       q "<body class=`text-gray-200`>"; nl;
       q "    <div id=`app` class=`max-w-4xl mx-auto p-4 sm:p-8 space-y-12`>"; nl;
       q "        <header id=`header` class=`text-center p-6 bg-[#161b22] rounded-xl shadow-2xl`>"; nl;
       q "            <h1 class=`text-5xl font-extrabold text-blue-400 mb-2`>"; name (personal d); "</h1>"; nl;
       q "            <p class=`text-xl text-gray-400 mb-4`>Aspiring AI & Cloud Developer</p>"; nl;
       q "            <div class=`flex flex-wrap justify-center space-x-4 text-sm`>"; nl;
       q "                <a href=`mailto:"; email (personal d); q "` class=`text-blue-400 hover:text-blue-300 transition duration-200`>📧 "; email (personal d); "</a>"; nl;
       q "                <a href=`"; linkedin (personal d); q "` target=`_blank` class=`text-blue-400 hover:text-blue-300 transition duration-200`>🔗 LinkedIn</a>"; nl;
       "            </div>"; nl;
       "        </header>"; nl;
       nl;
       q "        <section id=`about`>"; nl;
       q "            <h2 class=`text-3xl font-bold text-gray-100 section-title`>About Me</h2>"; nl;
       q "            <p class=`text-lg leading-relaxed text-gray-400`>"; summary d; "</p>"; nl;
       "        </section>"; nl;
       nl;
       q "        <section id=`skills`>"; nl;
       q "            <h2 class=`text-3xl font-bold text-gray-100 section-title`>Core Skills</h2>"; nl;
       q "            <div class=`flex flex-wrap gap-3`>"; nl;
       "                "; cat (map skill_badge (skills d)); nl;
       "            </div>"; nl;
       "        </section>"; nl;
       nl;
       q "        <section id=`projects`>"; nl;
       q "            <h2 class=`text-3xl font-bold text-gray-100 section-title`>Projects</h2>"; nl;
       q "            <div class=`grid grid-cols-1 md:grid-cols-2 gap-6`>"; nl;
       "                "; cat (map project_card (portfolio d)); nl;
       "            </div>"; nl;
       "        </section>"; nl;
       "        "; nl;
       q "        <section id=`education`>"; nl;
       q "            <h2 class=`text-3xl font-bold text-gray-100 section-title`>Education</h2>"; nl;
       q "            <div class=`space-y-4`>"; nl;
       "                "; cat (map education_card (education d)); nl;
       "            </div>"; nl;
       "        </section>"; nl;
       nl;
       q "        <footer class=`text-center text-sm text-gray-500 pt-6 border-t border-gray-700`>"; nl;
       "            <p>&copy; 2025 "; name (personal d); ". Built with Insta Repo.</p>"; nl;
       "        </footer>"; nl;
       "    </div>"; nl;
       "</body>"; nl;
       "</html>"].


(** [generate_portfolio_html]: the page is stored in the session, nothing
    else is touched. *)
Definition generate_portfolio_html (w : World) : World :=
  put_generated_html (portfolio_html (the_data w)) w.

(** *** The themed preview *)

Record Palette := mkPalette {
  BG_COLOR : string;
  TEXT_COLOR : string;
  ACCENT_COLOR : string;
  SUB_TEXT_COLOR : string;
  BORDER_COLOR : string
}.

Definition palette_of (theme : string) : Palette :=
  if decide (theme = "dark") then
    {| BG_COLOR := "#1f2937"; TEXT_COLOR := "#f3f4f6"; ACCENT_COLOR := "#60a5fa";
       SUB_TEXT_COLOR := "#9ca3af"; BORDER_COLOR := "#374151" |}
  else
    {| BG_COLOR := "#ffffff"; TEXT_COLOR := "#1f2937"; ACCENT_COLOR := "#1e40af";
       SUB_TEXT_COLOR := "#6b7280"; BORDER_COLOR := "#e5e7eb" |}.

Definition section_open (pal : Palette) : string :=
  cat [q "<div style=`margin-bottom: 20px; background-color: "; BG_COLOR pal; "; color: "; TEXT_COLOR pal; "; padding: 10px; border: 1px solid "; BORDER_COLOR pal; q ";`>"].

Definition summary_heading (pal : Palette) : string :=
  cat [q "<h3 style=`border-bottom: 2px solid "; ACCENT_COLOR pal; "; padding-bottom: 5px; margin-bottom: 10px; color: "; ACCENT_COLOR pal; q "; font-size: 16px;`>PROFESSIONAL SUMMARY</h3>"].

Definition summary_paragraph (pal : Palette) (d : Document) : string :=
  cat [q "<p style=`font-size: 14px; line-height: 1.5; color: "; TEXT_COLOR pal; q ";`>"; summary d; "</p>"].

Definition skills_heading (pal : Palette) : string :=
  cat [q "<h3 style=`border-bottom: 2px solid "; ACCENT_COLOR pal; "; padding-bottom: 5px; margin-bottom: 10px; color: "; ACCENT_COLOR pal; q "; font-size: 16px;`>SKILLS</h3>"].

Definition skills_paragraph (pal : Palette) (d : Document) : string :=
  cat [q "<p style=`font-size: 14px; color: "; TEXT_COLOR pal; q ";`><b>Technical Skills:</b> "; join ", " (skills d); "</p>"].

Definition projects_heading (pal : Palette) : string :=
  cat [q "<h3 style=`border-bottom: 2px solid "; ACCENT_COLOR pal; "; padding-bottom: 5px; margin-bottom: 10px; color: "; ACCENT_COLOR pal; q "; font-size: 16px;`>PROJECTS</h3>"].

Definition project_block (pal : Palette) (proj : PortfolioEntry) : string :=
  cat [nl;
       q "                    <div style=`margin-bottom: 10px;`>"; nl;
       q "                        <a href=`"; link proj; q "` target=`_blank` style=`font-weight: bold; color: "; ACCENT_COLOR pal; q "; text-decoration: none;`>"; proj_name proj; "</a>"; nl;
       q "                        <p style=`font-size: 12px; color: "; SUB_TEXT_COLOR pal; q ";`>"; link proj; "</p>"; nl;
       q "                        <p style=`font-size: 14px; color: "; TEXT_COLOR pal; q ";`>"; description proj; "</p>"; nl;
       "                    </div>"; nl;
       "                    "].

Definition experience_heading (pal : Palette) : string :=
  cat [q "<h3 style=`border-bottom: 2px solid "; ACCENT_COLOR pal; "; padding-bottom: 5px; margin-bottom: 10px; color: "; ACCENT_COLOR pal; q "; font-size: 16px;`>EXPERIENCE</h3>"].

Definition bullet_item (bullet : string) : string :=
  cat ["<li>"; strip bullet; "</li>"].

Definition experience_block (pal : Palette) (exp : ExperienceEntry) (bullet_list_items : string) : string :=
  cat [nl;
       q "                <div style=`margin-bottom: 15px;`>"; nl;
       q "                    <div style=`display: flex; justify-content: space-between;`>"; nl;
       q "                        <span style=`font-weight: bold; color: "; TEXT_COLOR pal; q ";`>"; title exp; "</span>"; nl;
       q "                        <span style=`font-size: 12px; color: "; SUB_TEXT_COLOR pal; q ";`>"; exp_dates exp; "</span>"; nl;
       "                    </div>"; nl;
       q "                    <p style=`font-size: 14px; font-style: italic; color: "; SUB_TEXT_COLOR pal; q ";`>"; company exp; "</p>"; nl;
       q "                    <ul style=`margin-left: 20px; list-style-type: disc; font-size: 14px; color: "; TEXT_COLOR pal; q ";`>"; nl;
       "                        "; bullet_list_items; nl;
       "                    </ul>"; nl;
       "                </div>"; nl;
       "                "].

Definition education_heading (pal : Palette) : string :=
  cat [q "<h3 style=`border-bottom: 2px solid "; ACCENT_COLOR pal; "; padding-bottom: 5px; margin-bottom: 10px; color: "; ACCENT_COLOR pal; q "; font-size: 16px;`>EDUCATION</h3>"].

Definition education_block (pal : Palette) (edu : EducationEntry) : string :=
  cat [nl;
       q "                <div style=`margin-bottom: 10px;`>"; nl;
       q "                    <div style=`display: flex; justify-content: space-between;`>"; nl;
       q "                        <span style=`font-weight: bold; color: "; TEXT_COLOR pal; q ";`>"; degree edu; "</span>"; nl;
       q "                        <span style=`font-size: 12px; color: "; SUB_TEXT_COLOR pal; q ";`>"; edu_dates edu; "</span>"; nl;
       "                    </div>"; nl;
       q "                    <p style=`font-size: 14px; font-style: italic; color: "; SUB_TEXT_COLOR pal; q ";`>"; institution edu; "</p>"; nl;
       "                </div>"; nl;
       "                "].

Definition section_close : string :=
  cat ["</div>"].

Definition header_html (pal : Palette) (d : Document) : string :=
  cat [nl;
       q "    <div style=`text-align: center; border-bottom: 4px solid "; ACCENT_COLOR pal; "; padding-bottom: 15px; margin-bottom: 20px; background-color: "; BG_COLOR pal; "; color: "; TEXT_COLOR pal; q ";`>"; nl;
       q "        <h1 style=`font-size: 32px; font-weight: 800; margin-bottom: 5px;`>"; nl;
       q "            <a href=`"; linkedin (personal d); q "` target=`_blank` style=`color: "; ACCENT_COLOR pal; q "; text-decoration: none;`>"; name (personal d); "</a>"; nl;
       "        </h1>"; nl;
       q "        <p style=`font-size: 14px; color: "; SUB_TEXT_COLOR pal; q ";`>"; nl;
       "            "; email (personal d); " | "; phone (personal d); " | "; nl;
       q "            <a href=`"; linkedin (personal d); q "` target=`_blank` style=`color: "; ACCENT_COLOR pal; q "; text-decoration: none;`>LinkedIn</a>"; nl;
       "        </p>"; nl;
       "    </div>"; nl;
       "    "].


(** [bullet_list_items] of one experience entry. *)
Definition bullet_items (exp : ExperienceEntry) : string :=
  cat (map bullet_item
           (filter (λ bullet, truthy (strip bullet) = true) (split LF (bullets exp)))).

(** [format_resume_section(key, data)]; each loop is the fold of its
    [html_output += ...]. *)
Definition format_resume_section (pal : Palette) (key : string) (d : Document) : string :=
  let html_output := section_open pal in
  let html_output :=
    if decide (key = "summary") then
      html_output +:+ summary_heading pal +:+ summary_paragraph pal d
    else if decide (key = "skills") then
      html_output +:+ skills_heading pal +:+ skills_paragraph pal d
    else if decide (key = "portfolio") then
      fold_left (λ html_output proj, html_output +:+ project_block pal proj)
                (portfolio d) (html_output +:+ projects_heading pal)
    else if decide (key = "experience") then
      fold_left (λ html_output exp,
                   html_output +:+ experience_block pal exp (bullet_items exp))
                (experience d) (html_output +:+ experience_heading pal)
    else if decide (key = "education") then
      fold_left (λ html_output edu, html_output +:+ education_block pal edu)
                (education d) (html_output +:+ education_heading pal)
    else html_output in
  html_output +:+ section_close.

(** What [render_preview] hands to [st.markdown], in order. *)
Definition preview_markup (d : Document) (theme : string) : list string :=
  let pal := palette_of theme in
  header_html pal d :: map (λ section_key, format_resume_section pal section_key d) SECTION_ORDER.

Definition render_preview (w : World) : World :=
  let pal := palette_of (theme (session w)) in
  let w := emit (EvMarkdown (header_html pal (the_data w))) w in
  fold_left (λ w section_key,
               emit (EvMarkdown (format_resume_section pal section_key (the_data w))) w)
            SECTION_ORDER w.

(** ** Vocabulary of the statements *)

(** A failure of the service that the client classifies as rate-limited:
    an [APIError] whose text mentions 429. *)
Definition rate_limited (o : Outcome) : bool :=
  match o with
  | RaiseAPIError e => contains "429" e
  | _ => false
  end.

(** Any other failure inside the [try] block. *)
Definition other_failure (o : Outcome) : bool :=
  match o with
  | Response (Some _) => false
  | Response None => true
  | RaiseAPIError e => negb (contains "429" e)
  | RaiseException _ => true
  end.

(** What one rate-limited attempt that is retried leaves in the trace. *)
Definition retry_events (system_instruction prompt : string) (attempt : nat) : list Event :=
  [EvRequest MODEL system_instruction prompt;
   EvWarning (cat ["Rate limit hit. Retrying in "; str_of_nat (2 ^ attempt); " seconds..."]);
   EvSleep (2 ^ attempt + 1)].

(** The tokens of a skills answer in the words of the specification: split
    on commas, trim each token, drop the empty ones. *)
Definition tokens (result : string) : list string :=
  filter (λ t, t ≠ "") (map strip (split ","%char result)).

(** The result a handler receives for a request; by [generate_result_world]
    it does not depend on the world the call starts from. *)
Definition result_of (env : Env) (request : string * string) : string :=
  (generate_content_with_ai env (snd request) (fst request) (mkWorld initial_session [])).1.

(** All sections of a document but its cover-letter draft. *)
Definition except_draft (d : Document) : Document := set_cover_letter_draft "" d.

(** The lines of a text. *)
Definition lines (s : string) : list string := split LF s.

(** ** Concrete sessions and environments used by the examples *)

Definition world0 : World := mkWorld initial_session [].

(** Python's order for a set is not known here; the examples take the order
    of [elements]. *)
Definition some_order (a b : list string) : list string :=
  elements (list_to_set a ∪ list_to_set b : gset string).

(** No client: the key was missing when the module was loaded. *)
Definition env_no_client : Env :=
  mkEnv false (λ _ _ _, RaiseException "unreachable") some_order.

(** Two rate-limited attempts, then an answer. *)
Definition env_two_limits : Env :=
  mkEnv true
        (λ attempt _ _,
           if (attempt <? 2)%nat then RaiseAPIError "429 RESOURCE_EXHAUSTED"
           else Response (Some " Docker, Kubernetes "))
        some_order.

(** One rate-limited attempt, then a rejected key. *)
Definition env_bad_key : Env :=
  mkEnv true
        (λ attempt _ _,
           if (attempt <? 1)%nat then RaiseAPIError "429 RESOURCE_EXHAUSTED"
           else RaiseAPIError "400 INVALID_ARGUMENT. API key not valid.")
        some_order.

(** A service that is rate-limited at every attempt. *)
Definition env_always_limited : Env :=
  mkEnv true (λ _ _ _, RaiseAPIError "429 RESOURCE_EXHAUSTED") some_order.

(** A service that answers every first attempt with the same text. *)
Definition env_answering (text : string) : Env :=
  mkEnv true (λ _ _ _, Response (Some text)) some_order.

(** A clock reading (the float 1730000000.125), and the session after "Add
    New Experience" and "Add New Projects" were pressed at that time: each
    list ends with a blank entry. *)
Definition a_reading : Id := Q2Qc (1730000000125 # 1000).

Definition blank_experience : ExperienceEntry := mkExperience a_reading "" "" "" "".
Definition blank_project : PortfolioEntry := mkPortfolio a_reading "" "" "".

Definition world_with_blanks : World :=
  put_data (add_entry KeyPortfolio a_reading
              (add_entry KeyExperience a_reading initial_data)) world0.

(** The starting session with the two cover-letter inputs filled in. *)
Definition world_applying : World :=
  put_data (mkDocument (personal initial_data) (summary initial_data)
              (education initial_data) (experience initial_data) (skills initial_data)
              (portfolio initial_data) (mkInputs "Acme" "Data Engineer")
              (cover_letter_draft initial_data)) world0.



Definition presses_same_reading : list Op :=
  [Add KeyExperience a_reading; Add KeyExperience a_reading].

(** The document of the example of the specification: the initial document
    with the name and the skills replaced. *)
Definition jane : Document :=
  mkDocument (mkPersonal "Jane Doe" "jane@example.com" "555-0100" "https://linkedin.com/in/jane")
             (summary initial_data) (education initial_data) (experience initial_data)
             ["Python"; "SQL"] (portfolio initial_data)
             (cover_letter_inputs initial_data) (cover_letter_draft initial_data).

(** ** The client at start-up ([get_gemini_client]) *)

(** What [st.secrets["GEMINI_KEY"]] does: it gives the value stored under
    the key, or raises (no secrets file, no such key). *)
Inductive SecretLookup :=
| SecretIs (value : string)
| SecretRaises (str_e : string).

(** [get_gemini_client]: whether a client is returned (rather than [None])
    and the errors shown.  [construct key] is what [genai.Client(api_key=key)]
    does: [None] when it returns a client, [Some e] when it raises an
    exception whose text is [e]. *)
Definition get_gemini_client (lookup : SecretLookup) (construct : string → option string)
    : bool * list Event :=
  let failed e :=
    (false,
     [EvError ("Error initializing Gemini Client. Is your API key in .streamlit/secrets.toml correct? Details: " +:+ e)]) in
  match lookup with
  | SecretIs GEMINI_KEY =>
      if negb (truthy GEMINI_KEY) then
        (false,
         [EvError "GEMINI_KEY not found. Please add it to your .streamlit/secrets.toml file."])
      else
        match construct GEMINI_KEY with
        | None => (true, [])
        | Some e => failed e
        end
  | SecretRaises e => failed e
  end.

(** The seconds spent in [time.sleep] along a trace. *)
Definition slept (events : list Event) : nat :=
  sum_list_with (λ e, match e with EvSleep seconds => seconds | _ => 0 end) events.

(** The seconds the attempts of a list may be followed by: [2^attempt + 1]
    after each attempt that is not the last one allowed. *)
Definition backoff_budget (attempts : list nat) : nat :=
  sum_list_with (λ attempt, if (attempt <? MAX_RETRIES - 1)%nat then 2 ^ attempt + 1 else 0)
                attempts.

(** [is_disabled = st.session_state.ai_loading is not None]: the test that
    greys out each of the four AI buttons. *)
Definition is_disabled (s : Session) : bool :=
  match ai_loading s with
  | Some _ => true
  | None => false
  end.

(** ** The skills text area ([render_skills_form]) *)

(** [render_skills_form], as far as the session goes (its widgets and its
    notice are display): [skills_input] is what the text area returned. *)
Definition render_skills_form (skills_input : string) (w : World) : World :=
  if decide (skills_input ≠ join ", " (skills (the_data w))) then
    put_data (set_skills (parse_skills skills_input) (the_data w)) w
  else w.

(** A skill as the text area can hold it: not empty, with no white space
    around it and no comma in it. *)
Definition clean_skill (t : string) : Prop :=
  t ≠ "" ∧ strip t = t ∧ contains "," t = false.

(** ** The page ([main] and the render functions)

    The render functions are modelled as far as the session and the calls of
    [st.markdown] and [st.warning] go.  What each input widget returned in
    the run is an argument ([Ui]); titles, captions, notices, columns, tabs,
    the widgets themselves, the download buttons and the sidebar are
    display only and leave no event. *)

(** [s.lower()] and [s.capitalize()] on ASCII letters. *)
Definition lower_char (c : ascii) : ascii :=
  let n := nat_of_ascii c in
  if (65 <=? n)%nat && (n <=? 90)%nat then ascii_of_nat (n + 32) else c.

Fixpoint lower (s : string) : string :=
  match s with
  | String c r => String (lower_char c) (lower r)
  | EmptyString => EmptyString
  end.

Definition capitalize (s : string) : string :=
  match s with
  | String c r => String (upper_char c) (lower r)
  | EmptyString => EmptyString
  end.

(** [s.split()[0]]: the first word of [s]; [None] stands for the
    [IndexError] of a text with no word. *)
Fixpoint until_space (s : string) : string :=
  match s with
  | String c r => if isspace c then EmptyString else String c (until_space r)
  | EmptyString => EmptyString
  end.

Definition first_word (s : string) : option string :=
  match lstrip s with
  | EmptyString => None
  | word => Some (until_space word)
  end.

(** The two options of the theme selector. *)
Inductive ThemeChoice := Light | Dark.

Definition choice_label (c : ThemeChoice) : string :=
  match c with Light => "Light" | Dark => "Dark" end.

(** What the widgets of one entry returned: the values of its fields, and
    whether its "AI Refine" and "Remove" buttons report a press. *)
Record ItemUi (V : Type) := mkItemUi {
  ui_values : V;
  ui_refine : bool;
  ui_remove : bool
}.
Arguments mkItemUi {V}.
Arguments ui_values {V}.
Arguments ui_refine {V}.
Arguments ui_remove {V}.

(** What the widgets of a list section returned: those of the entry at each
    index, whether "Add New" reports a press, and the clock at that point. *)
Record SectionUi (V : Type) := mkSectionUi {
  ui_item : nat → ItemUi V;
  ui_add : bool;
  ui_now : Id
}.
Arguments mkSectionUi {V}.
Arguments ui_item {V}.
Arguments ui_add {V}.
Arguments ui_now {V}.

(** What the widgets of the page returned in one run. *)
Record Ui := mkUi {
  ui_theme_choice : ThemeChoice;
  ui_name : string;
  ui_email : string;
  ui_phone : string;
  ui_linkedin : string;
  ui_summary : string;
  ui_skills : string;
  ui_education : SectionUi (string * string * string);
  ui_experience : SectionUi (string * string * string * string);
  ui_portfolio : SectionUi (string * string * string);
  ui_company : string;
  ui_title : string
}.

Definition set_personal (v : Personal) (d : Document) : Document :=
  mkDocument v (summary d) (education d) (experience d) (skills d)
             (portfolio d) (cover_letter_inputs d) (cover_letter_draft d).
Definition set_cover_letter_inputs (v : CoverLetterInputs) (d : Document) : Document :=
  mkDocument (personal d) (summary d) (education d) (experience d) (skills d)
             (portfolio d) v (cover_letter_draft d).

(** [render_personal_details]: each field takes what its input returned. *)
Definition render_personal_details (ui : Ui) (w : World) : World :=
  put_data (set_personal (mkPersonal (ui_name ui) (ui_email ui) (ui_phone ui) (ui_linkedin ui))
                         (the_data w)) w.

(** [render_summary_generator]: the summary takes what the text area
    returned. *)
Definition render_summary_generator (ui : Ui) (w : World) : World :=
  put_data (set_summary (ui_summary ui) (the_data w)) w.

(** How a render function or a run of the page ends: it goes on to the next
    statement, it calls [st.rerun()], or it raises. *)
Inductive Flow :=
| GoesOn (w : World)
| Reruns (w : World)
| Crashes (exn : string) (w : World).

(** One call site of [render_array_section]: its [title], the list it works
    on, the id and the first field of an entry, what the loop over [fields]
    does to an entry given what the inputs returned, the entry "Add New"
    appends, and whether the entries get an "AI Refine" button. *)
Record SectionOps (A V : Type) := mkOps {
  title_of : string;
  entries_of : Document → list A;
  put_entries : list A → Document → Document;
  id_of : A → Id;
  heading_of : A → string;
  write_fields : V → A → A;
  new_item : Id → A;
  refinable : bool
}.
Arguments title_of {A V}.
Arguments entries_of {A V}.
Arguments put_entries {A V}.
Arguments id_of {A V}.
Arguments heading_of {A V}.
Arguments write_fields {A V}.
Arguments new_item {A V}.
Arguments refinable {A V}.

(** [if new_value != item.get(field_name, ''): item[field_name] = new_value]. *)
Definition changed_to (new_value old : string) : string :=
  if decide (new_value ≠ old) then new_value else old.

Definition education_ops : SectionOps EducationEntry (string * string * string) := {|
  title_of := "Education";
  entries_of := education;
  put_entries := set_education;
  id_of := edu_id;
  heading_of := degree;
  write_fields := λ '(new_degree, new_institution, new_dates) e,
    mkEducation (edu_id e) (changed_to new_institution (institution e))
                (changed_to new_degree (degree e)) (changed_to new_dates (edu_dates e));
  new_item := λ now, mkEducation now "" "" "";
  refinable := false
|}.

Definition experience_ops
    : SectionOps ExperienceEntry (string * string * string * string) := {|
  title_of := "Experience";
  entries_of := experience;
  put_entries := set_experience;
  id_of := exp_id;
  heading_of := title;
  write_fields := λ '(new_title, new_company, new_dates, new_bullets) e,
    mkExperience (exp_id e) (changed_to new_title (title e))
                 (changed_to new_company (company e)) (changed_to new_dates (exp_dates e))
                 (changed_to new_bullets (bullets e));
  new_item := λ now, mkExperience now "" "" "" "";
  refinable := true
|}.

Definition portfolio_ops : SectionOps PortfolioEntry (string * string * string) := {|
  title_of := "Projects";
  entries_of := portfolio;
  put_entries := set_portfolio;
  id_of := proj_id;
  heading_of := proj_name;
  write_fields := λ '(new_name, new_link, new_description) p,
    mkPortfolio (proj_id p) (changed_to new_name (proj_name p))
                (changed_to new_link (link p)) (changed_to new_description (description p));
  new_item := λ now, mkPortfolio now "" "" "";
  refinable := true
|}.

(** The widgets of an entry are created with keys built from the section
    and the id of the entry: [f'{section_key}_{item["id"]}_{field_name}'] for
    the input of a field, [f'ai_{section_key}_{item["id"]}'] and
    [f'remove_{section_key}_{item["id"]}'] for its buttons.  Streamlit raises
    [StreamlitDuplicateElementKey] when a widget is created with a key
    already used in the run.  The other keys of the page (['name'],
    ['email'], ['phone'], ['linkedin'], ['cl_company'], ['cl_title'] and
    [f'add_{section_key}']) are fixed and differ from these and from one
    another, and the three call sites have three section keys: two widgets
    of a run have the same key exactly when they are the same widget of two
    entries of one section with the same id.  So the loop carries [seen], the
    ids of the entries of its section whose widgets exist, and the input of
    the first field of an entry whose id is among them raises.  (The text of
    an id in a key is [str] of it: the texts of two clock readings are equal
    exactly when the readings are, and the same is taken of the id [1] of
    the initial entries, which no clock reading equals.) *)
Definition DUPLICATE_KEY : string := "StreamlitDuplicateElementKey".

(** The loop of [render_array_section] over the entries from index [i] on:
    the heading of the entry, its fields, its "AI Refine" button, which sets
    the in-flight marker when it reports a press, and its "Remove" button,
    which pops the entry and reruns. *)
Fixpoint items_loop {A V : Type} (ops : SectionOps A V) (ui : SectionUi V)
    (i : nat) (seen : list Id) (todo : list A) (w : World) : Flow :=
  match todo with
  | [] => GoesOn w
  | item :: rest =>
      let heading :=
        if truthy (heading_of ops item) then Some (heading_of ops item)
        else (λ word, "New " +:+ word) <$> first_word (title_of ops) in
      match heading with
      | None => Crashes "IndexError" w
      | Some heading =>
          let w := emit (EvMarkdown (cat ["**"; heading; "**"])) w in
          let id := id_of ops item in
          if bool_decide (id ∈ seen) then Crashes DUPLICATE_KEY w
          else
            let item := write_fields ops (ui_values (ui_item ui i)) item in
            let w := put_data (put_entries ops (<[i := item]> (entries_of ops (the_data w)))
                                           (the_data w)) w in
            let w :=
              if refinable ops && ui_refine (ui_item ui i)
              then put_loading (Some (LoadingId (id_of ops item))) w
              else w in
            if ui_remove (ui_item ui i) then
              Reruns (put_data (put_entries ops (delete i (entries_of ops (the_data w)))
                                            (the_data w)) w)
            else items_loop ops ui (S i) (seen ++ [id]) rest w
      end
  end.

(** [render_array_section]: the loop, then the "Add New" button. *)
Definition render_array_section {A V : Type} (ops : SectionOps A V) (ui : SectionUi V)
    (w : World) : Flow :=
  match items_loop ops ui 0 [] (entries_of ops (the_data w)) w with
  | GoesOn w =>
      match first_word (title_of ops) with
      | None => Crashes "IndexError" w
      | Some _ =>
          if ui_add ui then
            Reruns (put_data (put_entries ops (entries_of ops (the_data w)
                                               ++ [new_item ops (ui_now ui)])
                                          (the_data w)) w)
          else GoesOn w
      end
  | stopped => stopped
  end.

(** [render_cover_letter_generator]: the two inputs, and the draft's heading
    when there is a draft. *)
Definition render_cover_letter_generator (ui : Ui) (w : World) : World :=
  let w := put_data (set_cover_letter_inputs (mkInputs (ui_company ui) (ui_title ui))
                                             (the_data w)) w in
  if truthy (cover_letter_draft (the_data w)) then
    emit (EvMarkdown "##### Cover Letter Draft:") (emit (EvMarkdown "---") w)
  else w.

Definition put_theme (t : string) (w : World) : World :=
  mkWorld (mkSession (data (session w)) (ai_loading (session w))
                     (generated_html (session w)) t)
          (trace w).

Definition preview_notice (theme : string) : string :=
  cat ["Theme: **"; capitalize theme; "**. Note: The Streamlit preview uses simple native styling. For final, polished output, use the Portfolio HTML download or **download the text file for easy copy/paste**."].

Definition preview_open (theme : string) : string :=
  cat [q "<div style=`background-color: "; (if decide (theme = "dark") then "#1f2937" else "#ffffff"); q "; padding: 20px; border-radius: 8px;`>"].

(** How a run of [main] ends: at its last statement, with the two texts it
    hands to the download buttons (the resume and the portfolio site), or
    earlier. *)
Inductive RunEnd :=
| Finished (w : World) (resume_text_data portfolio_live : string)
| Restarted (w : World)
| Crashed (exn : string) (w : World).

(** Sequencing of the statements of a run. *)
Definition and_then (f : Flow) (k : World → RunEnd) : RunEnd :=
  match f with
  | GoesOn w => k w
  | Reruns w => Restarted w
  | Crashes exn w => Crashed exn w
  end.

Definition main (ui : Ui) (w : World) : RunEnd :=
  let w := generate_portfolio_html w in
  let w := emit (EvMarkdown (q "<p style=`font-size: 18px; color: gray;`>Instant AI Resume, Cover Letter and Portfolio Builder</p>")) w in
  let w := emit (EvMarkdown "---") w in
  let w := put_theme (lower (choice_label (ui_theme_choice ui))) w in
  let w := render_personal_details ui w in
  let w := render_summary_generator ui w in
  let w := emit (EvMarkdown "---") w in
  let w := render_skills_form (ui_skills ui) w in
  let w := emit (EvMarkdown "---") w in
  and_then (render_array_section education_ops (ui_education ui) w) (λ w,
  and_then (render_array_section experience_ops (ui_experience ui) w) (λ w,
  let w := emit (EvMarkdown "---") w in
  and_then (render_array_section portfolio_ops (ui_portfolio ui) w) (λ w,
  let w := emit (EvMarkdown "---") w in
  let w := render_cover_letter_generator ui w in
  let w := emit (EvMarkdown "---") w in
  let w := emit (EvWarning (preview_notice (theme (session w)))) w in
  let w := emit (EvMarkdown (preview_open (theme (session w)))) w in
  let w := render_preview w in
  let w := emit (EvMarkdown "</div>") w in
  let resume_text_data := compile_resume_text (the_data w) in
  let w := emit (EvMarkdown "---") w in
  Finished w resume_text_data (generated_html (session w))))).

(** *** Vocabulary for the page *)

(** The entries of a section after the inputs of the entries from index [i]
    on were written into them. *)
Fixpoint edited {A V : Type} (ops : SectionOps A V) (ui : SectionUi V)
    (i : nat) (todo : list A) : list A :=
  match todo with
  | [] => []
  | item :: rest =>
      write_fields ops (ui_values (ui_item ui i)) item :: edited ops ui (S i) rest
  end.

(** The in-flight marker after the "AI Refine" buttons of the entries from
    index [i] on: the id of the last entry whose button reports a press, or
    the marker there was. *)
Fixpoint marker_after {A V : Type} (ops : SectionOps A V) (ui : SectionUi V)
    (i : nat) (todo : list A) (marker : option Loading) : option Loading :=
  match todo with
  | [] => marker
  | item :: rest =>
      marker_after ops ui (S i) rest
        (if refinable ops && ui_refine (ui_item ui i)
         then Some (LoadingId (id_of ops item)) else marker)
  end.

(** What is used of a call site: its list is a field of the document that
    can be read and written back, the fields written never include the id,
    its title has a first word, and its ids are those of section [key]. *)
Record OpsLaws {A V : Type} (ops : SectionOps A V) (key : SectionKey) : Prop := mkLaws {
  get_put : ∀ l d, entries_of ops (put_entries ops l d) = l;
  put_put : ∀ l l' d, put_entries ops l (put_entries ops l' d) = put_entries ops l d;
  put_get : ∀ d, put_entries ops (entries_of ops d) d = d;
  id_write : ∀ v a, id_of ops (write_fields ops v a) = id_of ops a;
  id_new : ∀ now, id_of ops (new_item ops now) = now;
  has_word : is_Some (first_word (title_of ops));
  ids_own : ∀ d, ids key d = map (id_of ops) (entries_of ops d);
  ids_other : ∀ key' l d, key' ≠ key → ids key' (put_entries ops l d) = ids key' d
}.

(** A run in which no button of a section reports a press. *)
Definition quiet {A V : Type} (ops : SectionOps A V) (ui : SectionUi V) (d : Document) : Prop :=
  ui_add ui = false ∧
  ∀ i, i < length (entries_of ops d) →
       ui_remove (ui_item ui i) = false ∧ ui_refine (ui_item ui i) = false.

(** The inputs of a section return what its entries hold. *)
Definition shows {A V : Type} (ops : SectionOps A V) (ui : SectionUi V) (d : Document) : Prop :=
  ∀ i item, entries_of ops d !! i = Some item →
            write_fields ops (ui_values (ui_item ui i)) item = item.

(** The world of a run of [main] when it reaches the list sections, and the
    end of the run from the cover-letter section on ([main_unfold]). *)
Definition before_lists (ui : Ui) (w : World) : World :=
  let w := generate_portfolio_html w in
  let w := emit (EvMarkdown (q "<p style=`font-size: 18px; color: gray;`>Instant AI Resume, Cover Letter and Portfolio Builder</p>")) w in
  let w := emit (EvMarkdown "---") w in
  let w := put_theme (lower (choice_label (ui_theme_choice ui))) w in
  let w := render_personal_details ui w in
  let w := render_summary_generator ui w in
  let w := emit (EvMarkdown "---") w in
  let w := render_skills_form (ui_skills ui) w in
  emit (EvMarkdown "---") w.

Definition after_lists (ui : Ui) (w : World) : RunEnd :=
  let w := emit (EvMarkdown "---") w in
  let w := render_cover_letter_generator ui w in
  let w := emit (EvMarkdown "---") w in
  let w := emit (EvWarning (preview_notice (theme (session w)))) w in
  let w := emit (EvMarkdown (preview_open (theme (session w)))) w in
  let w := render_preview w in
  let w := emit (EvMarkdown "</div>") w in
  let resume_text_data := compile_resume_text (the_data w) in
  let w := emit (EvMarkdown "---") w in
  Finished w resume_text_data (generated_html (session w)).

(** The document a run writes before the list sections, and the one it
    leaves when it ends at its last statement. *)
Definition document_before_lists (ui : Ui) (d : Document) : Document :=
  let d := set_personal (mkPersonal (ui_name ui) (ui_email ui) (ui_phone ui) (ui_linkedin ui))
                        d in
  let d := set_summary (ui_summary ui) d in
  if decide (ui_skills ui ≠ join ", " (skills d))
  then set_skills (parse_skills (ui_skills ui)) d else d.

Definition document_after_run (ui : Ui) (d : Document) : Document :=
  let d := document_before_lists ui d in
  let d := set_education (edited education_ops (ui_education ui) 0 (education d)) d in
  let d := set_experience (edited experience_ops (ui_experience ui) 0 (experience d)) d in
  let d := set_portfolio (edited portfolio_ops (ui_portfolio ui) 0 (portfolio d)) d in
  set_cover_letter_inputs (mkInputs (ui_company ui) (ui_title ui)) d.

(** The widgets of a section returning what the starting document shows,
    with no button pressed, and the same page with the name retyped. *)
Definition ui_showing_initial : Ui := {|
  ui_theme_choice := Light;
  ui_name := "Student Name";
  ui_email := "email@example.com";
  ui_phone := "123-456-7890";
  ui_linkedin := "https//linkedin/profile";
  ui_summary := summary initial_data;
  ui_skills := join ", " (skills initial_data);
  ui_education :=
    mkSectionUi (λ _, mkItemUi ("B.Tech/B.Sc in Computer Science", "University/College Name",
                                "2021 - 2025") false false) false a_reading;
  ui_experience :=
    mkSectionUi (λ _, mkItemUi ("AI and Cloud Intern", "Edunet/IBM SkillsBuild",
                                "June 2024 - Present",
                                bullets (default blank_experience (head (experience initial_data))))
                               false false) false a_reading;
  ui_portfolio :=
    mkSectionUi (λ _, mkItemUi ("AI Resume Builder Project", "https://github.com/my-project",
                                description (default blank_project (head (portfolio initial_data))))
                               false false) false a_reading;
  ui_company := "";
  ui_title := ""
|}.

Definition ui_renaming : Ui := {|
  ui_theme_choice := Dark;
  ui_name := "Jane Doe";
  ui_email := ui_email ui_showing_initial;
  ui_phone := ui_phone ui_showing_initial;
  ui_linkedin := ui_linkedin ui_showing_initial;
  ui_summary := ui_summary ui_showing_initial;
  ui_skills := ui_skills ui_showing_initial;
  ui_education := ui_education ui_showing_initial;
  ui_experience := ui_experience ui_showing_initial;
  ui_portfolio := ui_portfolio ui_showing_initial;
  ui_company := "";
  ui_title := ""
|}.


(** The [section_key] of a list section. *)
Definition section_key_name (key : SectionKey) : string :=
  match key with
  | KeyEducation => "education"
  | KeyExperience => "experience"
  | KeyPortfolio => "portfolio"
  end.

(** *** Vocabulary for the compilers *)

(** [s.isascii()]. *)
Fixpoint isascii (s : string) : bool :=
  match s with
  | String c r => (nat_of_ascii c <? 128)%nat && isascii r
  | EmptyString => true
  end.

(** [text] stands in [page] as it is, with something before and after it. *)
Definition embeds (text page : string) : Prop :=
  ∃ before after, page = before +:+ text +:+ after.

(** A document whose texts are markup. *)
Definition markup_document : Document :=
  set_summary "<script>alert(1)</script>" initial_data.

(** * Properties *)

(** ** Strings *)

Lemma append_cons (c : ascii) (s t : string) : String c s +:+ t = String c (s +:+ t).
Proof. reflexivity. Qed.

Lemma append_nil_l (s : string) : "" +:+ s = s.
Proof. reflexivity. Qed.

Lemma append_nil_r (s : string) : s +:+ "" = s.
Proof. induction s as [|c s IH]; [done|]. by rewrite append_cons, IH. Qed.

Lemma append_assoc (a b c : string) : (a +:+ b) +:+ c = a +:+ (b +:+ c).
Proof. induction a as [|x a IH]; [done|]. by rewrite !append_cons, IH. Qed.

Lemma truthy_true (s : string) : truthy s = true ↔ s ≠ "".
Proof. destruct s; simpl; split; done. Qed.

Lemma truthy_false (s : string) : truthy s = false ↔ s = "".
Proof. destruct s; simpl; split; done. Qed.

Lemma parse_skills_tokens (result : string) : parse_skills result = tokens result.
Proof.
  unfold parse_skills, tokens.
  induction (split ","%char result) as [|t ts IH]; [done|].
  rewrite filter_cons. simpl. rewrite filter_cons.
  destruct (decide (truthy (strip t) = true)) as [Ht|Ht];
    destruct (decide (strip t ≠ "")) as [Hn|Hn]; simpl; rewrite ?IH; try done.
  - apply truthy_true in Ht. done.
  - apply truthy_true in Hn. done.
Qed.

(** ** The generation client *)

Section Client.
Context (env : Env) (prompt system_instruction : string).

#[local] Abbreviation loop := (attempt_loop env prompt system_instruction).
#[local] Abbreviation generate := (generate_content_with_ai env prompt system_instruction).

Lemma attempt_loop_data attempts w : the_data (loop attempts w).2 = the_data w.
Proof.
  revert w. induction attempts as [|a rest IH]; intros w; simpl; [done|].
  destruct (service env a prompt system_instruction) as [[text|]|e|e]; simpl; try done.
  destruct (contains "429" e && _); simpl; [|done].
  by rewrite IH.
Qed.

Lemma attempt_loop_result_world attempts w1 w2 : (loop attempts w1).1 = (loop attempts w2).1.
Proof.
  revert w1 w2. induction attempts as [|a rest IH]; intros w1 w2; simpl; [done|].
  destruct (service env a prompt system_instruction) as [[text|]|e|e]; simpl; try done.
  destruct (contains "429" e && _); simpl; [|done].
  apply IH.
Qed.

(** The loop over [range(MAX_RETRIES)] always ends in a [return]. *)
Lemma attempt_loop_returns a n w :
  a + S n = MAX_RETRIES → is_Some (loop (seq a (S n)) w).1.
Proof.
  revert a w. induction n as [|n IH]; intros a w Ha; simpl.
  - destruct (service env a prompt system_instruction) as [[text|]|e|e]; simpl; try by eexists.
    replace (a <? 4)%nat with false.
    + rewrite andb_false_r. by eexists.
    + symmetry. apply Nat.ltb_ge. unfold MAX_RETRIES in *. lia.
  - destruct (service env a prompt system_instruction) as [[text|]|e|e]; simpl; try by eexists.
    destruct (contains "429" e && _); simpl; [|by eexists].
    apply (IH (S a)). lia.
Qed.

Lemma generate_data w : the_data (generate w).2 = the_data w.
Proof.
  unfold generate_content_with_ai. destruct (client env); cbn [negb]; [|done].
  pose proof (attempt_loop_data (seq 0 MAX_RETRIES) w) as H.
  destruct (loop (seq 0 MAX_RETRIES) w) as [[r|] w']; exact H.
Qed.

Lemma generate_result_world w1 w2 : (generate w1).1 = (generate w2).1.
Proof.
  unfold generate_content_with_ai. destruct (client env); cbn [negb]; [|done].
  pose proof (attempt_loop_result_world (seq 0 MAX_RETRIES) w1 w2) as H.
  destruct (loop (seq 0 MAX_RETRIES) w1) as [[r1|] w1'],
           (loop (seq 0 MAX_RETRIES) w2) as [[r2|] w2']; cbn [fst] in *; congruence.
Qed.

Lemma generate_result w : (generate w).1 = result_of env (system_instruction, prompt).
Proof. apply generate_result_world. Qed.

End Client.

Section Retry.
Context (env : Env) (prompt system_instruction : string).

#[local] Abbreviation attempts_from := (attempt_loop env prompt system_instruction).
#[local] Abbreviation outcome_at := (λ i, service env i prompt system_instruction).
#[local] Abbreviation request := (EvRequest MODEL system_instruction prompt).
#[local] Abbreviation retried := (retry_events system_instruction prompt).

Lemma requests_app (t t' : list Event) :
  length (filter (λ e, is_request e = true) (t ++ t')) =
  length (filter (λ e, is_request e = true) t) + length (filter (λ e, is_request e = true) t').
Proof. by rewrite filter_app, length_app. Qed.

Lemma requests_retried a j :
  length (filter (λ e, is_request e = true) (concat (map retried (seq a j)))) = j.
Proof.
  revert a. induction j as [|j IH]; intros a; [done|].
  cbn [seq map concat]. rewrite requests_app, IH. done.
Qed.

Lemma attempt_loop_bound attempts w :
  network_calls (attempts_from attempts w).2 ≤ network_calls w + length attempts.
Proof.
  revert w. induction attempts as [|a rest IH]; intros w; cbn [attempt_loop length].
  - simpl. lia.
  - destruct (outcome_at a) as [[text|]|e|e]; cbn [snd];
      [| | destruct (contains "429" e && _) |];
      try (unfold network_calls; simpl; rewrite !requests_app; simpl; lia).
    etrans; [apply IH|].
    unfold network_calls; simpl; rewrite !requests_app; simpl; lia.
Qed.

(** [j] rate-limited attempts in a row, none of them the last one allowed,
    are each followed by a warning, a sleep and the next attempt. *)
Lemma attempt_loop_retry j : ∀ a n w,
  (∀ i, a ≤ i < a + j → rate_limited (outcome_at i) = true) →
  a + j ≤ MAX_RETRIES - 1 →
  attempts_from (seq a (j + n)) w =
  attempts_from (seq (a + j) n)
                (mkWorld (session w) (trace w ++ concat (map retried (seq a j)))).
Proof.
  induction j as [|j IH]; intros a n w Hlim Ha.
  - cbn [seq map concat]. rewrite app_nil_r, Nat.add_0_r. by destruct w.
  - cbn [Nat.add seq attempt_loop].
    pose proof (Hlim a ltac:(lia)) as H0. unfold rate_limited in H0.
    destruct (outcome_at a) as [[text|]|e|e]; try done.
    rewrite H0. replace (a <? MAX_RETRIES - 1)%nat with true
      by (symmetry; apply Nat.ltb_lt; lia).
    cbn [andb]. rewrite IH; [|intros i Hi; apply Hlim; lia|lia].
    replace (S a + j) with (a + S j) by lia.
    f_equal. unfold emit; cbn [session trace]. f_equal.
    cbn [map concat]. rewrite <- !app_assoc. done.
Qed.

Lemma attempt_loop_success a n w text :
  outcome_at a = Response (Some text) →
  attempts_from (seq a (S n)) w = (Some (strip text), emit request w).
Proof. intros H. cbn [seq attempt_loop]. by rewrite H. Qed.

Lemma attempt_loop_terminal a n w :
  other_failure (outcome_at a) = true →
  ∃ result msg, is_error result = true ∧
    attempts_from (seq a (S n)) w =
    (Some result, put_loading None (emit (EvError msg) (emit request w))).
Proof.
  intros H. cbn [seq attempt_loop].
  destruct (outcome_at a) as [[text|]|e|e]; cbn [other_failure] in H; try done.
  - eexists _, _. split; [|reflexivity]. reflexivity.
  - apply negb_true_iff in H. rewrite H. cbn [andb].
    eexists _, _. split; [|reflexivity]. reflexivity.
  - eexists _, _. split; [|reflexivity]. reflexivity.
Qed.

Lemma attempt_loop_exhausted a n w :
  rate_limited (outcome_at a) = true → MAX_RETRIES - 1 ≤ a →
  ∃ e, outcome_at a = RaiseAPIError e ∧ contains "429" e = true ∧
    attempts_from (seq a (S n)) w =
    (Some "Error: Could not connect to AI service or API key is invalid.",
     put_loading None (emit (EvError ("Gemini API Call Failed: " +:+ e)) (emit request w))).
Proof.
  intros H Ha. cbn [seq attempt_loop].
  destruct (outcome_at a) as [[text|]|e|e]; cbn [rate_limited] in H; try done.
  exists e. split; [done|]. split; [done|].
  replace (a <? MAX_RETRIES - 1)%nat with false
    by (symmetry; apply Nat.ltb_ge; lia).
  by rewrite andb_false_r.
Qed.


Lemma generate_unfold w result w' :
  client env = true →
  attempts_from (seq 0 MAX_RETRIES) w = (Some result, w') →
  generate_content_with_ai env prompt system_instruction w = (result, w').
Proof. intros Hc H. unfold generate_content_with_ai. by rewrite Hc, H. Qed.

Lemma generate_bound w :
  network_calls (generate_content_with_ai env prompt system_instruction w).2
  ≤ network_calls w + 5.
Proof.
  unfold generate_content_with_ai.
  destruct (client env); cbn [negb]; [|cbn [snd]; lia].
  pose proof (attempt_loop_bound (seq 0 MAX_RETRIES) w) as H.
  rewrite length_seq in H.
  destruct (attempt_loop _ _ _ _ _) as [[res|] w']; exact H.
Qed.

(** The world after [N] retried attempts. *)
#[local] Abbreviation after_retries w N :=
  (mkWorld (session w) (trace w ++ concat (map retried (seq 0 N)))).

Lemma generate_after_retries w N result w' :
  client env = true →
  (∀ i, i < N → rate_limited (outcome_at i) = true) →
  N < 5 →
  attempts_from (seq N (S (4 - N))) (after_retries w N) = (Some result, w') →
  generate_content_with_ai env prompt system_instruction w = (result, w').
Proof.
  intros Hc Hlim HN Hloop. apply generate_unfold; [done|].
  replace MAX_RETRIES with (N + S (4 - N)) by (unfold MAX_RETRIES; lia).
  rewrite attempt_loop_retry;
    [|intros i Hi; apply Hlim; lia|unfold MAX_RETRIES; lia].
  exact Hloop.
Qed.

Lemma calls_after_retries w N (s : Session) (rest : list Event) :
  network_calls (mkWorld s ((trace w ++ concat (map retried (seq 0 N))) ++ rest)) =
  network_calls w + N + length (filter (λ e, is_request e = true) rest).
Proof. unfold network_calls. cbn [trace]. by rewrite !requests_app, requests_retried. Qed.

End Retry.

(** C2.  The client issues at most five attempts for a call.  With a client
    that was initialised: after [N < 5] rate-limited failures in a row a
    success is returned (trimmed) after exactly [N + 1] attempts, each
    failure having been followed by its warning and its sleep of
    [2^attempt + 1] seconds; any other failure is terminal where it occurs,
    after exactly [N + 1] attempts; and when the first five attempts are all
    rate-limited, exactly five attempts are issued and the error result is
    returned, the rate-limit failure of the fifth being reported. *)
Theorem generation_client_attempts (env : Env) (prompt system_instruction : string) (w : World) :
  let r := generate_content_with_ai env prompt system_instruction w in
  let outcome_at i := service env i prompt system_instruction in
  let request := EvRequest MODEL system_instruction prompt in
  let retried N := concat (map (retry_events system_instruction prompt) (seq 0 N)) in
  network_calls r.2 ≤ network_calls w + 5 ∧
  (client env = true →
   ∀ N, (∀ i, i < N → rate_limited (outcome_at i) = true) →
     (N < 5 → ∀ text, outcome_at N = Response (Some text) →
        r.1 = strip text ∧
        network_calls r.2 = network_calls w + N + 1 ∧
        trace r.2 = trace w ++ retried N ++ [request]) ∧
     (N < 5 → other_failure (outcome_at N) = true →
        is_error r.1 = true ∧
        network_calls r.2 = network_calls w + N + 1 ∧
        ∃ msg, trace r.2 = trace w ++ retried N ++ [request; EvError msg]) ∧
     (5 ≤ N →
        r.1 = "Error: Could not connect to AI service or API key is invalid." ∧
        is_error r.1 = true ∧
        network_calls r.2 = network_calls w + 5 ∧
        ∃ e, outcome_at 4 = RaiseAPIError e ∧ contains "429" e = true ∧
          trace r.2 = trace w ++ retried 4
                      ++ [request; EvError ("Gemini API Call Failed: " +:+ e)])).
Proof.
  cbv zeta. split; [apply generate_bound|].
  intros Hc N Hlim. split; [|split].
  - intros HN text Hok.
    rewrite (generate_after_retries env prompt system_instruction w N _ _ Hc Hlim HN
               (attempt_loop_success env prompt system_instruction N _ _ text Hok)).
    unfold emit. cbn [fst snd session trace]. split; [done|]. split.
    + rewrite calls_after_retries. simpl. lia.
    + by rewrite <- app_assoc.
  - intros HN Hfail.
    destruct (attempt_loop_terminal env prompt system_instruction N (4 - N)
                (mkWorld (session w)
                   (trace w ++ concat (map (retry_events system_instruction prompt) (seq 0 N))))
                Hfail)
      as (result & msg & Herr & Hloop).
    rewrite (generate_after_retries env prompt system_instruction w N _ _ Hc Hlim HN Hloop).
    unfold put_loading, emit. cbn [fst snd session trace]. split; [done|]. split.
    + rewrite <- app_assoc, calls_after_retries. simpl. lia.
    + exists msg. by rewrite <- !app_assoc.
  - intros HN.
    destruct (attempt_loop_exhausted env prompt system_instruction 4 0
                (mkWorld (session w)
                   (trace w ++ concat (map (retry_events system_instruction prompt) (seq 0 4)))))
      as (e & He & H429 & Hloop).
    { apply Hlim. lia. }
    { unfold MAX_RETRIES. lia. }
    rewrite (generate_after_retries env prompt system_instruction w 4 _ _ Hc
               ltac:(intros i Hi; apply Hlim; lia) ltac:(lia) Hloop).
    unfold put_loading, emit. cbn [fst snd session trace].
    split; [done|]. split; [done|]. split.
    + rewrite <- app_assoc, calls_after_retries. simpl. lia.
    + exists e. split; [done|]. split; [done|]. by rewrite <- !app_assoc.
Qed.

Lemma generation_client_attempts_witness :
  ((generate_content_with_ai env_two_limits "prompt" "instruction" world0).1
     = "Docker, Kubernetes" ∧
   network_calls (generate_content_with_ai env_two_limits "prompt" "instruction" world0).2 = 3) ∧
  (is_error (generate_content_with_ai env_bad_key "prompt" "instruction" world0).1 = true ∧
   network_calls (generate_content_with_ai env_bad_key "prompt" "instruction" world0).2 = 2) ∧
  (is_error (generate_content_with_ai env_always_limited "prompt" "instruction" world0).1 = true ∧
   network_calls (generate_content_with_ai env_always_limited "prompt" "instruction" world0).2 = 5).
Proof.
  split; [|split].
  - destruct (generation_client_attempts env_two_limits "prompt" "instruction" world0)
      as [_ H].
    destruct (H eq_refl 2) as [Hok _].
    + intros [|[|i]] Hi; [reflexivity|reflexivity|lia].
    + destruct (Hok ltac:(lia) " Docker, Kubernetes " eq_refl) as (H1 & H2 & _).
      split; [exact H1|exact H2].
  - destruct (generation_client_attempts env_bad_key "prompt" "instruction" world0)
      as [_ H].
    destruct (H eq_refl 1) as (_ & Hfail & _).
    + intros [|i] Hi; [reflexivity|lia].
    + destruct (Hfail ltac:(lia) eq_refl) as (H1 & H2 & _).
      split; [exact H1|exact H2].
  - destruct (generation_client_attempts env_always_limited "prompt" "instruction" world0)
      as [_ H].
    destruct (H eq_refl 7) as (_ & _ & Hout).
    + intros i Hi. reflexivity.
    + destruct (Hout ltac:(lia)) as (_ & H1 & H2 & _).
      split; [exact H1|exact H2].
Defined.

(** ** The handlers: what each does to the document *)

(** One call of the client inside a handler: name its result and its final
    world, and record that the document is the one the call started from. *)
Ltac call_client :=
  match goal with
  | |- context [generate_content_with_ai ?env ?p ?s ?w] =>
      let Hd := fresh "Hdata" in
      let Hr := fresh "Hresult" in
      pose proof (generate_data env p s w) as Hd;
      pose proof (generate_result env p s w) as Hr;
      destruct (generate_content_with_ai env p s w) as [? ?];
      cbn [fst snd] in Hd, Hr; subst
  end.

Lemma summary_data env w :
  the_data (handle_generate_summary env w) =
  set_summary (result_of env (summary_instruction, summary_prompt (the_data w))) (the_data w).
Proof.
  unfold handle_generate_summary. call_client.
  unfold the_data, put_loading, put_data in *. cbn [session data] in *. by rewrite Hdata.
Qed.

Lemma skills_data env w :
  the_data (handle_suggest_skills env w) =
  let result := result_of env (skills_instruction, skills_prompt (the_data w)) in
  if is_error result then the_data w
  else set_skills (union_order env (skills (the_data w)) (parse_skills result)) (the_data w).
Proof.
  unfold handle_suggest_skills. call_client. cbv zeta.
  change (the_data (put_loading (Some (LoadingTag "skills")) w)) with (the_data w) in *.
  destruct (is_error _); cbn [negb];
    unfold the_data, put_loading, put_data in *; cbn [session data] in *;
    by rewrite Hdata.
Qed.

Lemma cover_letter_data env w :
  the_data (handle_generate_cover_letter env w) =
  let d := the_data w in
  let result := result_of env (cover_letter_instruction, cover_letter_prompt d) in
  if negb (truthy (cl_company (cover_letter_inputs d)))
     || negb (truthy (cl_title (cover_letter_inputs d)))
  then set_cover_letter_draft validation_message d
  else if is_error result then set_cover_letter_draft drafting_placeholder d
       else set_cover_letter_draft result d.
Proof.
  unfold handle_generate_cover_letter. cbv zeta.
  change (the_data (put_loading (Some (LoadingTag "cover-letter")) w)) with (the_data w).
  destruct (negb (truthy _) || negb (truthy _)); [done|].
  call_client.
  destruct (is_error _); cbn [negb];
    unfold the_data, put_loading, put_data in *; cbn [session data] in *;
    by rewrite ?Hdata.
Qed.

(** The refinement handler, case by case. *)
Lemma refine_unbound env id section w :
  refine_item section id (the_data w) = None →
  handle_refine_bullets env id section w =
  Raises "UnboundLocalError" (put_loading (Some (LoadingId id)) w).
Proof.
  intros H. unfold handle_refine_bullets. cbv zeta.
  change (the_data (put_loading (Some (LoadingId id)) w)) with (the_data w).
  by rewrite H.
Qed.

Lemma refine_nothing env id section w :
  (refine_item section id (the_data w) = Some None ∨
   ∃ item_title, refine_item section id (the_data w) = Some (Some (item_title, ""))) →
  handle_refine_bullets env id section w =
  Returns (mkWorld (mkSession (the_data w) None (generated_html (session w))
                              (theme (session w)))
                   (trace w ++ [EvWarning "No raw input to refine."])).
Proof.
  intros H. unfold handle_refine_bullets. cbv zeta.
  change (the_data (put_loading (Some (LoadingId id)) w)) with (the_data w).
  destruct H as [H|[item_title H]]; rewrite H; reflexivity.
Qed.

Lemma refine_generates env id section w item_title raw :
  refine_item section id (the_data w) = Some (Some (item_title, raw)) →
  raw ≠ "" →
  ∃ w', handle_refine_bullets env id section w = Returns w' ∧
    let result := result_of env (refine_request section item_title raw) in
    the_data w' = (if is_error result then the_data w
                   else refine_merge section id result (the_data w)).
Proof.
  intros H Hraw. unfold handle_refine_bullets. cbv zeta.
  change (the_data (put_loading (Some (LoadingId id)) w)) with (the_data w).
  rewrite H. apply truthy_true in Hraw. rewrite Hraw. cbn [negb].
  destruct (refine_request section item_title raw) as [system_instruction user_prompt].
  call_client. eexists. split; [reflexivity|]. cbn [fst snd].
  destruct (is_error _); cbn [negb];
    unfold the_data, put_loading, put_data in *; cbn [session data] in *;
    by rewrite ?Hdata.
Qed.

(** ** Lists of entries *)

Lemma lookup_map {A B : Type} (f : A → B) (l : list A) (i : nat) :
  map f l !! i = f <$> l !! i.
Proof. revert i. induction l as [|x l IH]; intros [|i]; simpl; auto. Qed.

(** With unique ids, the entry found for the id of an entry is that entry. *)
Lemma head_filter_unique {A : Type} (get_id : A → Id) (l : list A) (e : A) :
  NoDup (map get_id l) → e ∈ l →
  head (filter (λ x, get_id x = get_id e) l) = Some e.
Proof.
  induction l as [|x l IH]; intros Hnd He; [by apply elem_of_nil in He|].
  cbn [map] in Hnd. apply NoDup_cons in Hnd as [Hx Hnd].
  rewrite filter_cons. apply elem_of_cons in He as [->|He].
  - by rewrite decide_True.
  - destruct (decide (get_id x = get_id e)) as [Heq|Hne]; [|by apply IH].
    exfalso. apply Hx. rewrite Heq. apply list_elem_of_In, in_map, list_elem_of_In, He.
Qed.

(** With no entry of that id, nothing is found. *)
Lemma head_filter_none {A : Type} (get_id : A → Id) (l : list A) (id : Id) :
  (∀ e, e ∈ l → get_id e ≠ id) → head (filter (λ x, get_id x = id) l) = None.
Proof.
  induction l as [|x l IH]; intros H; [done|].
  rewrite filter_cons, decide_False by (apply H; left).
  apply IH. intros e He. apply H. by right.
Qed.

(** C6.  When the target company or the target job title is empty, the
    cover-letter handler sends nothing to the service (the trace of effects is
    the one it started with), stores the validation message, which carries
    the error marker, in the draft, changes nothing else in the document and
    clears the in-flight marker. *)
Theorem cover_letter_validation (env : Env) (w : World) :
  cl_company (cover_letter_inputs (the_data w)) = "" ∨
  cl_title (cover_letter_inputs (the_data w)) = "" →
  let w' := handle_generate_cover_letter env w in
  trace w' = trace w ∧
  network_calls w' = network_calls w ∧
  cover_letter_draft (the_data w') = validation_message ∧
  is_error (cover_letter_draft (the_data w')) = true ∧
  the_data w' = set_cover_letter_draft validation_message (the_data w) ∧
  ai_loading (session w') = None.
Proof.
  intros H. cbv zeta.
  assert (handle_generate_cover_letter env w =
          put_loading None
            (put_data (set_cover_letter_draft validation_message (the_data w)) w)) as ->.
  { unfold handle_generate_cover_letter. cbv zeta.
    change (the_data (put_loading (Some (LoadingTag "cover-letter")) w)) with (the_data w).
    destruct H as [-> | ->]; cbn [truthy negb orb]; [done|].
    by rewrite orb_true_r. }
  done.
Qed.

Lemma cover_letter_validation_witness :
  cover_letter_draft (the_data (handle_generate_cover_letter env_two_limits world0))
  = "Error: Please enter both Target Company and Job Title." ∧
  network_calls (handle_generate_cover_letter env_two_limits world0) = 0.
Proof.
  destruct (cover_letter_validation env_two_limits world0 (or_introl eq_refl))
    as (_ & Hcalls & Hdraft & _).
  split; [exact Hdraft|exact Hcalls].
Defined.

(** C5.  In a section whose ids are unique, asking to refine an entry whose
    raw text is empty sends nothing to the service: the only effect is the
    warning "No raw input to refine.", the document is the one before the
    request, and the in-flight marker is cleared.  This holds for experience
    entries (bullets) and for portfolio entries (description). *)
Theorem refine_empty_raw_text (env : Env) (w : World) :
  (∀ e, NoDup (map exp_id (experience (the_data w))) →
        e ∈ experience (the_data w) → bullets e = "" →
        ∃ w', handle_refine_bullets env (exp_id e) "experience" w = Returns w' ∧
              trace w' = trace w ++ [EvWarning "No raw input to refine."] ∧
              network_calls w' = network_calls w ∧
              the_data w' = the_data w ∧
              ai_loading (session w') = None) ∧
  (∀ p, NoDup (map proj_id (portfolio (the_data w))) →
        p ∈ portfolio (the_data w) → description p = "" →
        ∃ w', handle_refine_bullets env (proj_id p) "portfolio" w = Returns w' ∧
              trace w' = trace w ++ [EvWarning "No raw input to refine."] ∧
              network_calls w' = network_calls w ∧
              the_data w' = the_data w ∧
              ai_loading (session w') = None).
Proof.
  split.
  - intros e Hnd He Hraw. eexists. split.
    + apply refine_nothing. right. exists (title e).
      unfold refine_item, find_item. rewrite decide_True by done.
      by rewrite (head_filter_unique exp_id _ e Hnd He), <- Hraw.
    + repeat split. unfold network_calls. cbn [trace].
      rewrite filter_app, length_app. simpl. lia.
  - intros p Hnd Hp Hraw. eexists. split.
    + apply refine_nothing. right. exists (proj_name p).
      unfold refine_item, find_item. rewrite decide_False, decide_True by done.
      by rewrite (head_filter_unique proj_id _ p Hnd Hp), <- Hraw.
    + repeat split. unfold network_calls. cbn [trace].
      rewrite filter_app, length_app. simpl. lia.
Qed.

Lemma ids_with_blanks :
  NoDup (map exp_id (experience (the_data world_with_blanks))) ∧
  NoDup (map proj_id (portfolio (the_data world_with_blanks))).
Proof.
  assert (Q2Qc 1 ≠ a_reading) as Hne.
  { intros H. apply (f_equal this) in H. vm_compute in H. discriminate H. }
  split; simpl; apply NoDup_cons; (split; [|apply NoDup_singleton]);
    intros Hin; apply list_elem_of_singleton in Hin; done.
Defined.

Lemma refine_empty_raw_text_witness :
  (∃ w', handle_refine_bullets env_two_limits a_reading "experience" world_with_blanks
         = Returns w' ∧ network_calls w' = 0 ∧ the_data w' = the_data world_with_blanks) ∧
  (∃ w', handle_refine_bullets env_two_limits a_reading "portfolio" world_with_blanks
         = Returns w' ∧ network_calls w' = 0 ∧ the_data w' = the_data world_with_blanks).
Proof.
  destruct (refine_empty_raw_text env_two_limits world_with_blanks) as [Hexp Hproj].
  destruct ids_with_blanks as [Hnd1 Hnd2].
  split.
  - destruct (Hexp blank_experience Hnd1) as (w' & Hrun & _ & Hcalls & Hdata & _).
    + simpl. right. left.
    + reflexivity.
    + exists w'. split; [exact Hrun|]. split; [exact Hcalls|exact Hdata].
  - destruct (Hproj blank_project Hnd2) as (w' & Hrun & _ & Hcalls & Hdata & _).
    + simpl. right. left.
    + reflexivity.
    + exists w'. split; [exact Hrun|]. split; [exact Hcalls|exact Hdata].
Defined.

(** C4.  A non-error refinement result is written into the [bullets] (resp.
    [description]) of the entries whose id is the given id and nowhere else:
    the section keeps its length and its order, an entry with another id is
    the entry it was, an entry with the id keeps its id and its other fields,
    and the other sections of the document are unchanged.  When no entry of
    the section has the id, the handler returns with the document unchanged
    and without a call to the service.  ([item] is the entry the handler
    reads: the first one with the id.) *)
Theorem refinement_merge_frame (env : Env) (w : World) (id : Id) :
  let d := the_data w in
  (∀ item, head (filter (λ e, exp_id e = id) (experience d)) = Some item →
     bullets item ≠ "" →
     let result := result_of env (refine_request "experience" (title item) (bullets item)) in
     is_error result = false →
     ∃ w', handle_refine_bullets env id "experience" w = Returns w' ∧
       length (experience (the_data w')) = length (experience d) ∧
       (∀ i e, experience d !! i = Some e →
          experience (the_data w') !! i =
          Some (if decide (exp_id e = id)
                then mkExperience (exp_id e) (title e) (company e) (exp_dates e) result
                else e)) ∧
       set_experience (experience d) (the_data w') = d) ∧
  (∀ item, head (filter (λ p, proj_id p = id) (portfolio d)) = Some item →
     description item ≠ "" →
     let result :=
       result_of env (refine_request "portfolio" (proj_name item) (description item)) in
     is_error result = false →
     ∃ w', handle_refine_bullets env id "portfolio" w = Returns w' ∧
       length (portfolio (the_data w')) = length (portfolio d) ∧
       (∀ i p, portfolio d !! i = Some p →
          portfolio (the_data w') !! i =
          Some (if decide (proj_id p = id)
                then mkPortfolio (proj_id p) (proj_name p) (link p) result
                else p)) ∧
       set_portfolio (portfolio d) (the_data w') = d) ∧
  ((∀ e, e ∈ experience d → exp_id e ≠ id) →
     ∃ w', handle_refine_bullets env id "experience" w = Returns w' ∧
       the_data w' = d ∧ network_calls w' = network_calls w) ∧
  ((∀ p, p ∈ portfolio d → proj_id p ≠ id) →
     ∃ w', handle_refine_bullets env id "portfolio" w = Returns w' ∧
       the_data w' = d ∧ network_calls w' = network_calls w).
Proof.
  cbv zeta. split; [|split; [|split]].
  - intros item Hitem Hraw Hok.
    destruct (refine_generates env id "experience" w (title item) (bullets item))
      as (w' & Hrun & Hdata); [|done|].
    { unfold refine_item, find_item. rewrite decide_True by done. by rewrite Hitem. }
    cbv zeta in Hdata. rewrite Hok in Hdata.
    exists w'. split; [done|]. rewrite Hdata.
    unfold refine_merge. rewrite decide_True by done. cbn [experience set_experience].
    split; [by rewrite length_map|]. split; [|by destruct (the_data w)].
    intros i e Hi. rewrite lookup_map, Hi. cbn [fmap option_fmap option_map].
    by destruct (decide _).
  - intros item Hitem Hraw Hok.
    destruct (refine_generates env id "portfolio" w (proj_name item) (description item))
      as (w' & Hrun & Hdata); [|done|].
    { unfold refine_item, find_item. rewrite decide_False, decide_True by done.
      by rewrite Hitem. }
    cbv zeta in Hdata. rewrite Hok in Hdata.
    exists w'. split; [done|]. rewrite Hdata.
    unfold refine_merge. rewrite decide_False by done. cbn [portfolio set_portfolio].
    split; [by rewrite length_map|]. split; [|by destruct (the_data w)].
    intros i p Hi. rewrite lookup_map, Hi. cbn [fmap option_fmap option_map].
    by destruct (decide _).
  - intros Hnone. eexists. split.
    + apply refine_nothing. left.
      unfold refine_item, find_item. rewrite decide_True by done.
      by rewrite head_filter_none.
    + split; [done|]. unfold network_calls. cbn [trace].
      rewrite filter_app, length_app. simpl. lia.
  - intros Hnone. eexists. split.
    + apply refine_nothing. left.
      unfold refine_item, find_item. rewrite decide_False, decide_True by done.
      by rewrite head_filter_none.
    + split; [done|]. unfold network_calls. cbn [trace].
      rewrite filter_app, length_app. simpl. lia.
Qed.

Lemma refinement_merge_frame_witness :
  (∃ w', handle_refine_bullets (env_answering "Built it.") (Q2Qc 1) "experience" world0
         = Returns w' ∧
         bullets <$> experience (the_data w') !! 0 = Some "Built it.") ∧
  (∃ w', handle_refine_bullets (env_answering "A resume tool.") (Q2Qc 1) "portfolio" world0
         = Returns w' ∧
         description <$> portfolio (the_data w') !! 0 = Some "A resume tool.") ∧
  (∃ w', handle_refine_bullets (env_answering "Built it.") a_reading "experience" world0
         = Returns w' ∧ the_data w' = initial_data) ∧
  (∃ w', handle_refine_bullets (env_answering "Built it.") a_reading "portfolio" world0
         = Returns w' ∧ the_data w' = initial_data).
Proof.
  assert (Q2Qc 1 ≠ a_reading) as Hne.
  { intros H. apply (f_equal this) in H. vm_compute in H. discriminate H. }
  split; [|split; [|split]].
  - destruct (refinement_merge_frame (env_answering "Built it.") world0 (Q2Qc 1))
      as (Hexp & _).
    destruct (Hexp (default blank_experience (head (experience initial_data))))
      as (w' & Hrun & _ & Hat & _); [reflexivity|discriminate|reflexivity|].
    exists w'. split; [exact Hrun|]. by rewrite (Hat 0 _ eq_refl).
  - destruct (refinement_merge_frame (env_answering "A resume tool.") world0 (Q2Qc 1))
      as (_ & Hproj & _).
    destruct (Hproj (default blank_project (head (portfolio initial_data))))
      as (w' & Hrun & _ & Hat & _); [reflexivity|discriminate|reflexivity|].
    exists w'. split; [exact Hrun|]. by rewrite (Hat 0 _ eq_refl).
  - destruct (refinement_merge_frame (env_answering "Built it.") world0 a_reading)
      as (_ & _ & Hnone & _).
    destruct Hnone as (w' & Hrun & Hdata & _).
    + intros e He. apply list_elem_of_singleton in He. by subst e.
    + exists w'. split; [exact Hrun|exact Hdata].
  - destruct (refinement_merge_frame (env_answering "Built it.") world0 a_reading)
      as (_ & _ & _ & Hnone).
    destruct Hnone as (w' & Hrun & Hdata & _).
    + intros p Hp. apply list_elem_of_singleton in Hp. by subst p.
    + exists w'. split; [exact Hrun|exact Hdata].
Defined.

(** C3.  With the skills of the document free of duplicates and of empty
    strings, and a skills result that is not an error, the stored skills are
    exactly the union of the old skills and the tokens of the result (split
    on commas, each trimmed, the empty ones dropped): a string is in the new
    list iff it was a skill or is a token; the new list has no duplicate and
    no empty string, is at least as long as the old one, and nothing else
    in the document changes.  The order of the new list is the one Python
    gives the union, of which only [python_sets] is assumed. *)
Theorem skills_merge_union (env : Env) (w : World) :
  let d := the_data w in
  let result := result_of env (skills_instruction, skills_prompt d) in
  let d' := the_data (handle_suggest_skills env w) in
  python_sets env →
  NoDup (skills d) → "" ∉ skills d → is_error result = false →
  (∀ x, x ∈ skills d' ↔ x ∈ skills d ∨ x ∈ tokens result) ∧
  NoDup (skills d') ∧
  ("" ∉ skills d') ∧
  length (skills d) ≤ length (skills d') ∧
  set_skills (skills d) d' = d.
Proof.
  intros d result d' Hsets Hnd Hne Hok.
  assert (d' = set_skills (union_order env (skills d) (tokens result)) d) as ->.
  { subst d'. rewrite skills_data. cbv zeta. fold d. fold result.
    by rewrite Hok, parse_skills_tokens. }
  cbn [skills set_skills].
  pose proof (Hsets (skills d) (tokens result)) as Hperm.
  assert (∀ x, x ∈ union_order env (skills d) (tokens result)
               ↔ x ∈ skills d ∨ x ∈ tokens result) as Hmem.
  { intros x. rewrite Hperm, elem_of_elements, elem_of_union, !elem_of_list_to_set. done. }
  split; [exact Hmem|]. split; [|split; [|split]].
  - rewrite Hperm. apply NoDup_elements.
  - intros Hin. apply Hmem in Hin as [Hin|Hin]; [done|].
    unfold tokens in Hin. apply list_elem_of_filter in Hin as [Hin _]. done.
  - rewrite Hperm.
    transitivity (size (list_to_set (skills d) : gset string)).
    + by rewrite size_list_to_set.
    + match goal with
      | |- _ ≤ length (elements ?X) => change (length (elements X)) with (size X)
      end.
      apply subseteq_size, union_subseteq_l.
  - by destruct d.
Qed.

Lemma some_order_python_sets (client_ok : bool) (service_now : nat → string → string → Outcome) :
  python_sets (mkEnv client_ok service_now some_order).
Proof. intros a b. reflexivity. Qed.

Lemma skills_merge_union_witness :
  let d' := the_data (handle_suggest_skills (env_answering " Docker, Python ,, SQL ") world0) in
  (∀ x, x ∈ skills d' ↔ x ∈ skills initial_data ∨ x ∈ ["Docker"; "Python"; "SQL"]) ∧
  length (skills d') = 7.
Proof.
  cbv zeta.
  destruct (skills_merge_union (env_answering " Docker, Python ,, SQL ") world0)
    as (Hmem & _ & _ & _ & _).
  - apply some_order_python_sets.
  - exact (bool_decide_unpack (NoDup (skills initial_data)) I).
  - exact (bool_decide_unpack ("" ∉ skills initial_data) I).
  - reflexivity.
  - split; [exact Hmem|]. vm_compute. reflexivity.
Defined.

(** ** Error results *)

(** A service that answers the first attempt: the handler receives the
    trimmed text. *)
Lemma result_of_answer env text request :
  client env = true →
  (∀ prompt system_instruction,
     service env 0 prompt system_instruction = Response (Some text)) →
  result_of env request = strip text.
Proof.
  intros Hc Hanswer. unfold result_of.
  by rewrite (generate_unfold env _ _ _ (strip text) _ Hc
                (attempt_loop_success env _ _ 0 4 _ text (Hanswer _ _))).
Qed.

Lemma result_of_no_client env request :
  client env = false →
  result_of env request = "Error: Gemini client not initialized. Check API Key configuration.".
Proof. intros Hc. unfold result_of, generate_content_with_ai. by rewrite Hc. Qed.

(** The refinement handler when every result it can receive is an error. *)
Lemma refine_error_data env w id section :
  section = "experience" ∨ section = "portfolio" →
  (∀ item_title raw,
     refine_item section id (the_data w) = Some (Some (item_title, raw)) →
     is_error (result_of env (refine_request section item_title raw)) = true) →
  ∃ w', handle_refine_bullets env id section w = Returns w' ∧ the_data w' = the_data w.
Proof.
  intros Hsection Herr.
  destruct (refine_item section id (the_data w)) as [[[item_title raw]|]|] eqn:Hitem.
  - destruct (decide (raw = "")) as [->|Hraw].
    + eexists. split; [apply refine_nothing; right; by exists item_title|done].
    + destruct (refine_generates env id section w item_title raw Hitem Hraw)
        as (w' & Hrun & Hdata).
      cbv zeta in Hdata. rewrite (Herr _ _ eq_refl) in Hdata. by exists w'.
  - eexists. split; [apply refine_nothing; by left|done].
  - exfalso. unfold refine_item in Hitem.
    destruct Hsection as [-> | ->]; simpl in Hitem; discriminate Hitem.
Qed.

(** C1, as the code has it.  When the result of the generation is an error
    (it starts with "Error"): the skills handler and the refinement handler
    (experience and portfolio) leave the whole document as it was; the
    summary handler stores the result in [summary] and leaves every other
    field as it was; the cover-letter handler leaves every field other than
    the draft as it was. *)
Theorem failed_generation_frame (env : Env) (w : World) :
  let d := the_data w in
  (is_error (result_of env (skills_instruction, skills_prompt d)) = true →
   the_data (handle_suggest_skills env w) = d) ∧
  (∀ id section,
     section = "experience" ∨ section = "portfolio" →
     (∀ item_title raw,
        refine_item section id d = Some (Some (item_title, raw)) →
        is_error (result_of env (refine_request section item_title raw)) = true) →
     ∃ w', handle_refine_bullets env id section w = Returns w' ∧ the_data w' = d) ∧
  (is_error (result_of env (summary_instruction, summary_prompt d)) = true →
   the_data (handle_generate_summary env w) =
   set_summary (result_of env (summary_instruction, summary_prompt d)) d) ∧
  (is_error (result_of env (cover_letter_instruction, cover_letter_prompt d)) = true →
   except_draft (the_data (handle_generate_cover_letter env w)) = except_draft d).
Proof.
  cbv zeta. split; [|split; [|split]].
  - intros Herr. rewrite skills_data. cbv zeta. by rewrite Herr.
  - intros id section Hsection Herr. by apply refine_error_data.
  - intros _. apply summary_data.
  - intros _. rewrite cover_letter_data. cbv zeta.
    destruct (negb _ || negb _); [done|]. by destruct (is_error _).
Qed.

Lemma failed_generation_frame_witness :
  the_data (handle_suggest_skills env_no_client world0) = initial_data ∧
  (∃ w', handle_refine_bullets env_no_client (Q2Qc 1) "experience" world0 = Returns w' ∧
         the_data w' = initial_data) ∧
  summary (the_data (handle_generate_summary env_no_client world0))
  = "Error: Gemini client not initialized. Check API Key configuration." ∧
  except_draft (the_data (handle_generate_cover_letter env_no_client world0))
  = except_draft initial_data.
Proof.
  destruct (failed_generation_frame env_no_client world0) as (Hskills & Hrefine & Hsum & Hcl).
  split; [exact (Hskills eq_refl)|]. split; [|split].
  - apply Hrefine; [by left|]. intros item_title raw _. reflexivity.
  - by rewrite (Hsum eq_refl).
  - exact (Hcl eq_refl).
Defined.

(** C1 as stated fails: with no client the result is an error, and the
    summary handler stores it over the summary that was there. *)
Lemma failed_generation_overwrites_summary :
  is_error (result_of env_no_client (summary_instruction, summary_prompt initial_data)) = true ∧
  the_data (handle_generate_summary env_no_client world0) ≠ the_data world0.
Proof. split; [reflexivity|]. intros H. apply (f_equal summary) in H. discriminate H. Qed.

(** The cover-letter handler after a failed generation: the draft holds the
    text written before the call. *)
Lemma failed_generation_leaves_placeholder (env : Env) (w : World) :
  let d := the_data w in
  cl_company (cover_letter_inputs d) ≠ "" → cl_title (cover_letter_inputs d) ≠ "" →
  is_error (result_of env (cover_letter_instruction, cover_letter_prompt d)) = true →
  cover_letter_draft (the_data (handle_generate_cover_letter env w)) = drafting_placeholder.
Proof.
  cbv zeta. intros Hc Ht Herr. rewrite cover_letter_data. cbv zeta.
  apply truthy_true in Hc, Ht. by rewrite Hc, Ht, Herr.
Qed.

(** C10.  The handlers tell a failed generation from a good one by one
    test, whether the result starts with "Error".  When the service answers
    the first attempt with [text], the result is the trimmed text, and: the
    skills handler leaves the document as it was if the trimmed text starts
    with "Error" and merges its tokens otherwise; the refinement handler
    returns with the document as it was if the trimmed text starts with
    "Error", and in no case with anything but the document as it was or the
    merge of a text that does not start with "Error"; the cover-letter
    handler (with both inputs given) stores the trimmed text in the draft
    unless it starts with "Error", in which case the draft keeps the text
    written before the call; the summary handler stores the trimmed text in
    [summary] whatever it starts with. *)
Theorem error_prefix_classification (env : Env) (w : World) (text : string) :
  let d := the_data w in
  client env = true →
  (∀ prompt system_instruction,
     service env 0 prompt system_instruction = Response (Some text)) →
  the_data (handle_suggest_skills env w)
  = (if is_error (strip text) then d
     else set_skills (union_order env (skills d) (parse_skills (strip text))) d) ∧
  (∀ id section,
     section = "experience" ∨ section = "portfolio" →
     ∃ w', handle_refine_bullets env id section w = Returns w' ∧
       (is_error (strip text) = true → the_data w' = d) ∧
       (the_data w' = d ∨
        (is_error (strip text) = false ∧
         the_data w' = refine_merge section id (strip text) d))) ∧
  (cl_company (cover_letter_inputs d) ≠ "" → cl_title (cover_letter_inputs d) ≠ "" →
   the_data (handle_generate_cover_letter env w) =
   set_cover_letter_draft
     (if is_error (strip text) then drafting_placeholder else strip text) d) ∧
  the_data (handle_generate_summary env w) = set_summary (strip text) d.
Proof.
  cbv zeta. intros Hc Hanswer.
  pose proof (λ request, result_of_answer env text request Hc Hanswer) as Hres.
  split; [|split; [|split]].
  - rewrite skills_data. cbv zeta. by rewrite Hres.
  - intros id section Hsection.
    destruct (refine_item section id (the_data w)) as [[[item_title raw]|]|] eqn:Hitem.
    + destruct (decide (raw = "")) as [->|Hraw].
      * eexists. split; [apply refine_nothing; right; by exists item_title|].
        split; [done|by left].
      * destruct (refine_generates env id section w item_title raw Hitem Hraw)
          as (w' & Hrun & Hdata).
        cbv zeta in Hdata. rewrite Hres in Hdata. exists w'. split; [done|].
        destruct (is_error (strip text)); [split; [done|by left]|].
        split; [done|by right].
    + eexists. split; [apply refine_nothing; by left|]. split; [done|by left].
    + exfalso. unfold refine_item in Hitem.
      destruct Hsection as [-> | ->]; simpl in Hitem; discriminate Hitem.
  - intros Hcompany Htitle. rewrite cover_letter_data. cbv zeta.
    apply truthy_true in Hcompany, Htitle. rewrite Hcompany, Htitle, Hres.
    by destruct (is_error (strip text)).
  - rewrite summary_data. by rewrite Hres.
Qed.

Lemma error_prefix_classification_witness :
  let env := env_answering " Error 503: upstream unavailable " in
  the_data (handle_suggest_skills env world_applying) = the_data world_applying ∧
  (∃ w', handle_refine_bullets env (Q2Qc 1) "portfolio" world_applying = Returns w' ∧
         the_data w' = the_data world_applying) ∧
  cover_letter_draft (the_data (handle_generate_cover_letter env world_applying))
  = "Generating professional cover letter draft..." ∧
  summary (the_data (handle_generate_summary env world_applying))
  = "Error 503: upstream unavailable".
Proof.
  cbv zeta.
  destruct (error_prefix_classification
              (env_answering " Error 503: upstream unavailable ") world_applying
              " Error 503: upstream unavailable " eq_refl (λ _ _, eq_refl))
    as (Hskills & Hrefine & Hcl & Hsum).
  split; [exact Hskills|]. split; [|split].
  - destruct (Hrefine (Q2Qc 1) "portfolio" (or_intror eq_refl)) as (w' & Hrun & Herr & _).
    exists w'. split; [exact Hrun|exact (Herr eq_refl)].
  - rewrite Hcl; [reflexivity|discriminate|discriminate].
  - by rewrite Hsum.
Defined.

(** ** Entry ids under add and remove *)

Lemma map_delete {A B : Type} (f : A → B) (i : nat) (l : list A) :
  map f (delete i l) = delete i (map f l).
Proof. revert i. induction l as [|x l IH]; intros [|i]; simpl; [done..|]. by rewrite IH. Qed.

Lemma ids_step key op d d' :
  apply_op op d = Some d' → ids key d' = ids_after key op (ids key d).
Proof.
  destruct op as [key' now|key' i]; cbn [apply_op ids_after].
  - intros [= <-]. destruct key', key; cbn; rewrite ?map_app; done.
  - unfold remove_entry, pop. intros H.
    destruct key'; cbn [ids] in *;
      match type of H with
      | context [decide (?P)] => destruct (decide P); [|discriminate H]
      end;
      cbn in H; injection H as <-; destruct key; cbn; rewrite ?map_delete; done.
Qed.








(** The code compares no ids when it adds an entry: the ids are distinct
    because the readings are.  In the model, two adds given the same reading
    leave two entries with the same id. *)
Lemma same_reading_gives_duplicate_ids :
  ∃ d, run presses_same_reading initial_data = Some d ∧ ¬ NoDup (ids KeyExperience d).
Proof.
  eexists. split; [reflexivity|]. cbn. intros H.
  apply NoDup_cons in H as [_ H]. apply NoDup_cons in H as [H _].
  apply H. left.
Qed.

(** ** The compilers read the session and do not change the document *)

Lemma emit_markdown_all (markup : string → Document → string) (keys : list string) (w : World) :
  fold_left (λ w key, emit (EvMarkdown (markup key (the_data w))) w) keys w =
  mkWorld (session w) (trace w ++ map (λ key, EvMarkdown (markup key (the_data w))) keys).
Proof.
  revert w. induction keys as [|key keys IH]; intros w; cbn [fold_left map].
  - rewrite app_nil_r. by destruct w.
  - rewrite IH. unfold emit, the_data. cbn [session trace]. by rewrite <- app_assoc.
Qed.

Lemma render_preview_unfold (w : World) :
  render_preview w =
  mkWorld (session w)
          (trace w ++ map EvMarkdown (preview_markup (the_data w) (theme (session w)))).
Proof.
  unfold render_preview. cbv zeta.
  rewrite (emit_markdown_all
             (λ key d, format_resume_section (palette_of (theme (session w))) key d)).
  unfold emit, the_data, preview_markup. cbn [session trace map].
  by rewrite <- app_assoc, map_map.
Qed.

(** C8.  Each compiler is a function of the document and the theme of the
    session and leaves the document alone.  The preview emits exactly
    [preview_markup] of the current document and theme and changes nothing
    in the session; the portfolio site stored in the session is
    [portfolio_html] of the current document, whatever page was stored
    before; the text resume is [compile_resume_text] of the current
    document.  Hence two sessions with the same document and theme give the
    same three outputs, compiling twice gives the same output twice, and a
    compilation after the document was replaced is the compilation of the
    new document. *)
Theorem compilers_depend_on_document_and_theme (w1 w2 : World) :
  the_data w1 = the_data w2 →
  theme (session w1) = theme (session w2) →
  (* the three outputs agree *)
  compile_resume_text (the_data w1) = compile_resume_text (the_data w2) ∧
  (∃ out, trace (render_preview w1) = trace w1 ++ out ∧
          trace (render_preview w2) = trace w2 ++ out ∧
          out = map EvMarkdown (preview_markup (the_data w1) (theme (session w1)))) ∧
  generated_html (session (generate_portfolio_html w1))
  = generated_html (session (generate_portfolio_html w2)) ∧
  (* nothing is mutated but the stored page *)
  session (render_preview w1) = session w1 ∧
  the_data (generate_portfolio_html w1) = the_data w1 ∧
  theme (session (generate_portfolio_html w1)) = theme (session w1) ∧
  trace (generate_portfolio_html w1) = trace w1 ∧
  (* compiling twice *)
  generate_portfolio_html (generate_portfolio_html w1) = generate_portfolio_html w1 ∧
  trace (render_preview (render_preview w1))
  = trace w1 ++ map EvMarkdown (preview_markup (the_data w1) (theme (session w1)))
            ++ map EvMarkdown (preview_markup (the_data w1) (theme (session w1))) ∧
  (* compiling after the document was replaced *)
  (∀ d, generated_html (session (generate_portfolio_html
                                   (put_data d (generate_portfolio_html w1))))
        = portfolio_html d ∧
        trace (render_preview (put_data d (render_preview w1)))
        = trace (render_preview w1)
          ++ map EvMarkdown (preview_markup d (theme (session w1)))).
Proof.
  intros Hdata Htheme. rewrite !render_preview_unfold. cbn [session trace].
  split; [by rewrite Hdata|]. split.
  { eexists. split; [reflexivity|]. split; [|reflexivity]. by rewrite Hdata, Htheme. }
  split; [unfold generate_portfolio_html, put_generated_html; cbn; by rewrite Hdata|].
  split; [done|]. split; [done|]. split; [done|]. split; [done|].
  split; [done|]. split.
  { unfold the_data. cbn [session data]. by rewrite <- app_assoc. }
  intros d. split; [done|]. by rewrite render_preview_unfold.
Qed.

Lemma compilers_depend_on_document_and_theme_witness :
  compile_resume_text (the_data (render_preview (generate_portfolio_html world0)))
  = compile_resume_text initial_data ∧
  generated_html (session (generate_portfolio_html
                             (render_preview (generate_portfolio_html world0))))
  = generated_html (session (generate_portfolio_html world0)).
Proof.
  destruct (compilers_depend_on_document_and_theme
              (render_preview (generate_portfolio_html world0)) world0 eq_refl eq_refl)
    as (Htext & _ & Hsite & _).
  split; [exact Htext|exact Hsite].
Defined.

(** ** Lines of a text *)

Lemma split_nonempty (sep : ascii) (s : string) : ∃ piece pieces, split sep s = piece :: pieces.
Proof.
  induction s as [|c s (piece & pieces & IH)]; cbn [split]; [by eexists _, _|].
  destruct (decide (c = sep)); [by eexists _, _|]. rewrite IH. by eexists _, _.
Qed.

(** Splitting at a separator splits the pieces on either side of it. *)
Lemma split_app (sep : ascii) (a b : string) :
  split sep (a +:+ String sep b) = split sep a ++ split sep b.
Proof.
  induction a as [|c a IH].
  - rewrite append_nil_l. cbn [split]. by rewrite decide_True.
  - rewrite append_cons. cbn [split]. rewrite IH.
    destruct (decide (c = sep)); [done|].
    by destruct (split_nonempty sep a) as (piece & pieces & ->).
Qed.

Lemma lines_app (a b : string) : lines (a +:+ nl +:+ b) = lines a ++ lines b.
Proof. apply split_app. Qed.

Lemma lines_join (pieces : list string) :
  pieces ≠ [] → lines (join nl pieces) = concat (map lines pieces).
Proof.
  induction pieces as [|x [|y rest] IH]; intros Hne; [done| |].
  - cbn [join map concat]. by rewrite app_nil_r.
  - change (join nl (x :: y :: rest)) with (x +:+ nl +:+ join nl (y :: rest)).
    rewrite lines_app, IH by done. done.
Qed.

Lemma join_app (sep : string) (l1 l2 : list string) :
  l1 ≠ [] → l2 ≠ [] → join sep (l1 ++ l2) = join sep l1 +:+ sep +:+ join sep l2.
Proof.
  intros H1 H2. induction l1 as [|x [|y l1] IH]; [done| |].
  - destruct l2; [done|]. reflexivity.
  - change (join sep ((x :: y :: l1) ++ l2)) with (x +:+ sep +:+ join sep ((y :: l1) ++ l2)).
    rewrite IH by done.
    change (join sep (x :: y :: l1)) with (x +:+ sep +:+ join sep (y :: l1)).
    by rewrite !append_assoc.
Qed.

Lemma join_cons_tail (sep x : string) (l : list string) :
  ∃ tail, join sep (x :: l) = x +:+ tail.
Proof.
  destruct l as [|y l]; [exists ""; cbn [join]; by rewrite append_nil_r|].
  by exists (sep +:+ join sep (y :: l)).
Qed.

(** ** Trimming *)

Lemma rstrip_cons_keep (c : ascii) (s : string) :
  isspace c = false → rstrip (String c s) = String c (rstrip s).
Proof. intros Hc. cbn [rstrip]. rewrite Hc. by destruct (rstrip s). Qed.

Lemma rstrip_app_keep (a s : string) :
  rstrip s ≠ "" → rstrip (a +:+ s) = a +:+ rstrip s.
Proof.
  intros Hs. induction a as [|c a IH]; [done|].
  rewrite !append_cons. cbn [rstrip]. rewrite IH.
  destruct (a +:+ rstrip s) eqn:Heq; [|done].
  destruct a; [by rewrite append_nil_l in Heq|by rewrite append_cons in Heq].
Qed.

(** A text that starts and, before its tail [s], ends with a character that
    is not white space is trimmed in its tail only. *)
Lemma strip_keep (c e : ascii) (a s : string) :
  isspace c = false → isspace e = false →
  strip (String c a +:+ String e s) = String c a +:+ String e (rstrip s).
Proof.
  intros Hc He. unfold strip. rewrite append_cons. cbn [lstrip]. rewrite Hc.
  rewrite <- append_cons, rstrip_app_keep; by rewrite rstrip_cons_keep.
Qed.

(** ** The text resume *)

Lemma strip_join_shape (c e : ascii) (a x t : string) :
  isspace c = false → isspace e = false →
  strip (String c a +:+ nl +:+ (x +:+ String e "") +:+ t)
  = String c a +:+ nl +:+ (x +:+ String e "") +:+ rstrip t.
Proof.
  intros Hc He.
  assert (∀ r, String c a +:+ nl +:+ (x +:+ String e "") +:+ r
               = String c (a +:+ nl +:+ x) +:+ String e r) as Hshape.
  { intros r. rewrite !append_cons, !append_assoc. reflexivity. }
  rewrite !Hshape. by apply strip_keep.
Qed.

Lemma concat_lines_app (l1 l2 : list string) :
  concat (map lines (l1 ++ l2)) = concat (map lines l1) ++ concat (map lines l2).
Proof. by rewrite map_app, concat_app. Qed.

Lemma concat_lines_cons (x : string) (l : list string) :
  concat (map lines (x :: l)) = lines x ++ concat (map lines l).
Proof. reflexivity. Qed.

(** The lines of the text joined from the pieces [first :: before] and
    [underline :: after] and then trimmed, when [first] starts and
    [underline] ends with a character that is not white space: trimming
    touches nothing before the end of [underline]. *)
Lemma lines_strip_join (c e : ascii) (a x : string) (before after : list string) :
  isspace c = false → isspace e = false →
  ∃ rest,
    lines (strip (join nl ((String c a :: before) ++ (x +:+ String e "") :: after)))
    = concat (map lines (String c a :: before)) ++ rest.
Proof.
  intros Hc He.
  destruct (join_cons_tail nl (String c a) before) as [t1 H1].
  destruct (join_cons_tail nl (x +:+ String e "") after) as [t2 H2].
  exists (lines ((x +:+ String e "") +:+ rstrip t2)).
  rewrite join_app, H2 by done.
  rewrite <- (lines_join (String c a :: before)) by done.
  rewrite H1, append_cons, strip_join_shape by done.
  by rewrite lines_app.
Qed.

Lemma header_lines_jane (d : Document) :
  name (personal d) = "Jane Doe" →
  ∃ rest, header_lines d = "JANE DOE" :: "========" :: rest.
Proof. intros H. unfold header_lines. cbv zeta. rewrite H. by eexists. Qed.

Lemma section_lines_summary (d : Document) :
  ∃ rest, section_lines d "summary" = "PROFESSIONAL SUMMARY" :: rest.
Proof. by eexists. Qed.

Lemma section_lines_skills (d : Document) :
  skills d = ["Python"; "SQL"] →
  ∃ rest, section_lines d "skills"
          = "SKILLS" :: "------" :: "Technical Skills: Python, SQL" :: rest.
Proof. intros H. unfold section_lines. rewrite H. by eexists. Qed.

Lemma section_lines_portfolio (d : Document) :
  ∃ rest, section_lines d "portfolio" = "PROJECTS" :: rest.
Proof. by eexists. Qed.

Lemma section_lines_experience (d : Document) :
  ∃ rest, section_lines d "experience" = "EXPERIENCE" :: rest.
Proof. by eexists. Qed.

Lemma section_lines_education (d : Document) :
  ∃ rest, section_lines d "education" = "EDUCATION" :: "---------" :: rest.
Proof. by eexists. Qed.

(** C9.  For a document whose name is "Jane Doe" and whose skills are
    "Python" and "SQL", the text resume has the line [JANE DOE] (its first
    line, followed by the underline) and the line
    [Technical Skills: Python, SQL], and its section headings come in the
    order summary, skills, projects, experience, education. *)
Theorem resume_text_of_jane_doe (d : Document) :
  name (personal d) = "Jane Doe" → skills d = ["Python"; "SQL"] →
  "JANE DOE" ∈ lines (compile_resume_text d) ∧
  "Technical Skills: Python, SQL" ∈ lines (compile_resume_text d) ∧
  ∃ contact summary_rest skills_rest projects_rest experience_rest education_rest,
    lines (compile_resume_text d) =
      ["JANE DOE"; "========"] ++ contact ++
      ["PROFESSIONAL SUMMARY"] ++ summary_rest ++
      ["SKILLS"; "------"; "Technical Skills: Python, SQL"] ++ skills_rest ++
      ["PROJECTS"] ++ projects_rest ++
      ["EXPERIENCE"] ++ experience_rest ++
      ["EDUCATION"] ++ education_rest.
Proof.
  intros Hname Hskills.
  assert (∃ contact summary_rest skills_rest projects_rest experience_rest education_rest,
    lines (compile_resume_text d) =
      ["JANE DOE"; "========"] ++ contact ++
      ["PROFESSIONAL SUMMARY"] ++ summary_rest ++
      ["SKILLS"; "------"; "Technical Skills: Python, SQL"] ++ skills_rest ++
      ["PROJECTS"] ++ projects_rest ++
      ["EXPERIENCE"] ++ experience_rest ++
      ["EDUCATION"] ++ education_rest) as Hshape.
  { unfold compile_resume_text. cbv zeta.
    change (concat (map (section_lines d) SECTION_ORDER))
      with (section_lines d "summary" ++ section_lines d "skills"
            ++ section_lines d "portfolio" ++ section_lines d "experience"
            ++ section_lines d "education" ++ []).
    destruct (header_lines_jane d Hname) as [h ->].
    destruct (section_lines_summary d) as [s1 ->].
    destruct (section_lines_skills d Hskills) as [s2 ->].
    destruct (section_lines_portfolio d) as [s3 ->].
    destruct (section_lines_experience d) as [s4 ->].
    destruct (section_lines_education d) as [s5 ->].
    destruct (lines_strip_join "J" "-" "ANE DOE" "--------"
                ("========" :: h ++ "PROFESSIONAL SUMMARY" :: s1
                 ++ "SKILLS" :: "------" :: "Technical Skills: Python, SQL" :: s2
                 ++ "PROJECTS" :: s3 ++ "EXPERIENCE" :: s4 ++ ["EDUCATION"])
                (s5 ++ []) eq_refl eq_refl) as [rest Hrest].
    exists (concat (map lines h)), (concat (map lines s1)), (concat (map lines s2)),
           (concat (map lines s3)), (concat (map lines s4)), rest.
    match type of Hrest with
    | lines (strip (join nl ?pieces)) = _ =>
        match goal with
        | |- lines (strip (join nl ?pieces')) = _ =>
            replace pieces' with pieces
              by (repeat (progress (rewrite <- ?app_assoc; cbn [app])); reflexivity)
        end
    end.
    rewrite Hrest.
    repeat (progress (rewrite ?concat_lines_cons, ?concat_lines_app)).
    repeat (progress (rewrite <- ?app_assoc; cbn [app])). reflexivity. }
  split; [|split; [|exact Hshape]];
    destruct Hshape as (c1 & c2 & c3 & c4 & c5 & c6 & ->).
  - left.
  - rewrite !elem_of_app. right. right. right. right. left.
    rewrite !elem_of_cons. auto.
Qed.

Lemma resume_text_of_jane_doe_witness :
  "JANE DOE" ∈ lines (compile_resume_text jane) ∧
  "Technical Skills: Python, SQL" ∈ lines (compile_resume_text jane).
Proof.
  destruct (resume_text_of_jane_doe jane eq_refl eq_refl) as (Hname & Hskills & _).
  split; [exact Hname|exact Hskills].
Defined.

(** * Further properties of the program *)

(** ** The client: results, session and waiting time *)

Section ClientMore.
Context (env : Env) (prompt system_instruction : string).

#[local] Abbreviation run_attempts := (attempt_loop env prompt system_instruction).
#[local] Abbreviation answer_at := (λ i, service env i prompt system_instruction).

(** A result of the loop is the trimmed text of the first answer, reached
    through rate-limited attempts only, or carries the error marker. *)
Lemma attempt_loop_result a n w result :
  (run_attempts (seq a n) w).1 = Some result →
  is_error result = true ∨
  ∃ k text, a ≤ k < a + n ∧ answer_at k = Response (Some text) ∧ result = strip text ∧
            ∀ i, a ≤ i < k → rate_limited (answer_at i) = true.
Proof.
  revert a w. induction n as [|n IH]; intros a w; cbn [seq attempt_loop]; [done|].
  destruct (answer_at a) as [[text|]|e|e] eqn:Ha; cbn [fst].
  - intros [= <-]. right. exists a, text. repeat split; [lia..|done|intros i Hi; lia].
  - intros [= <-]. by left.
  - destruct (contains "429" e && _) eqn:Hretry; cbn [fst]; [|intros [= <-]; by left].
    intros Hres. destruct (IH _ _ Hres) as [Herr|(k & text & Hk & Hok & -> & Hlim)];
      [by left|right].
    exists k, text. repeat split; [lia..|done|].
    intros i Hi. destruct (decide (i = a)) as [->|Hne]; [|apply Hlim; lia].
    rewrite Ha. cbn [rate_limited]. by apply andb_true_iff in Hretry as [-> _].
  - intros [= <-]. by left.
Qed.

(** The loop changes nothing in the session but the in-flight marker, which
    it leaves alone or clears. *)
Lemma attempt_loop_session attempts w :
  ∃ marker, (marker = None ∨ marker = ai_loading (session w)) ∧
    session (run_attempts attempts w).2
    = mkSession (the_data w) marker (generated_html (session w)) (theme (session w)).
Proof.
  revert w. induction attempts as [|a rest IH]; intros w; cbn [attempt_loop].
  - exists (ai_loading (session w)). split; [by right|]. by destruct w as [[] ?].
  - destruct (answer_at a) as [[text|]|e|e]; cbn [snd];
      [| |destruct (contains "429" e && _)|];
      try (exists None; split; [by left|done]).
    + exists (ai_loading (session w)). split; [by right|]. by destruct w as [[] ?].
    + destruct (IH (emit (EvSleep (2 ^ a + 1))
                      (emit (EvWarning (cat ["Rate limit hit. Retrying in ";
                                             str_of_nat (2 ^ a); " seconds..."]))
                         (emit (EvRequest MODEL system_instruction prompt) w))))
        as (marker & Hmarker & ->).
      by exists marker.
Qed.

Lemma slept_app (t t' : list Event) : slept (t ++ t') = slept t + slept t'.
Proof. apply sum_list_with_app. Qed.

Lemma attempt_loop_slept attempts w :
  slept (trace (run_attempts attempts w).2) ≤ slept (trace w) + backoff_budget attempts.
Proof.
  revert w. induction attempts as [|a rest IH]; intros w;
    cbn [attempt_loop backoff_budget sum_list_with]; [cbn; lia|].
  fold (backoff_budget rest).
  destruct (answer_at a) as [[text|]|e|e]; cbn [snd];
    [| |destruct (contains "429" e && (a <? MAX_RETRIES - 1)%nat) eqn:Hretry|];
    try (unfold put_loading, emit; cbn [snd trace session]; rewrite !slept_app; cbn; lia).
  etrans; [apply IH|]. unfold emit. cbn [trace session]. rewrite !slept_app.
  apply andb_true_iff in Hretry as [_ ->]. cbn. lia.
Qed.

End ClientMore.

(** X1.  Whatever the service does, the result of a call is either marked as an
    error or the trimmed text of an answer that came at one of the five
    attempts after rate-limited failures only. *)
Theorem client_result_is_answer_or_error (env : Env) (prompt system_instruction : string)
    (w : World) :
  let result := (generate_content_with_ai env prompt system_instruction w).1 in
  is_error result = true ∨
  ∃ k text, client env = true ∧ k < 5 ∧
    service env k prompt system_instruction = Response (Some text) ∧
    result = strip text ∧
    ∀ i, i < k → rate_limited (service env i prompt system_instruction) = true.
Proof.
  cbv zeta. unfold generate_content_with_ai.
  destruct (client env) eqn:Hc; cbn [negb]; [|by left].
  destruct (attempt_loop_returns env prompt system_instruction 0 4 w eq_refl) as [result Hres].
  pose proof (attempt_loop_result env prompt system_instruction 0 MAX_RETRIES w result) as H.
  change (seq 0 (S 4)) with (seq 0 MAX_RETRIES) in Hres.
  destruct (attempt_loop _ _ _ _ _) as [[r|] w']; cbn [fst] in *; [|done].
  injection Hres as ->.
  destruct (H eq_refl) as [Herr|(k & text & Hk & Hok & -> & Hlim)]; [by left|right].
  exists k, text. unfold MAX_RETRIES in Hk.
  repeat split; [lia|done|intros i Hi; apply Hlim; lia].
Qed.

(** X2.  A call of the client leaves the document, the stored page and the theme
    as they were; it leaves the in-flight marker alone or clears it; with no
    client it changes nothing at all. *)
Theorem client_leaves_session (env : Env) (prompt system_instruction : string) (w : World) :
  let w' := (generate_content_with_ai env prompt system_instruction w).2 in
  the_data w' = the_data w ∧
  generated_html (session w') = generated_html (session w) ∧
  theme (session w') = theme (session w) ∧
  (ai_loading (session w') = None ∨ ai_loading (session w') = ai_loading (session w)) ∧
  (client env = false → w' = w).
Proof.
  cbv zeta. unfold generate_content_with_ai.
  destruct (client env); cbn [negb]; [|by repeat split; auto].
  destruct (attempt_loop_session env prompt system_instruction (seq 0 MAX_RETRIES) w)
    as (marker & Hmarker & Hsession).
  destruct (attempt_loop _ _ _ _ _) as [[r|] w']; cbn [snd] in *;
    unfold the_data; rewrite Hsession; cbn [data generated_html theme ai_loading];
    repeat split; try done; destruct Hmarker as [-> | ->]; auto.
Qed.

Lemma client_leaves_session_witness :
  (generate_content_with_ai env_no_client "prompt" "instruction" world_with_blanks).2
  = world_with_blanks.
Proof.
  exact (proj2 (proj2 (proj2 (proj2
           (client_leaves_session env_no_client "prompt" "instruction" world_with_blanks))))
           eq_refl).
Defined.

(** X3.  One call sleeps at most 19 seconds in all (2, 3, 5 and 9 seconds after
    the first four attempts). *)
Theorem client_sleeps_at_most_19_seconds (env : Env) (prompt system_instruction : string)
    (w : World) :
  slept (trace (generate_content_with_ai env prompt system_instruction w).2)
  ≤ slept (trace w) + 19.
Proof.
  unfold generate_content_with_ai. destruct (client env); cbn [negb snd]; [|lia].
  pose proof (attempt_loop_slept env prompt system_instruction (seq 0 MAX_RETRIES) w) as H.
  destruct (attempt_loop _ _ _ _ _) as [[r|] w']; exact H.
Qed.

(** ** The handlers: session, marker and requests *)

(** What the handlers need of one call of the client. *)
Lemma generate_facts env prompt system_instruction w :
  ∃ marker,
    session (generate_content_with_ai env prompt system_instruction w).2
    = mkSession (the_data w) marker (generated_html (session w)) (theme (session w)) ∧
    network_calls (generate_content_with_ai env prompt system_instruction w).2
    ≤ network_calls w + 5 ∧
    (generate_content_with_ai env prompt system_instruction w).1
    = result_of env (system_instruction, prompt).
Proof.
  exists (ai_loading (session (generate_content_with_ai env prompt system_instruction w).2)).
  split; [|split; [apply generate_bound|apply generate_result]].
  unfold generate_content_with_ai. destruct (client env); cbn [negb snd].
  - destruct (attempt_loop_session env prompt system_instruction (seq 0 MAX_RETRIES) w)
      as (marker & _ & Hs).
    destruct (attempt_loop _ _ _ _ _) as [[r|] w']; cbn [snd] in *; by rewrite Hs.
  - by destruct w as [[] ?].
Qed.

(** One call of the client inside a handler, with what is known of its final
    session and of its requests. *)
Ltac call_client_session :=
  match goal with
  | |- context [generate_content_with_ai ?env ?p ?s ?w] =>
      let marker := fresh "marker" in
      let Hs := fresh "Hsession" in
      let Hc := fresh "Hcalls" in
      let Hr := fresh "Hresult" in
      destruct (generate_facts env p s w) as (marker & Hs & Hc & Hr);
      destruct (generate_content_with_ai env p s w) as [? ?];
      cbn [fst snd] in Hs, Hc, Hr; subst
  end.

(** The final session of a world whose document was then set and whose
    marker was then cleared. *)
Lemma finished_session w d marker d' :
  session w = mkSession d marker (generated_html (session w)) (theme (session w)) →
  session (put_loading None (put_data d' w))
  = mkSession d' None (generated_html (session w)) (theme (session w)).
Proof. done. Qed.

Lemma summary_world env w :
  session (handle_generate_summary env w)
  = mkSession (the_data (handle_generate_summary env w)) None
              (generated_html (session w)) (theme (session w)) ∧
  network_calls (handle_generate_summary env w) ≤ network_calls w + 5.
Proof.
  unfold handle_generate_summary. call_client_session.
  unfold the_data, put_loading, put_data, network_calls in *.
  cbn [session trace data generated_html theme] in *. by rewrite Hsession.
Qed.

Lemma skills_world env w :
  session (handle_suggest_skills env w)
  = mkSession (the_data (handle_suggest_skills env w)) None
              (generated_html (session w)) (theme (session w)) ∧
  network_calls (handle_suggest_skills env w) ≤ network_calls w + 5.
Proof.
  unfold handle_suggest_skills. call_client_session.
  destruct (negb (is_error _));
    unfold the_data, put_loading, put_data, network_calls in *;
    cbn [session trace data generated_html theme] in *; by rewrite Hsession.
Qed.

Lemma cover_letter_world env w :
  session (handle_generate_cover_letter env w)
  = mkSession (the_data (handle_generate_cover_letter env w)) None
              (generated_html (session w)) (theme (session w)) ∧
  network_calls (handle_generate_cover_letter env w) ≤ network_calls w + 5.
Proof.
  unfold handle_generate_cover_letter. cbv zeta.
  destruct (negb (truthy _) || negb (truthy _)).
  { split; [done|]. unfold network_calls. cbn. lia. }
  call_client_session.
  destruct (negb (is_error _));
    unfold the_data, put_loading, put_data, network_calls in *;
    cbn [session trace data generated_html theme] in *; by rewrite Hsession.
Qed.

Lemma refine_world env id section w w' :
  handle_refine_bullets env id section w = Returns w' →
  session w' = mkSession (the_data w') None (generated_html (session w)) (theme (session w)) ∧
  network_calls w' ≤ network_calls w + 5.
Proof.
  unfold handle_refine_bullets. cbv zeta.
  destruct (refine_item _ _ _) as [[[item_title raw]|]|]; [| |done].
  - destruct (negb (truthy raw)).
    { intros [= <-]. split; [done|]. unfold network_calls. cbn [trace emit put_loading].
      rewrite filter_app, length_app. simpl. lia. }
    destruct (refine_request section item_title raw) as [system_instruction user_prompt].
    call_client_session. intros [= <-].
    destruct (negb (is_error _));
      unfold the_data, put_loading, put_data, network_calls in *;
      cbn [session trace data generated_html theme] in *; by rewrite Hsession.
  - intros [= <-]. split; [done|]. unfold network_calls. cbn [trace emit put_loading].
    rewrite filter_app, length_app. simpl. lia.
Qed.

(** X4.  Every handler that returns has cleared the in-flight marker, on every
    path.  The refinement handler returns for the two sections the page
    passes; for any other section it raises before any request, with the
    marker still set to the id and the document untouched. *)
Theorem handlers_clear_marker (env : Env) (w : World) :
  ai_loading (session (handle_generate_summary env w)) = None ∧
  ai_loading (session (handle_suggest_skills env w)) = None ∧
  ai_loading (session (handle_generate_cover_letter env w)) = None ∧
  (∀ id section, section = "experience" ∨ section = "portfolio" →
     ∃ w', handle_refine_bullets env id section w = Returns w' ∧
           ai_loading (session w') = None) ∧
  (∀ id section, section ≠ "experience" → section ≠ "portfolio" →
     ∃ w', handle_refine_bullets env id section w = Raises "UnboundLocalError" w' ∧
           ai_loading (session w') = Some (LoadingId id) ∧
           the_data w' = the_data w ∧ trace w' = trace w).
Proof.
  split; [|split; [|split; [|split]]].
  - by rewrite (proj1 (summary_world env w)).
  - by rewrite (proj1 (skills_world env w)).
  - by rewrite (proj1 (cover_letter_world env w)).
  - intros id section Hsection.
    assert (∃ w', handle_refine_bullets env id section w = Returns w') as [w' Hrun].
    { destruct (refine_item section id (the_data w)) as [[[item_title raw]|]|] eqn:Hitem.
      - destruct (decide (raw = "")) as [->|Hraw].
        + eexists. apply refine_nothing. right. by exists item_title.
        + destruct (refine_generates env id section w item_title raw Hitem Hraw)
            as (w' & Hrun & _). by exists w'.
      - eexists. apply refine_nothing. by left.
      - exfalso. unfold refine_item in Hitem.
        destruct Hsection as [-> | ->]; simpl in Hitem; discriminate Hitem. }
    exists w'. split; [done|]. by rewrite (proj1 (refine_world env id section w w' Hrun)).
  - intros id section Hexp Hproj. eexists. split.
    + apply refine_unbound. unfold refine_item. by rewrite !decide_False.
    + done.
Qed.

Lemma handlers_clear_marker_witness :
  ∃ w', handle_refine_bullets env_two_limits (Q2Qc 1) "education" world0
        = Raises "UnboundLocalError" w' ∧
        is_disabled (session w') = true.
Proof.
  destruct (handlers_clear_marker env_two_limits world0) as (_ & _ & _ & _ & Hother).
  destruct (Hother (Q2Qc 1) "education") as (w' & Hrun & Hmarker & _);
    [discriminate|discriminate|].
  exists w'. split; [exact Hrun|]. unfold is_disabled. by rewrite Hmarker.
Defined.

(** X5.  A handler writes one field only and sends at most five requests: the
    summary handler writes [summary], the skills handler [skills], the
    cover-letter handler the draft, and the refinement handler the [bullets]
    (resp. [description]) of entries of its section, whose number, order,
    ids and other fields it keeps.  None of them touches the stored page or
    the theme. *)
Theorem handlers_write_one_field (env : Env) (w : World) :
  let d := the_data w in
  let same_rest (w' : World) :=
    generated_html (session w') = generated_html (session w) ∧
    theme (session w') = theme (session w) ∧
    network_calls w' ≤ network_calls w + 5 in
  (set_summary (summary d) (the_data (handle_generate_summary env w)) = d ∧
   same_rest (handle_generate_summary env w)) ∧
  (set_skills (skills d) (the_data (handle_suggest_skills env w)) = d ∧
   same_rest (handle_suggest_skills env w)) ∧
  (set_cover_letter_draft (cover_letter_draft d)
     (the_data (handle_generate_cover_letter env w)) = d ∧
   same_rest (handle_generate_cover_letter env w)) ∧
  (∀ id w', handle_refine_bullets env id "experience" w = Returns w' →
     set_experience (experience d) (the_data w') = d ∧
     map (λ e, (exp_id e, title e, company e, exp_dates e)) (experience (the_data w'))
     = map (λ e, (exp_id e, title e, company e, exp_dates e)) (experience d) ∧
     same_rest w') ∧
  (∀ id w', handle_refine_bullets env id "portfolio" w = Returns w' →
     set_portfolio (portfolio d) (the_data w') = d ∧
     map (λ p, (proj_id p, proj_name p, link p)) (portfolio (the_data w'))
     = map (λ p, (proj_id p, proj_name p, link p)) (portfolio d) ∧
     same_rest w').
Proof.
  cbv zeta. split; [|split; [|split; [|split]]].
  - destruct (summary_world env w) as [Hs Hc]. rewrite Hs. cbn [generated_html theme].
    split; [|done]. rewrite summary_data. by destruct (the_data w).
  - destruct (skills_world env w) as [Hs Hc]. rewrite Hs. cbn [generated_html theme].
    split; [|done]. rewrite skills_data. cbv zeta.
    destruct (is_error _); by destruct (the_data w).
  - destruct (cover_letter_world env w) as [Hs Hc]. rewrite Hs. cbn [generated_html theme].
    split; [|done]. rewrite cover_letter_data. cbv zeta.
    destruct (negb _ || negb _); [|destruct (is_error _)]; by destruct (the_data w).
  - intros id w' Hrun.
    destruct (refine_world env id _ w w' Hrun) as [Hs Hc]. rewrite Hs.
    cbn [generated_html theme].
    assert (the_data w' = the_data w ∨
            ∃ result, the_data w' = refine_merge "experience" id result (the_data w))
      as [-> | [result ->]].
    { destruct (refine_item "experience" id (the_data w))
        as [[[item_title raw]|]|] eqn:Hitem.
      - destruct (decide (raw = "")) as [->|Hraw].
        + rewrite (refine_nothing env id _ w) in Hrun by (right; by exists item_title).
          injection Hrun as <-. by left.
        + destruct (refine_generates env id _ w item_title raw Hitem Hraw)
            as (w'' & Hrun' & Hdata).
          rewrite Hrun' in Hrun. injection Hrun as <-. cbv zeta in Hdata.
          destruct (is_error _); [by left|right; by eexists].
      - rewrite (refine_nothing env id _ w) in Hrun by (by left).
        injection Hrun as <-. by left.
      - by rewrite (refine_unbound env id _ w Hitem) in Hrun. }
    + split; [by destruct (the_data w)|done].
    + unfold refine_merge. rewrite decide_True by done. cbn [experience set_experience].
      split; [by destruct (the_data w)|]. split; [|done].
      rewrite map_map. apply map_ext. intros e. by destruct (decide _).
  - intros id w' Hrun.
    destruct (refine_world env id _ w w' Hrun) as [Hs Hc]. rewrite Hs.
    cbn [generated_html theme].
    assert (the_data w' = the_data w ∨
            ∃ result, the_data w' = refine_merge "portfolio" id result (the_data w))
      as [-> | [result ->]].
    { destruct (refine_item "portfolio" id (the_data w))
        as [[[item_title raw]|]|] eqn:Hitem.
      - destruct (decide (raw = "")) as [->|Hraw].
        + rewrite (refine_nothing env id _ w) in Hrun by (right; by exists item_title).
          injection Hrun as <-. by left.
        + destruct (refine_generates env id _ w item_title raw Hitem Hraw)
            as (w'' & Hrun' & Hdata).
          rewrite Hrun' in Hrun. injection Hrun as <-. cbv zeta in Hdata.
          destruct (is_error _); [by left|right; by eexists].
      - rewrite (refine_nothing env id _ w) in Hrun by (by left).
        injection Hrun as <-. by left.
      - by rewrite (refine_unbound env id _ w Hitem) in Hrun. }
    + split; [by destruct (the_data w)|done].
    + unfold refine_merge. rewrite decide_False by done. cbn [portfolio set_portfolio].
      split; [by destruct (the_data w)|]. split; [|done].
      rewrite map_map. apply map_ext. intros p. by destruct (decide _).
Qed.

Lemma handlers_write_one_field_witness :
  ∃ w', handle_refine_bullets (env_answering "Built it.") (Q2Qc 1) "experience" world0
        = Returns w' ∧
        set_experience (experience initial_data) (the_data w') = initial_data.
Proof.
  destruct (handlers_write_one_field (env_answering "Built it.") world0)
    as (_ & _ & _ & Hexp & _).
  eexists. split; [reflexivity|].
  exact (proj1 (Hexp (Q2Qc 1) _ eq_refl)).
Defined.

(** X6.  The skills merge with nothing assumed of the skills already there: after
    a result that is not an error the stored list has no duplicates (so
    duplicates that were there are gone), holds every old skill and every
    token, nothing else, and is no longer than the old list and the tokens
    together. *)
Theorem skills_merge_drops_duplicates (env : Env) (w : World) :
  let d := the_data w in
  let result := result_of env (skills_instruction, skills_prompt d) in
  let merged := skills (the_data (handle_suggest_skills env w)) in
  python_sets env → is_error result = false →
  NoDup merged ∧
  (∀ x, x ∈ merged ↔ x ∈ skills d ∨ x ∈ tokens result) ∧
  length merged ≤ length (skills d) + length (tokens result).
Proof.
  intros d result merged Hsets Hok.
  assert (merged = union_order env (skills d) (tokens result)) as ->.
  { subst merged. rewrite skills_data. cbv zeta. fold d. fold result.
    by rewrite Hok, parse_skills_tokens. }
  pose proof (Hsets (skills d) (tokens result)) as Hperm.
  assert (NoDup (union_order env (skills d) (tokens result))) as Hnd.
  { rewrite Hperm. apply NoDup_elements. }
  assert (∀ x, x ∈ union_order env (skills d) (tokens result)
               ↔ x ∈ skills d ∨ x ∈ tokens result) as Hmem.
  { intros x. rewrite Hperm, elem_of_elements, elem_of_union, !elem_of_list_to_set. done. }
  split; [done|]. split; [done|].
  rewrite <- length_app. apply submseteq_length, NoDup_submseteq; [done|].
  intros x Hx. apply elem_of_app. by apply Hmem.
Qed.

Lemma skills_merge_drops_duplicates_witness :
  length (skills (the_data (handle_suggest_skills (env_answering "Python")
                              (put_data (set_skills ["Python"; "Python"; "SQL"] initial_data)
                                        world0)))) ≤ 4.
Proof.
  refine (proj2 (proj2 (skills_merge_drops_duplicates (env_answering "Python")
                          (put_data (set_skills ["Python"; "Python"; "SQL"] initial_data) world0)
                          _ eq_refl))).
  apply some_order_python_sets.
Defined.

(** X7.  Without a usable key no client is made and one error is shown: that is
    so exactly when reading the secret raises, the key is empty, or the
    constructor raises.  With no client, the handlers show and send nothing
    (the refinement handler shows its warning when there is nothing to
    refine); the skills, refinement and cover-letter handlers then change at
    most the draft, and the summary handler replaces the summary by the
    configuration error. *)
Theorem missing_key_blocks_generation (lookup : SecretLookup)
    (construct : string → option string) (env : Env) (w : World) :
  let started := get_gemini_client lookup construct in
  (started.1 = true ↔ ∃ key, lookup = SecretIs key ∧ key ≠ "" ∧ construct key = None) ∧
  (started.1 = true → started.2 = []) ∧
  (started.1 = false → ∃ msg, started.2 = [EvError msg]) ∧
  (client env = started.1 → started.1 = false →
   trace (handle_generate_summary env w) = trace w ∧
   summary (the_data (handle_generate_summary env w))
   = "Error: Gemini client not initialized. Check API Key configuration." ∧
   trace (handle_suggest_skills env w) = trace w ∧
   the_data (handle_suggest_skills env w) = the_data w ∧
   trace (handle_generate_cover_letter env w) = trace w ∧
   except_draft (the_data (handle_generate_cover_letter env w)) = except_draft (the_data w) ∧
   ∀ id section w', handle_refine_bullets env id section w = Returns w' →
     the_data w' = the_data w ∧ network_calls w' = network_calls w).
Proof.
  cbv zeta. split; [|split; [|split]].
  - unfold get_gemini_client. split.
    + destruct lookup as [key|e]; [|done].
      destruct key as [|c key]; [done|]. cbn [truthy negb].
      destruct (construct _) eqn:Hmake; [done|]. intros _. by eexists.
    + intros (key & -> & Hkey & Hmake). apply truthy_true in Hkey.
      by rewrite Hkey, Hmake.
  - unfold get_gemini_client. destruct lookup as [key|e]; [|done].
    destruct (negb (truthy key)); [done|]. by destruct (construct key).
  - unfold get_gemini_client. destruct lookup as [key|e]; [|by eexists].
    destruct (negb (truthy key)); [by eexists|]. destruct (construct key); [by eexists|done].
  - intros Hclient Hnone. rewrite Hnone in Hclient. clear Hnone.
    rename Hclient into Hnone.
    assert (∀ p s w0, generate_content_with_ai env p s w0
                      = ("Error: Gemini client not initialized. Check API Key configuration.",
                         w0)) as Hgen.
    { intros p s w0. unfold generate_content_with_ai. by rewrite Hnone. }
    split; [unfold handle_generate_summary; by rewrite Hgen|].
    split; [unfold handle_generate_summary; by rewrite Hgen|].
    split; [unfold handle_suggest_skills; by rewrite Hgen|].
    split; [unfold handle_suggest_skills; rewrite Hgen; by destruct w as [[] ?]|].
    split.
    { unfold handle_generate_cover_letter. cbv zeta.
      destruct (negb _ || negb _); [done|]. by rewrite Hgen. }
    split.
    { unfold handle_generate_cover_letter. cbv zeta.
      destruct (negb _ || negb _); [done|]. by rewrite Hgen. }
    intros id section w'. unfold handle_refine_bullets. cbv zeta.
    destruct (refine_item _ _ _) as [[[item_title raw]|]|]; [| |done].
    + destruct (negb (truthy raw)).
      { intros [= <-]. split; [done|]. unfold network_calls. cbn [trace emit put_loading].
        rewrite filter_app, length_app. simpl. lia. }
      destruct (refine_request section item_title raw) as [system_instruction user_prompt].
      rewrite Hgen. cbn [is_error startswith negb]. intros [= <-]. by destruct w as [[] ?].
    + intros [= <-]. split; [done|]. unfold network_calls. cbn [trace emit put_loading].
      rewrite filter_app, length_app. simpl. lia.
Qed.

Lemma missing_key_blocks_generation_witness :
  (get_gemini_client (SecretIs "") (λ _, None)).1 = false ∧
  summary (the_data (handle_generate_summary env_no_client world0))
  = "Error: Gemini client not initialized. Check API Key configuration." ∧
  trace (handle_generate_summary env_no_client world0) = [].
Proof.
  destruct (missing_key_blocks_generation (SecretIs "") (λ _, None) env_no_client world0)
    as (_ & _ & _ & Hhandlers).
  destruct (Hhandlers eq_refl eq_refl) as (Htrace & Hsummary & _).
  split; [reflexivity|]. split; [exact Hsummary|exact Htrace].
Defined.

(** ** Trimming and splitting, further *)

Lemma rstrip_idempotent (s : string) : rstrip (rstrip s) = rstrip s.
Proof.
  induction s as [|c s IH]; [done|]. cbn [rstrip].
  destruct (rstrip s) as [|c' s'] eqn:Hs.
  - destruct (isspace c) eqn:Hc; [done|]. cbn [rstrip]. by rewrite Hc.
  - cbn [rstrip] in *. rewrite IH. done.
Qed.

Lemma lstrip_shape (s : string) :
  lstrip s = "" ∨ ∃ c r, lstrip s = String c r ∧ isspace c = false.
Proof.
  induction s as [|c s IH]; [by left|]. cbn [lstrip].
  destruct (isspace c) eqn:Hc; [done|]. right. by exists c, s.
Qed.

(** A trimmed text is empty or starts with a character that is not white
    space; trimming it again changes nothing. *)
Lemma strip_shape (s : string) :
  strip s = "" ∨ ∃ c r, strip s = String c r ∧ isspace c = false.
Proof.
  unfold strip. destruct (lstrip_shape s) as [-> | (c & r & -> & Hc)]; [by left|].
  right. exists c, (rstrip r). by rewrite rstrip_cons_keep.
Qed.

Lemma strip_idempotent (s : string) : strip (strip s) = strip s.
Proof.
  destruct (strip_shape s) as [-> | (c & r & Hs & Hc)]; [done|].
  unfold strip at 1. rewrite Hs. cbn [lstrip]. rewrite Hc, <- Hs.
  unfold strip. apply rstrip_idempotent.
Qed.

(** Occurrences of one character. *)
Lemma contains_char_cons (c b : ascii) (s : string) :
  contains (String c "") (String b s) = bool_decide (c = b) || contains (String c "") s.
Proof.
  cbn [contains startswith]. destruct (decide (c = b)) as [->|Hne].
  - rewrite bool_decide_eq_true_2 by done. by destruct s.
  - by rewrite bool_decide_eq_false_2 by done.
Qed.

Lemma contains_char_nil (c : ascii) : contains (String c "") "" = false.
Proof. done. Qed.

Lemma contains_char_app (c : ascii) (a b : string) :
  contains (String c "") (a +:+ b) = contains (String c "") a || contains (String c "") b.
Proof.
  induction a as [|x a IH]; [done|].
  rewrite append_cons, !contains_char_cons, IH. by rewrite orb_assoc.
Qed.

Lemma contains_char_lstrip (c : ascii) (s : string) :
  contains (String c "") s = false → contains (String c "") (lstrip s) = false.
Proof.
  induction s as [|x s IH]; [done|]. cbn [lstrip]. destruct (isspace x); [|done].
  rewrite contains_char_cons. intros [_ H]%orb_false_iff. by apply IH.
Qed.

Lemma contains_char_rstrip (c : ascii) (s : string) :
  contains (String c "") s = false → contains (String c "") (rstrip s) = false.
Proof.
  induction s as [|x s IH]; [done|].
  rewrite contains_char_cons. intros [Hx Hs]%orb_false_iff. cbn [rstrip].
  destruct (rstrip s) as [|y r] eqn:Hr.
  - destruct (isspace x); [done|]. by rewrite contains_char_cons, Hx.
  - rewrite contains_char_cons, Hx. by apply IH.
Qed.

Lemma contains_char_strip (c : ascii) (s : string) :
  contains (String c "") s = false → contains (String c "") (strip s) = false.
Proof. intros H. by apply contains_char_rstrip, contains_char_lstrip. Qed.

(** No piece of a split holds the separator. *)
Lemma split_pieces_free (sep : ascii) (s : string) :
  Forall (λ piece, contains (String sep "") piece = false) (split sep s).
Proof.
  induction s as [|c s IH]; cbn [split]; [by repeat constructor|].
  destruct (decide (c = sep)) as [->|Hne]; [by constructor|].
  destruct (split sep s) as [|piece pieces]; [repeat constructor|].
  - rewrite contains_char_cons, bool_decide_eq_false_2 by done. done.
  - apply Forall_cons in IH as [Hpiece Hpieces]. constructor; [|done].
    rewrite contains_char_cons, bool_decide_eq_false_2 by done. done.
Qed.

(** A text without the separator is its own single piece. *)
Lemma split_free (sep : ascii) (s : string) :
  contains (String sep "") s = false → split sep s = [s].
Proof.
  induction s as [|c s IH]; [done|].
  rewrite contains_char_cons. intros [Hc Hs]%orb_false_iff.
  apply bool_decide_eq_false in Hc. cbn [split].
  rewrite decide_False by done. by rewrite IH.
Qed.

(** ** The skills text area *)

Lemma parse_skills_clean (skills_input : string) :
  Forall clean_skill (parse_skills skills_input).
Proof.
  unfold parse_skills.
  pose proof (split_pieces_free ","%char skills_input) as Hfree.
  induction Hfree as [|piece pieces Hpiece _ IH]; [constructor|].
  rewrite filter_cons. destruct (decide (truthy (strip piece) = true)) as [Ht|]; [|done].
  cbn [map]. constructor; [|done].
  split; [by apply truthy_true|]. split; [apply strip_idempotent|].
  by apply contains_char_strip.
Qed.

(** What splitting the text shown for a list of comma-free skills gives:
    the skills, each but the first behind the blank of the separator. *)
Lemma split_joined (x : string) (rest : list string) :
  Forall (λ t, contains "," t = false) (x :: rest) →
  split ","%char (join ", " (x :: rest)) = x :: map (String " "%char) rest.
Proof.
  revert x. induction rest as [|y rest IH]; intros x Hfree.
  - apply Forall_cons in Hfree as [Hx _]. by apply split_free.
  - apply Forall_cons in Hfree as [Hx Hrest].
    change (join ", " (x :: y :: rest))
      with (x +:+ String ","%char (String " "%char (join ", " (y :: rest)))).
    rewrite split_app, (split_free _ x Hx). cbn [app split].
    rewrite decide_False by done. by rewrite (IH y Hrest).
Qed.

(** The text shown for clean skills reads back as the same skills. *)
Lemma parse_skills_join (l : list string) :
  Forall clean_skill l → parse_skills (join ", " l) = l.
Proof.
  intros Hclean. destruct l as [|x rest]; [done|].
  unfold parse_skills. rewrite split_joined.
  2:{ eapply Forall_impl; [exact Hclean|]. by intros t (_ & _ & Ht). }
  apply Forall_cons in Hclean as [(Hx & Hsx & _) Hrest].
  rewrite filter_cons, Hsx, decide_True by (by apply truthy_true).
  cbn [map]. rewrite Hsx. f_equal.
  induction Hrest as [|y rest (Hy & Hsy & _) _ IH]; [done|].
  assert (strip (String " "%char y) = y) as Hspace by (by unfold strip in *).
  cbn [map]. rewrite filter_cons, Hspace, decide_True by (by apply truthy_true).
  cbn [map]. by rewrite Hspace, IH.
Qed.

(** X8.  The skills form over clean skills: whatever the text area returns, the
    skills stored after it are clean, and the text of them reads back as
    the same list; and when the text area returns the text of a clean list,
    that list is what is stored, duplicates and order included. *)
Theorem skills_form_round_trip (skills_input : string) (l : list string) (w : World) :
  let stored := skills (the_data (render_skills_form skills_input w)) in
  Forall clean_skill (skills (the_data w)) →
  Forall clean_skill stored ∧
  parse_skills (join ", " stored) = stored ∧
  (Forall clean_skill l → skills (the_data (render_skills_form (join ", " l) w)) = l).
Proof.
  intros stored Hclean.
  assert (Forall clean_skill stored) as Hstored.
  { subst stored. unfold render_skills_form. destruct (decide _); [|done].
    apply parse_skills_clean. }
  split; [done|]. split; [by apply parse_skills_join|].
  intros Hl. unfold render_skills_form. destruct (decide _) as [Hne|Heq].
  - unfold the_data, put_data. cbn [session data set_skills skills].
    by apply parse_skills_join.
  - apply dec_stable in Heq.
    rewrite <- (parse_skills_join l Hl), Heq. symmetry. by apply parse_skills_join.
Qed.

Lemma skills_form_round_trip_witness :
  skills (the_data (render_skills_form "Go, Rust,Go" world0)) = ["Go"; "Rust"; "Go"] ∧
  skills (the_data (render_skills_form (join ", " ["SQL"; "SQL"]) world0)) = ["SQL"; "SQL"].
Proof.
  assert (Forall clean_skill (skills (the_data world0))) as Hclean.
  { repeat (apply Forall_cons; split; [by repeat split|]). constructor. }
  split; [reflexivity|].
  apply (skills_form_round_trip "" ["SQL"; "SQL"] world0 Hclean).
  repeat (apply Forall_cons; split; [by repeat split|]). constructor.
Defined.

(** X9.  The suggestion handler keeps the skills clean: with clean skills before
    it, every skill stored after it is clean, whatever the service answered,
    so the skills form shows a text that reads back as the stored list. *)
Theorem suggested_skills_are_clean (env : Env) (w : World) :
  let merged := skills (the_data (handle_suggest_skills env w)) in
  python_sets env →
  Forall clean_skill (skills (the_data w)) →
  Forall clean_skill merged ∧ parse_skills (join ", " merged) = merged.
Proof.
  intros merged Hsets Hclean.
  assert (Forall clean_skill merged) as Hmerged; [|split; [done|by apply parse_skills_join]].
  subst merged. rewrite skills_data. cbv zeta. destruct (is_error _); [done|].
  cbn [set_skills skills]. apply Forall_forall. intros x Hx.
  rewrite (Hsets _ _), elem_of_elements, elem_of_union, !elem_of_list_to_set in Hx.
  destruct Hx as [Hx|Hx].
  - by eapply Forall_forall in Hclean.
  - pose proof (parse_skills_clean
                  (result_of env (skills_instruction, skills_prompt (the_data w)))) as Hnew.
    by eapply Forall_forall in Hnew.
Qed.

Lemma suggested_skills_are_clean_witness :
  Forall clean_skill
    (skills (the_data (handle_suggest_skills (env_answering " Docker ,, Go") world0))).
Proof.
  refine (proj1 (suggested_skills_are_clean (env_answering " Docker ,, Go") world0 _ _)).
  - apply some_order_python_sets.
  - repeat (apply Forall_cons; split; [by repeat split|]). constructor.
Defined.

(** ** The page: list sections *)

Lemma education_laws : OpsLaws education_ops KeyEducation.
Proof.
  split; [done|done|by intros []|by intros [[] ?] []|done|by eexists|done|].
  by intros [] l d H.
Qed.

Lemma experience_laws : OpsLaws experience_ops KeyExperience.
Proof.
  split; [done|done|by intros []|by intros [[[] ?] ?] []|done|by eexists|done|].
  by intros [] l d H.
Qed.

Lemma portfolio_laws : OpsLaws portfolio_ops KeyPortfolio.
Proof.
  split; [done|done|by intros []|by intros [[] ?] []|done|by eexists|done|].
  by intros [] l d H.
Qed.

Section ListSection.
Context {A V : Type} (ops : SectionOps A V) (key : SectionKey) (laws : OpsLaws ops key).
Context (ui : SectionUi V).

Lemma edited_length i todo : length (edited ops ui i todo) = length todo.
Proof. revert i. induction todo as [|x todo IH]; intros i; cbn; [done|]. by rewrite IH. Qed.

Lemma edited_ids i todo : map (id_of ops) (edited ops ui i todo) = map (id_of ops) todo.
Proof.
  revert i. induction todo as [|x todo IH]; intros i; cbn [edited map]; [done|].
  by rewrite IH, (id_write ops key laws).
Qed.

(** The loop, when it reaches its end: the session it leaves. *)
Lemma items_loop_goes_on todo : ∀ i seen before w w',
  entries_of ops (the_data w) = before ++ todo → length before = i →
  items_loop ops ui i seen todo w = GoesOn w' →
  session w' = mkSession (put_entries ops (before ++ edited ops ui i todo) (the_data w))
                         (marker_after ops ui i todo (ai_loading (session w)))
                         (generated_html (session w)) (theme (session w)).
Proof.
  induction todo as [|item rest IH]; intros i seen before w w' Hentries Hlen.
  - cbn [items_loop edited marker_after]. intros [= <-].
    rewrite <- Hentries, (put_get ops key laws). by destruct w as [[] ?].
  - cbn [items_loop edited marker_after].
    destruct (if truthy (heading_of ops item) then _ else _) as [heading|]; [|done].
    cbv zeta. case_bool_decide; [done|].
    change (the_data (emit _ w)) with (the_data w). rewrite Hentries.
    assert (<[i:=write_fields ops (ui_values (ui_item ui i)) item]> (before ++ item :: rest)
            = (before ++ [write_fields ops (ui_values (ui_item ui i)) item]) ++ rest) as ->.
    { subst i. rewrite insert_app_r_alt, Nat.sub_diag by lia. by rewrite <- app_assoc. }
    destruct (ui_remove (ui_item ui i)); [done|].
    intros Hloop.
    apply (IH (S i) _ (before ++ [write_fields ops (ui_values (ui_item ui i)) item]))
      in Hloop.
    + rewrite Hloop. rewrite (id_write ops key laws).
      destruct (refinable ops && ui_refine (ui_item ui i));
        unfold the_data, put_loading, put_data, emit;
        cbn [session data ai_loading generated_html theme];
        by rewrite (put_put ops key laws), <- app_assoc.
    + destruct (refinable ops && ui_refine (ui_item ui i));
        unfold the_data, put_loading, put_data, emit; cbn [session data];
        by rewrite (get_put ops key laws).
    + rewrite length_app. cbn. lia.
Qed.




(** The trace only grows along the loop. *)
Lemma items_loop_trace todo : ∀ i seen w w',
  items_loop ops ui i seen todo w = GoesOn w' → trace w `prefix_of` trace w'.
Proof.
  induction todo as [|item rest IH]; intros i seen w w'; cbn [items_loop].
  - by intros [= <-].
  - destruct (if truthy (heading_of ops item) then _ else _) as [heading|]; [|done].
    cbv zeta. case_bool_decide; [done|]. destruct (ui_remove (ui_item ui i)); [done|].
    intros Hloop%IH. etrans; [|exact Hloop].
    destruct (refinable ops && ui_refine (ui_item ui i)); cbn [trace emit put_data put_loading];
      by apply prefix_app_r.
Qed.

End ListSection.

Section ListSectionRun.
Context {A V : Type} (ops : SectionOps A V) (key : SectionKey) (laws : OpsLaws ops key).
Context (ui : SectionUi V).

(** [render_array_section], when it goes on: no button reported a press
    that reruns, and the session is the one the loop leaves. *)
Lemma section_goes_on w w' :
  render_array_section ops ui w = GoesOn w' →
  ui_add ui = false ∧
  trace w `prefix_of` trace w' ∧
  session w' = mkSession (put_entries ops (edited ops ui 0 (entries_of ops (the_data w)))
                                      (the_data w))
                         (marker_after ops ui 0 (entries_of ops (the_data w))
                                       (ai_loading (session w)))
                         (generated_html (session w)) (theme (session w)).
Proof.
  unfold render_array_section.
  destruct (items_loop ops ui 0 [] (entries_of ops (the_data w)) w) as [w1|w1|exn w1]
    eqn:Hloop; [|done..].
  destruct (has_word ops key laws) as [word ->].
  destruct (ui_add ui); [done|]. intros [= <-]. split; [done|].
  split; [exact (items_loop_trace ops ui _ 0 [] w w1 Hloop)|].
  by apply (items_loop_goes_on ops key laws ui _ 0 [] [] w w1).
Qed.




(** Inputs that return what the entries hold write the entries back. *)
Lemma edited_shows before todo d :
  entries_of ops d = before ++ todo → shows ops ui d →
  edited ops ui (length before) todo = todo.
Proof.
  revert before. induction todo as [|item rest IH]; intros before Hentries Hshows; [done|].
  cbn [edited]. rewrite (Hshows (length before) item).
  - f_equal. specialize (IH (before ++ [item])). rewrite length_app in IH. cbn in IH.
    rewrite Nat.add_1_r in IH. apply IH; [by rewrite <- app_assoc|done].
  - rewrite Hentries. by rewrite lookup_app_r, Nat.sub_diag by lia.
Qed.



End ListSectionRun.

(** ** The page: a run of [main] *)

Lemma main_unfold ui w :
  main ui w =
  and_then (render_array_section education_ops (ui_education ui) (before_lists ui w)) (λ w,
  and_then (render_array_section experience_ops (ui_experience ui) w) (λ w,
  and_then (render_array_section portfolio_ops (ui_portfolio ui) (emit (EvMarkdown "---") w))
           (after_lists ui))).
Proof. reflexivity. Qed.

Lemma before_lists_session ui w :
  session (before_lists ui w)
  = mkSession (document_before_lists ui (the_data w)) (ai_loading (session w))
              (portfolio_html (the_data w)) (lower (choice_label (ui_theme_choice ui))).
Proof.
  unfold before_lists, document_before_lists, render_skills_form. cbv zeta.
  match goal with |- context [decide ?P] => destruct (decide P) as [H|H] end.
  - rewrite decide_True by exact H. reflexivity.
  - rewrite decide_False by exact H. reflexivity.
Qed.

Lemma cover_letter_generator_session ui w :
  session (render_cover_letter_generator ui w)
  = mkSession (set_cover_letter_inputs (mkInputs (ui_company ui) (ui_title ui)) (the_data w))
              (ai_loading (session w)) (generated_html (session w)) (theme (session w)).
Proof.
  unfold render_cover_letter_generator. cbv zeta.
  match goal with |- context [truthy ?x] => destruct (truthy x) end; reflexivity.
Qed.

Lemma after_lists_end ui w :
  ∃ w', after_lists ui w
        = Finished w' (compile_resume_text (the_data w')) (generated_html (session w)) ∧
    session w' = mkSession (set_cover_letter_inputs (mkInputs (ui_company ui) (ui_title ui))
                                                    (the_data w))
                           (ai_loading (session w)) (generated_html (session w))
                           (theme (session w)).
Proof.
  unfold after_lists. cbv zeta.
  pose proof (cover_letter_generator_session ui (emit (EvMarkdown "---") w)) as Hcover.
  set (shown := render_cover_letter_generator ui (emit (EvMarkdown "---") w)) in *.
  match goal with |- ∃ w', Finished ?last _ _ = _ ∧ _ => exists last end.
  unfold the_data. cbn [session emit]. rewrite !render_preview_unfold. cbn [session emit].
  rewrite Hcover. cbn [session emit data generated_html]. done.
Qed.

Lemma marker_after_education ui todo i marker :
  marker_after education_ops ui i todo marker = marker.
Proof. revert i. induction todo as [|item rest IH]; intros i; [done|apply IH]. Qed.

(** A run that reaches its last statement: the session it leaves and the
    two texts it hands to the download buttons. *)
Lemma main_finished ui w w' resume_text_data portfolio_live :
  main ui w = Finished w' resume_text_data portfolio_live →
  let d0 := document_before_lists ui (the_data w) in
  let d1 := set_education (edited education_ops (ui_education ui) 0 (education d0)) d0 in
  let d2 := set_experience (edited experience_ops (ui_experience ui) 0 (experience d1)) d1 in
  session w'
  = mkSession (document_after_run ui (the_data w))
              (marker_after portfolio_ops (ui_portfolio ui) 0 (portfolio d2)
                 (marker_after experience_ops (ui_experience ui) 0 (experience d1)
                    (ai_loading (session w))))
              (portfolio_html (the_data w)) (lower (choice_label (ui_theme_choice ui))) ∧
  resume_text_data = compile_resume_text (the_data w') ∧
  portfolio_live = portfolio_html (the_data w) ∧
  ui_add (ui_education ui) = false ∧ ui_add (ui_experience ui) = false ∧
  ui_add (ui_portfolio ui) = false.
Proof.
  rewrite main_unfold. cbv zeta.
  destruct (render_array_section education_ops _ _) as [w1| |] eqn:H1; [|done..].
  cbn [and_then].
  destruct (render_array_section experience_ops _ _) as [w2| |] eqn:H2; [|done..].
  cbn [and_then].
  destruct (render_array_section portfolio_ops _ _) as [w3| |] eqn:H3; [|done..].
  cbn [and_then].
  apply (section_goes_on _ _ education_laws) in H1 as (Hadd1 & _ & Hs1).
  apply (section_goes_on _ _ experience_laws) in H2 as (Hadd2 & _ & Hs2).
  apply (section_goes_on _ _ portfolio_laws) in H3 as (Hadd3 & _ & Hs3).
  destruct (after_lists_end ui w3) as (w4 & -> & Hs4). intros [= <- <- <-].
  rewrite Hs4. unfold the_data in *. cbn [session emit] in *.
  rewrite Hs3, Hs2, Hs1, before_lists_session.
  cbn [data ai_loading generated_html theme entries_of put_entries education_ops
       experience_ops portfolio_ops].
  rewrite marker_after_education. done.
Qed.

Lemma lists_before_lists ui d :
  education (document_before_lists ui d) = education d ∧
  experience (document_before_lists ui d) = experience d ∧
  portfolio (document_before_lists ui d) = portfolio d.
Proof. unfold document_before_lists. cbv zeta. by destruct (decide _). Qed.

Lemma finished_run_document ui w w' resume_text_data portfolio_live :
  main ui w = Finished w' resume_text_data portfolio_live →
  the_data w' = document_after_run ui (the_data w) ∧
  resume_text_data = compile_resume_text (document_after_run ui (the_data w)).
Proof.
  intros Hrun. destruct (main_finished ui w w' _ _ Hrun) as (Hs & Htext & _).
  cbv zeta in Hs. unfold the_data in *. rewrite Hs in *. done.
Qed.

(** X10.  The page offered by "Download Portfolio Website" in a run that reaches
    its last statement is the page of the document as it was when the run
    began: what the inputs of the run wrote into the document is in the text
    resume of the run and not in that page. *)
Theorem portfolio_download_is_of_run_start (ui : Ui) (w w' : World)
    (resume_text_data portfolio_live : string) :
  main ui w = Finished w' resume_text_data portfolio_live →
  portfolio_live = portfolio_html (the_data w) ∧
  generated_html (session w') = portfolio_html (the_data w) ∧
  the_data w' = document_after_run ui (the_data w) ∧
  resume_text_data = compile_resume_text (document_after_run ui (the_data w)).
Proof.
  intros Hrun. destruct (main_finished ui w w' _ _ Hrun) as (Hs & Htext & Hpage & _).
  cbv zeta in Hs. unfold the_data in *. rewrite Hs in *. done.
Qed.

Lemma portfolio_download_is_of_run_start_witness :
  ∃ w' resume_text_data portfolio_live,
    main ui_renaming world0 = Finished w' resume_text_data portfolio_live ∧
    name (personal (the_data w')) = "Jane Doe" ∧
    startswith "JANE DOE" resume_text_data = true ∧
    portfolio_live = portfolio_html initial_data ∧
    contains "Jane Doe" portfolio_live = false.
Proof.
  eexists _, _, _. split; [vm_compute; reflexivity|].
  split; [reflexivity|]. split; [vm_compute; reflexivity|]. split.
  - refine (proj1 (portfolio_download_is_of_run_start ui_renaming world0 _ _ _ _)).
    vm_compute. reflexivity.
  - vm_compute. reflexivity.
Defined.



Lemma changed_to_same (v : string) : changed_to v v = v.
Proof. unfold changed_to. by destruct (decide _). Qed.

(** X12.  A run whose inputs all return what the document holds, and that reaches
    its last statement, leaves the document as it was. *)
Theorem run_showing_the_document_keeps_it (ui : Ui) (w w' : World)
    (resume_text_data portfolio_live : string) :
  let d := the_data w in
  main ui w = Finished w' resume_text_data portfolio_live →
  ui_name ui = name (personal d) → ui_email ui = email (personal d) →
  ui_phone ui = phone (personal d) → ui_linkedin ui = linkedin (personal d) →
  ui_summary ui = summary d →
  ui_skills ui = join ", " (skills d) →
  shows education_ops (ui_education ui) d →
  shows experience_ops (ui_experience ui) d →
  shows portfolio_ops (ui_portfolio ui) d →
  ui_company ui = cl_company (cover_letter_inputs d) →
  ui_title ui = cl_title (cover_letter_inputs d) →
  the_data w' = d ∧ resume_text_data = compile_resume_text d.
Proof.
  intros d Hrun Hname Hemail Hphone Hlinkedin Hsummary Hskills Hedu Hexp Hproj Hcompany Htitle.
  destruct (finished_run_document ui w w' _ _ Hrun) as [Hdata Htext].
  rewrite Htext, Hdata. fold d.
  assert (document_after_run ui d = d) as ->; [|done].
  unfold document_after_run, document_before_lists. cbv zeta.
  rewrite Hname, Hemail, Hphone, Hlinkedin, Hsummary, Hcompany, Htitle, Hskills.
  cbn [skills set_summary set_personal]. rewrite decide_False by (intros H; by apply H).
  cbn [education experience portfolio set_summary set_personal set_education set_experience].
  pose proof (edited_shows education_ops (ui_education ui) [] (education d) d eq_refl Hedu)
    as H1.
  pose proof (edited_shows experience_ops (ui_experience ui) [] (experience d) d eq_refl Hexp)
    as H2.
  pose proof (edited_shows portfolio_ops (ui_portfolio ui) [] (portfolio d) d eq_refl Hproj)
    as H3.
  cbn [length] in H1, H2, H3. rewrite H1, H2, H3.
  by destruct d as [[] ? ? ? ? ? [] ?].
Qed.

Lemma run_showing_the_document_keeps_it_witness :
  ∃ w' resume_text_data portfolio_live,
    main ui_showing_initial world0 = Finished w' resume_text_data portfolio_live ∧
    the_data w' = initial_data.
Proof.
  eexists _, _, _. split; [vm_compute; reflexivity|].
  refine (proj1 (run_showing_the_document_keeps_it ui_showing_initial world0 _ _ _ _
                   eq_refl eq_refl eq_refl eq_refl eq_refl eq_refl _ _ _ eq_refl eq_refl)).
  - vm_compute. reflexivity.
  - intros [|i] item; [intros [= <-]; reflexivity|done].
  - intros [|i] item; [intros [= <-]; reflexivity|done].
  - intros [|i] item; [intros [= <-]; reflexivity|done].
Defined.

Section IdsOfRuns.
Context {A V : Type} (ops : SectionOps A V) (key : SectionKey) (laws : OpsLaws ops key).

Lemma ids_put_entries key' l d :
  ids key' (put_entries ops l d) = if decide (key' = key) then map (id_of ops) l else ids key' d.
Proof.
  destruct (decide (key' = key)) as [->|Hne].
  - by rewrite (ids_own ops key laws), (get_put ops key laws).
  - by apply (ids_other ops key laws).
Qed.

Lemma ids_edited ui key' d :
  ids key' (put_entries ops (edited ops ui 0 (entries_of ops d)) d) = ids key' d.
Proof.
  rewrite ids_put_entries. destruct (decide (key' = key)) as [->|]; [|done].
  by rewrite (edited_ids ops key laws), (ids_own ops key laws).
Qed.


End IdsOfRuns.

Lemma ids_before_lists ui key d : ids key (document_before_lists ui d) = ids key d.
Proof.
  destruct (lists_before_lists ui d) as (H1 & H2 & H3).
  destruct key; cbn [ids]; congruence.
Qed.

Lemma ids_set_cover_letter_inputs key v d :
  ids key (set_cover_letter_inputs v d) = ids key d.
Proof. by destruct key. Qed.

Lemma ids_after_run ui key d : ids key (document_after_run ui d) = ids key d.
Proof.
  unfold document_after_run. cbv zeta. rewrite ids_set_cover_letter_inputs.
  rewrite (ids_edited portfolio_ops KeyPortfolio portfolio_laws).
  rewrite (ids_edited experience_ops KeyExperience experience_laws).
  rewrite (ids_edited education_ops KeyEducation education_laws).
  apply ids_before_lists.
Qed.



(** A session in which two experience entries have the same id: the page
    raises at the widgets of the second of them. *)
Lemma repeated_id_raises :
  ∃ w', main ui_showing_initial
          (put_data (set_experience [blank_experience; blank_experience] initial_data)
                    world0)
        = Crashed DUPLICATE_KEY w'.
Proof. eexists. vm_compute. reflexivity. Qed.

(** ** Adding, removing and refining entries *)

Lemma ids_length_add key now d :
  length (ids key (add_entry key now d)) = S (length (ids key d)).
Proof. destruct key; cbn; rewrite map_app, length_app; cbn; lia. Qed.

(** X14.  "Remove" at an index outside the list fails with [IndexError]; in range
    it drops that position and nothing else; and removing the entry that
    "Add New" has just appended gives the document back. *)
Theorem remove_entry_bounds_and_round_trip (key : SectionKey) (d : Document) :
  (∀ i, remove_entry key i d = None ↔ length (ids key d) ≤ i) ∧
  (∀ i d', remove_entry key i d = Some d' →
     ids key d' = delete i (ids key d) ∧ length (ids key d') + 1 = length (ids key d) ∧
     ∀ key', key' ≠ key → ids key' d' = ids key' d) ∧
  (∀ now, remove_entry key (length (ids key d)) (add_entry key now d) = Some d).
Proof.
  split; [|split].
  - intros i. unfold remove_entry, pop.
    destruct key; cbn [ids]; rewrite length_map;
      match goal with |- context [decide ?P] => destruct (decide P) end;
      cbn; split; (done || lia).
  - intros i d' Hrem. pose proof (ids_step key (Remove key i) d d' Hrem) as Hids.
    cbn [ids_after] in Hids. rewrite decide_True in Hids by done.
    split; [done|]. split.
    + rewrite Hids, length_delete.
      2:{ apply lookup_lt_is_Some. unfold remove_entry, pop in Hrem.
          destruct key; cbn [ids]; rewrite length_map;
            match type of Hrem with context [decide ?P] => destruct (decide P) end;
            (done || lia). }
      assert (i < length (ids key d)); [|lia].
      unfold remove_entry, pop in Hrem.
      destruct key; cbn [ids]; rewrite length_map;
        match type of Hrem with context [decide ?P] => destruct (decide P) end;
        (done || lia).
    + intros key' Hne. pose proof (ids_step key' (Remove key i) d d' Hrem) as H.
      cbn [ids_after] in H. by rewrite decide_False in H by done.
  - intros now. unfold remove_entry, pop, add_entry.
    destruct key; cbn [ids education experience portfolio set_education set_experience
                       set_portfolio];
      rewrite length_map, decide_True by (rewrite length_app; cbn; lia);
      cbn [fmap option_fmap option_map]; f_equal;
      rewrite delete_middle, app_nil_r; by destruct d.
Qed.

Lemma remove_entry_bounds_and_round_trip_witness :
  remove_entry KeyExperience 1 initial_data = None ∧
  (∃ d', remove_entry KeyExperience 0 initial_data = Some d' ∧ ids KeyExperience d' = []) ∧
  remove_entry KeyExperience 1 (add_entry KeyExperience a_reading initial_data)
  = Some initial_data.
Proof.
  destruct (remove_entry_bounds_and_round_trip KeyExperience initial_data)
    as (Hnone & Hsome & Hback).
  split; [apply Hnone; cbn; lia|]. split; [|exact (Hback a_reading)].
  eexists. split; [reflexivity|]. by rewrite (proj1 (Hsome 0 _ eq_refl)).
Defined.

Lemma filter_none {A : Type} (get_id : A → Id) (l : list A) (id : Id) :
  (∀ e, e ∈ l → get_id e ≠ id) → filter (λ x, get_id x = id) l = [].
Proof.
  induction l as [|x l IH]; intros H; [done|].
  rewrite filter_cons, decide_False by (apply H; left).
  apply IH. intros e He. apply H. by right.
Qed.

(** X15.  The entry "Add New" appends has nothing to refine: asked to refine it
    (its id being new to the list), the handler warns, sends nothing and
    leaves the document as it is. *)
Theorem added_entry_has_nothing_to_refine (env : Env) (key : SectionKey) (now : Id)
    (w : World) :
  let added := put_data (add_entry key now (the_data w)) w in
  key = KeyExperience ∨ key = KeyPortfolio →
  now ∉ ids key (the_data w) →
  ∃ w', handle_refine_bullets env now (section_key_name key) added = Returns w' ∧
    trace w' = trace w ++ [EvWarning "No raw input to refine."] ∧
    the_data w' = the_data added ∧
    ai_loading (session w') = None.
Proof.
  intros added Hkey Hnew.
  assert (refine_item (section_key_name key) now (the_data added) = Some (Some ("", "")))
    as Hblank.
  { destruct Hkey as [-> | ->]; cbn [section_key_name ids] in *;
      unfold refine_item, find_item;
      rewrite ?decide_False by done; rewrite ?decide_True by done;
      subst added; unfold the_data, put_data;
      cbn [session data add_entry experience portfolio set_experience set_portfolio];
      rewrite filter_app, filter_none.
    - rewrite filter_cons. destruct (decide _) as [|Hne]; [reflexivity|by destruct Hne].
    - intros e He Heq. apply Hnew. rewrite <- Heq.
      apply list_elem_of_In, in_map, list_elem_of_In, He.
    - rewrite filter_cons. destruct (decide _) as [|Hne]; [reflexivity|by destruct Hne].
    - intros p Hp Heq. apply Hnew. rewrite <- Heq.
      apply list_elem_of_In, in_map, list_elem_of_In, Hp. }
  rewrite (refine_nothing env now _ added) by (right; by exists "").
  eexists. split; [reflexivity|]. done.
Qed.

Lemma added_entry_has_nothing_to_refine_witness :
  ∃ w', handle_refine_bullets env_two_limits a_reading "portfolio"
          (put_data (add_entry KeyPortfolio a_reading initial_data) world0) = Returns w' ∧
        trace w' = [EvWarning "No raw input to refine."].
Proof.
  destruct (added_entry_has_nothing_to_refine env_two_limits KeyPortfolio a_reading world0)
    as (w' & Hrun & Htrace & _).
  - by right.
  - cbn. intros Hin. apply list_elem_of_singleton in Hin.
    apply (f_equal this) in Hin. vm_compute in Hin. discriminate Hin.
  - exists w'. split; [exact Hrun|exact Htrace].
Defined.

(** ** The text resume, further *)

Lemma upper_char_not_space (c : ascii) : isspace c = false → isspace (upper_char c) = false.
Proof. destruct c as [[] [] [] [] [] [] [] []]; by vm_compute. Qed.

Lemma upper_char_LF (c : ascii) : bool_decide (LF = upper_char c) = bool_decide (LF = c).
Proof. destruct c as [[] [] [] [] [] [] [] []]; by vm_compute. Qed.

Lemma upper_free (s : string) : contains nl s = false → contains nl (upper s) = false.
Proof.
  change nl with (String LF "").
  induction s as [|c s IH]; [done|]. cbn [upper].
  rewrite !contains_char_cons, upper_char_LF.
  intros [Hc Hs]%orb_false_iff. rewrite Hc. by apply IH.
Qed.

Lemma len_upper (s : string) : len (upper s) = len s.
Proof. unfold len. induction s as [|c s IH]; [done|]. cbn [upper String.length]. by rewrite IH. Qed.

Lemma len_times_char (c : ascii) (n : nat) : len (times (String c "") n) = n.
Proof.
  unfold len. induction n as [|n IH]; [done|].
  cbn [times]. rewrite append_cons, append_nil_l. cbn [String.length]. by rewrite IH.
Qed.

Lemma times_char_free (c : ascii) (n : nat) :
  c ≠ LF → contains nl (times (String c "") n) = false.
Proof.
  intros Hc. change nl with (String LF ""). induction n as [|n IH]; [done|].
  cbn [times]. rewrite append_cons, append_nil_l, contains_char_cons, IH.
  by rewrite bool_decide_eq_false_2 by done.
Qed.

Lemma lines_free (s : string) : contains nl s = false → lines s = [s].
Proof. apply split_free. Qed.

(** X16.  The header of the text resume for an ASCII name on one line that does
    not start with white space: the first line is the name in capitals and
    the second an underline of [=] of the same length. *)
Theorem resume_text_header (d : Document) :
  let name := name (personal d) in
  isascii name = true → contains nl name = false →
  (∃ c a, name = String c a ∧ isspace c = false) →
  ∃ rest,
    lines (compile_resume_text d) = upper name :: times "=" (len name) :: rest ∧
    len (times "=" (len name)) = len (upper name).
Proof.
  intros name _ Hline (c & a & Hname & Hc).
  assert (upper name = String (upper_char c) (upper a)) as Hupper by (by rewrite Hname).
  unfold compile_resume_text, header_lines. cbv zeta. fold name.
  change (concat (map (section_lines d) SECTION_ORDER))
    with (section_lines d "summary" ++ section_lines d "skills"
          ++ section_lines d "portfolio" ++ section_lines d "experience"
          ++ section_lines d "education" ++ []).
  destruct (section_lines_education d) as [s5 ->].
  destruct (lines_strip_join (upper_char c) "-" (upper a) "--------"
              ([times "=" (len name); "Email: " +:+ email (personal d);
                "Phone: " +:+ phone (personal d); "LinkedIn: " +:+ linkedin (personal d);
                times nl 2]
               ++ section_lines d "summary" ++ section_lines d "skills"
               ++ section_lines d "portfolio" ++ section_lines d "experience"
               ++ ["EDUCATION"])
              (s5 ++ []) (upper_char_not_space c Hc) eq_refl) as [rest Hrest].
  rewrite <- Hupper in Hrest.
  match type of Hrest with
  | lines (strip (join nl ?pieces)) = _ =>
      match goal with
      | |- ∃ _, lines (strip (join nl ?pieces')) = _ ∧ _ =>
          replace pieces' with pieces
            by (repeat (progress (rewrite <- ?app_assoc; cbn [app])); reflexivity)
      end
  end.
  rewrite Hrest, !concat_lines_cons.
  rewrite (lines_free (upper name)) by (by apply upper_free).
  cbn [app]. rewrite concat_lines_cons.
  rewrite (lines_free (times "=" (len name))) by (by apply times_char_free).
  eexists. split; [reflexivity|]. by rewrite len_times_char, len_upper.
Qed.

Lemma resume_text_header_witness :
  ∃ rest, lines (compile_resume_text initial_data)
          = upper (name (personal initial_data))
            :: times "=" (len (name (personal initial_data))) :: rest.
Proof.
  destruct (resume_text_header initial_data) as (rest & Hlines & _).
  - reflexivity.
  - reflexivity.
  - eexists _, _. split; reflexivity.
  - exists rest. exact Hlines.
Defined.

Lemma startswith_app (p r : string) : startswith p (p +:+ r) = true.
Proof.
  induction p as [|c p IH]; [done|].
  rewrite append_cons. cbn [startswith]. by rewrite decide_True.
Qed.

Lemma strip_not_blank (x y : string) (c : ascii) :
  isspace c = false → strip (x +:+ String c y) ≠ "".
Proof.
  intros Hc. unfold strip.
  assert (∃ c' r, lstrip (x +:+ String c y) = String c' r ∧ isspace c' = false)
    as (c' & r & -> & Hc').
  { induction x as [|b x IH].
    - rewrite append_nil_l. cbn [lstrip]. rewrite Hc. by eexists _, _.
    - rewrite append_cons. cbn [lstrip]. destruct (isspace b) eqn:Hb; [done|].
      by eexists _, _. }
  by rewrite rstrip_cons_keep.
Qed.

Lemma strip_skip_nl (s : string) : strip (nl +:+ s) = strip s.
Proof. reflexivity. Qed.

(** The text joined by [compile_resume_text], up to the telephone line. *)
Lemma resume_text_shape (d : Document) :
  ∃ tail,
    compile_resume_text d
    = strip (upper (name (personal d)) +:+ nl +:+ times "=" (len (name (personal d))) +:+ nl
             +:+ ("Email: " +:+ email (personal d)) +:+ nl
             +:+ ("Phone: " +:+ phone (personal d)) +:+ tail).
Proof.
  unfold compile_resume_text, header_lines. cbv zeta. cbn [app].
  destruct (join_cons_tail nl ("Phone: " +:+ phone (personal d))
              (("LinkedIn: " +:+ linkedin (personal d)) :: times nl 2
               :: concat (map (section_lines d) SECTION_ORDER))) as [tail Htail].
  exists tail. rewrite <- Htail. reflexivity.
Qed.

(** X17.  The text resume is never blank and has no white space around it,
    whatever the document.  With an empty name its blank first line and its
    empty underline are trimmed away: the text opens with the e-mail line. *)
Theorem resume_text_is_trimmed (d : Document) :
  compile_resume_text d ≠ "" ∧
  strip (compile_resume_text d) = compile_resume_text d ∧
  (name (personal d) = "" →
   startswith ("Email: " +:+ email (personal d)) (compile_resume_text d) = true).
Proof.
  destruct (resume_text_shape d) as [tail Htext].
  split; [|split].
  - rewrite Htext.
    replace (upper (name (personal d)) +:+ nl +:+ times "=" (len (name (personal d))) +:+ nl
             +:+ ("Email: " +:+ email (personal d)) +:+ nl
             +:+ ("Phone: " +:+ phone (personal d)) +:+ tail)
      with ((upper (name (personal d)) +:+ nl +:+ times "=" (len (name (personal d))) +:+ nl)
            +:+ String "E" ("mail: " +:+ email (personal d) +:+ nl
                            +:+ ("Phone: " +:+ phone (personal d)) +:+ tail)).
    + by apply strip_not_blank.
    + rewrite !append_assoc. reflexivity.
  - unfold compile_resume_text. cbv zeta. apply strip_idempotent.
  - intros Hname. rewrite Htext, Hname. cbn [upper len String.length times].
    rewrite !append_nil_l, !strip_skip_nl.
    replace (("Email: " +:+ email (personal d)) +:+ nl
             +:+ ("Phone: " +:+ phone (personal d)) +:+ tail)
      with (String "E" ("mail: " +:+ email (personal d) +:+ nl)
            +:+ String "P" ("hone: " +:+ phone (personal d) +:+ tail))
      by (rewrite ?append_cons, !append_assoc; reflexivity).
    rewrite strip_keep by done.
    replace (String "E" ("mail: " +:+ email (personal d) +:+ nl)
             +:+ String "P" (rstrip ("hone: " +:+ phone (personal d) +:+ tail)))
      with (("Email: " +:+ email (personal d))
            +:+ nl +:+ String "P" (rstrip ("hone: " +:+ phone (personal d) +:+ tail)))
      by (rewrite ?append_cons, !append_assoc; reflexivity).
    apply startswith_app.
Qed.

Lemma resume_text_is_trimmed_witness :
  startswith "Email: a@b.c"
    (compile_resume_text (set_personal (mkPersonal "" "a@b.c" "1" "") initial_data)) = true.
Proof.
  exact (proj2 (proj2 (resume_text_is_trimmed
                         (set_personal (mkPersonal "" "a@b.c" "1" "") initial_data))) eq_refl).
Defined.

(** ** The portfolio page *)

Lemma cat_cons (x : string) (l : list string) : cat (x :: l) = x +:+ cat l.
Proof. destruct l; [cbn; by rewrite append_nil_r|reflexivity]. Qed.

Lemma embeds_refl (s : string) : embeds s s.
Proof. exists "", "". by rewrite append_nil_l, append_nil_r. Qed.

(** What a piece of a concatenation holds, the concatenation holds. *)
Lemma embeds_cat (text : string) (pieces : list string) (piece : string) :
  piece ∈ pieces → embeds text piece → embeds text (cat pieces).
Proof.
  intros Hin. induction Hin as [piece l|piece z l Hin IH]; intros Hemb; rewrite cat_cons.
  - destruct Hemb as (x & y & ->). exists x, (y +:+ cat l). by rewrite !append_assoc.
  - destruct (IH Hemb) as (x & y & ->). exists (z +:+ x), y. by rewrite !append_assoc.
Qed.

Lemma embeds_cat_map {A : Type} (markup : A → string) (l : list A) (item : A) (text : string) :
  item ∈ l → embeds text (markup item) → embeds text (cat (map markup l)).
Proof.
  intros Hin. apply embeds_cat. by apply list_elem_of_In, in_map, list_elem_of_In.
Qed.

Lemma contains_here (p s : string) : startswith p s = true → contains p s = true.
Proof. intros H. destruct s; cbn [contains]; by rewrite H. Qed.

Lemma embeds_contains (text page : string) : embeds text page → contains text page = true.
Proof.
  intros (a & b & ->). induction a as [|c a IH].
  - rewrite append_nil_l. apply contains_here, startswith_app.
  - rewrite append_cons. cbn [contains]. rewrite IH. apply orb_true_r.
Qed.

Ltac find_piece := repeat first [constructor 1 | constructor 2].

(** X18.  The portfolio page holds the texts of the document as they are, with
    nothing escaped: the name, the summary, each skill, the fields of each
    project and the fields of each education entry stand in it verbatim,
    markup included. *)
Theorem portfolio_page_embeds_text_verbatim (d : Document) :
  let page := portfolio_html d in
  contains (name (personal d)) page = true ∧
  contains (summary d) page = true ∧
  (∀ skill, skill ∈ skills d → contains skill page = true) ∧
  (∀ proj, proj ∈ portfolio d →
     contains (proj_name proj) page = true ∧
     contains (description proj) page = true ∧
     contains (link proj) page = true) ∧
  (∀ edu, edu ∈ education d →
     contains (degree edu) page = true ∧
     contains (institution edu) page = true ∧
     contains (edu_dates edu) page = true).
Proof.
  cbv zeta.
  assert (∀ text piece,
            piece ∈ [name (personal d); summary d; cat (map skill_badge (skills d));
                     cat (map project_card (portfolio d));
                     cat (map education_card (education d))] →
            embeds text piece → contains text (portfolio_html d) = true) as Hpage.
  { intros text piece Hin Hemb. apply embeds_contains.
    apply (embeds_cat text _ piece); [|done]. unfold portfolio_html.
    rewrite !elem_of_cons in Hin.
    destruct Hin as [-> | [-> | [-> | [-> | [-> | Hin]]]]]; [find_piece..|].
    by apply elem_of_nil in Hin. }
  split; [|split; [|split; [|split]]].
  - apply (Hpage _ (name (personal d))); [find_piece|apply embeds_refl].
  - apply (Hpage _ (summary d)); [find_piece|apply embeds_refl].
  - intros skill Hin. apply (Hpage _ (cat (map skill_badge (skills d)))); [find_piece|].
    apply (embeds_cat_map skill_badge _ skill); [done|].
    apply (embeds_cat _ _ skill); [find_piece|apply embeds_refl].
  - intros proj Hin.
    repeat split;
      (apply (Hpage _ (cat (map project_card (portfolio d)))); [find_piece|];
       apply (embeds_cat_map project_card _ proj); [done|]).
    + apply (embeds_cat _ _ (proj_name proj)); [find_piece|apply embeds_refl].
    + apply (embeds_cat _ _ (description proj)); [find_piece|apply embeds_refl].
    + apply (embeds_cat _ _ (link proj)); [find_piece|apply embeds_refl].
  - intros edu Hin.
    repeat split;
      (apply (Hpage _ (cat (map education_card (education d)))); [find_piece|];
       apply (embeds_cat_map education_card _ edu); [done|]).
    + apply (embeds_cat _ _ (degree edu)); [find_piece|apply embeds_refl].
    + apply (embeds_cat _ _ (institution edu)); [find_piece|apply embeds_refl].
    + apply (embeds_cat _ _ (edu_dates edu)); [find_piece|apply embeds_refl].
Qed.

Lemma portfolio_page_embeds_text_verbatim_witness :
  contains "<script>alert(1)</script>" (portfolio_html markup_document) = true ∧
  contains "Generative AI" (portfolio_html markup_document) = true.
Proof.
  destruct (portfolio_page_embeds_text_verbatim markup_document)
    as (_ & Hsummary & Hskills & _).
  split; [exact Hsummary|]. apply (Hskills "Generative AI").
  unfold markup_document. cbn [skills set_summary initial_data]. find_piece.
Defined.

(** X19.  What the portfolio page leaves out: the telephone number, the
    experience entries, the cover-letter inputs and draft and the ids of the
    projects and of the education entries have no part in it. *)
Theorem portfolio_page_leaves_out (d : Document) (phone' : string)
    (experience' : list ExperienceEntry) (inputs : CoverLetterInputs) (draft : string)
    (renumber : Id → Id) :
  let personal' := mkPersonal (name (personal d)) (email (personal d)) phone'
                              (linkedin (personal d)) in
  let portfolio' := map (λ p, mkPortfolio (renumber (proj_id p)) (proj_name p) (link p)
                                          (description p)) (portfolio d) in
  let education' := map (λ e, mkEducation (renumber (edu_id e)) (institution e) (degree e)
                                          (edu_dates e)) (education d) in
  portfolio_html
    (set_education education'
       (set_portfolio portfolio'
          (set_cover_letter_draft draft
             (set_cover_letter_inputs inputs
                (set_experience experience' (set_personal personal' d))))))
  = portfolio_html d.
Proof.
  cbv zeta. unfold portfolio_html.
  cbn [set_education set_portfolio set_cover_letter_draft set_cover_letter_inputs
       set_experience set_personal personal name email linkedin summary skills portfolio
       education].
  rewrite !map_map. reflexivity.
Qed.

(** ** The themed preview *)

Lemma fold_left_append {A : Type} (markup : A → string) (l : list A) (html_output : string) :
  fold_left (λ html_output item, html_output +:+ markup item) l html_output
  = html_output +:+ cat (map markup l).
Proof.
  revert html_output. induction l as [|item l IH]; intros html_output.
  - cbn. by rewrite append_nil_r.
  - cbn [fold_left map]. by rewrite IH, cat_cons, append_assoc.
Qed.

(** The preview is the header and five blocks in the order of
    [SECTION_ORDER]; each block is one [div] that opens with the colours of
    the theme, holds its heading and then one piece of markup per entry, in
    the order of the list, and closes. *)
Lemma preview_markup_blocks (d : Document) (theme : string) :
  let pal := palette_of theme in
  let block body := section_open pal +:+ body +:+ section_close in
  preview_markup d theme =
    [header_html pal d;
     block (summary_heading pal +:+ summary_paragraph pal d);
     block (skills_heading pal +:+ skills_paragraph pal d);
     block (projects_heading pal +:+ cat (map (project_block pal) (portfolio d)));
     block (experience_heading pal
            +:+ cat (map (λ exp, experience_block pal exp (bullet_items exp)) (experience d)));
     block (education_heading pal +:+ cat (map (education_block pal) (education d)))].
Proof.
  cbv zeta. unfold preview_markup, SECTION_ORDER. cbv zeta. cbn [map].
  unfold format_resume_section. cbv zeta.
  repeat match goal with
         | |- context [decide (?a = ?b)] =>
             destruct (decide (a = b)) as [Heq|Hne];
             [try discriminate Heq; clear Heq|try (by destruct Hne); clear Hne]
         end.
  rewrite !fold_left_append, !append_assoc. reflexivity.
Qed.

Lemma embeds_l (text a b : string) : embeds text a → embeds text (a +:+ b).
Proof. intros (x & y & ->). exists x, (y +:+ b). by rewrite !append_assoc. Qed.

Lemma embeds_r (text a b : string) : embeds text b → embeds text (a +:+ b).
Proof. intros (x & y & ->). exists (a +:+ x), y. by rewrite !append_assoc. Qed.

Lemma embeds_join (sep : string) (l : list string) (text : string) :
  text ∈ l → embeds text (join sep l).
Proof.
  intros Hin. induction Hin as [text l|text z l Hin IH].
  - destruct (join_cons_tail sep text l) as [tail ->]. apply embeds_l, embeds_refl.
  - destruct l as [|y l]; [by apply elem_of_nil in Hin|].
    change (join sep (z :: y :: l)) with (z +:+ sep +:+ join sep (y :: l)).
    by apply embeds_r, embeds_r.
Qed.

(** The body of a block of the preview stands in the block. *)
Lemma embeds_block (text before heading body after : string) :
  embeds text body → embeds text (before +:+ (heading +:+ body) +:+ after).
Proof. intros H. by apply embeds_r, embeds_l, embeds_r. Qed.

(** X20.  The preview shows the texts of the document as they are, with
    nothing escaped.  [render_preview] passes six pieces of markup to
    [st.markdown] and nothing else; the name, e-mail address, telephone
    number and LinkedIn address stand verbatim in the first, the summary in
    the second, each skill in the third, the fields of each project in the
    fourth, the fields of each experience entry and each of its lines that
    is not blank, trimmed, as a list item in the fifth, and the fields of each
    education entry in the sixth. *)
Theorem preview_embeds_text_verbatim (w : World) :
  let d := the_data w in
  let blocks := preview_markup d (theme (session w)) in
  let shown (n : nat) (text : string) :=
    ∃ block, blocks !! n = Some block ∧ contains text block = true in
  render_preview w = mkWorld (session w) (trace w ++ map EvMarkdown blocks) ∧
  length blocks = 6 ∧
  (shown 0 (name (personal d)) ∧ shown 0 (email (personal d)) ∧
   shown 0 (phone (personal d)) ∧ shown 0 (linkedin (personal d))) ∧
  shown 1 (summary d) ∧
  (∀ skill, skill ∈ skills d → shown 2 skill) ∧
  (∀ proj, proj ∈ portfolio d →
     shown 3 (proj_name proj) ∧ shown 3 (link proj) ∧ shown 3 (description proj)) ∧
  (∀ exp, exp ∈ experience d →
     shown 4 (title exp) ∧ shown 4 (company exp) ∧ shown 4 (exp_dates exp) ∧
     ∀ bullet, bullet ∈ split LF (bullets exp) → strip bullet ≠ "" →
       shown 4 (cat ["<li>"; strip bullet; "</li>"])) ∧
  (∀ edu, edu ∈ education d →
     shown 5 (degree edu) ∧ shown 5 (institution edu) ∧ shown 5 (edu_dates edu)).
Proof.
  cbv zeta. split; [apply render_preview_unfold|].
  rewrite preview_markup_blocks. cbv zeta.
  set (pal := palette_of (theme (session w))). set (d := the_data w).
  split; [reflexivity|].
  split; [|split; [|split; [|split; [|split]]]].
  - repeat split; (eexists; split; [reflexivity|]; apply embeds_contains;
                   unfold header_html).
    + apply (embeds_cat _ _ (name (personal d))); [find_piece|apply embeds_refl].
    + apply (embeds_cat _ _ (email (personal d))); [find_piece|apply embeds_refl].
    + apply (embeds_cat _ _ (phone (personal d))); [find_piece|apply embeds_refl].
    + apply (embeds_cat _ _ (linkedin (personal d))); [find_piece|apply embeds_refl].
  - eexists. split; [reflexivity|]. apply embeds_contains, embeds_block.
    apply (embeds_cat _ _ (summary d)); [find_piece|apply embeds_refl].
  - intros skill Hin. eexists. split; [reflexivity|].
    apply embeds_contains, embeds_block.
    apply (embeds_cat _ _ (join ", " (skills d))); [find_piece|by apply embeds_join].
  - intros proj Hin.
    repeat split;
      (eexists; split; [reflexivity|]; apply embeds_contains, embeds_block;
       apply (embeds_cat_map (project_block pal) _ proj); [done|]).
    + apply (embeds_cat _ _ (proj_name proj)); [find_piece|apply embeds_refl].
    + apply (embeds_cat _ _ (link proj)); [find_piece|apply embeds_refl].
    + apply (embeds_cat _ _ (description proj)); [find_piece|apply embeds_refl].
  - intros exp Hin.
    assert (∀ text, embeds text (experience_block pal exp (bullet_items exp)) →
                    ∃ block,
                      [header_html pal d;
                       section_open pal +:+ (summary_heading pal +:+ summary_paragraph pal d)
                       +:+ section_close;
                       section_open pal +:+ (skills_heading pal +:+ skills_paragraph pal d)
                       +:+ section_close;
                       section_open pal
                       +:+ (projects_heading pal
                            +:+ cat (map (project_block pal) (portfolio d)))
                       +:+ section_close;
                       section_open pal
                       +:+ (experience_heading pal
                            +:+ cat (map (λ exp, experience_block pal exp (bullet_items exp))
                                         (experience d)))
                       +:+ section_close;
                       section_open pal
                       +:+ (education_heading pal
                            +:+ cat (map (education_block pal) (education d)))
                       +:+ section_close] !! 4 = Some block
                      ∧ contains text block = true) as Hshown.
    { intros text Hemb. eexists. split; [reflexivity|].
      apply embeds_contains, embeds_block.
      by apply (embeds_cat_map (λ exp, experience_block pal exp (bullet_items exp)) _ exp). }
    split; [|split; [|split]].
    + apply Hshown. apply (embeds_cat _ _ (title exp)); [find_piece|apply embeds_refl].
    + apply Hshown. apply (embeds_cat _ _ (company exp)); [find_piece|apply embeds_refl].
    + apply Hshown. apply (embeds_cat _ _ (exp_dates exp)); [find_piece|apply embeds_refl].
    + intros bullet Hbullet Hshows. apply Hshown.
      apply (embeds_cat _ _ (bullet_items exp)); [find_piece|].
      apply (embeds_cat_map bullet_item _ bullet); [|apply embeds_refl].
      apply list_elem_of_filter. split; [by apply truthy_true|done].
  - intros edu Hin.
    repeat split;
      (eexists; split; [reflexivity|]; apply embeds_contains, embeds_block;
       apply (embeds_cat_map (education_block pal) _ edu); [done|]).
    + apply (embeds_cat _ _ (degree edu)); [find_piece|apply embeds_refl].
    + apply (embeds_cat _ _ (institution edu)); [find_piece|apply embeds_refl].
    + apply (embeds_cat _ _ (edu_dates edu)); [find_piece|apply embeds_refl].
Qed.

Lemma preview_embeds_text_verbatim_witness :
  ∃ block,
    preview_markup markup_document "light" !! 4 = Some block ∧
    contains "<li>Successfully completed AI and Cloud internship project.</li>" block = true.
Proof.
  destruct (preview_embeds_text_verbatim (put_data markup_document world0))
    as (_ & _ & _ & _ & _ & _ & Hexperience & _).
  destruct (Hexperience (mkExperience (Q2Qc 1) "AI and Cloud Intern" "Edunet/IBM SkillsBuild"
                           "June 2024 - Present"
                           (bullets (hd blank_experience (experience initial_data)))))
    as (_ & _ & _ & Hbullets); [left|].
  apply (Hbullets "Successfully completed AI and Cloud internship project.");
    [left|discriminate].
Defined.
